(** * pydantic-wizard: introspection, handler dispatch, serialization and
      the validation repair loop

    A shallow embedding of the Python sources
    [pydantic_wizard/introspection.py], [type_handlers.py], [prompts.py],
    [serialization.py] and [validation.py], followed by the properties of
    the specification that are checked against it.

    Conventions.  Python objects are values of the inductive type [pyobj];
    a call that may raise returns an [outcome]; interactive prompts run in
    the monad [M] over the answers the operator will give and the trace of
    what has been asked so far. *)

From Stdlib Require Import ZArith NArith String Ascii List Bool Lia.
From Stdlib Require Import SpecFloat.
From stdpp Require Import base option list strings gmap sorting.

Local Open Scope string_scope.
Local Open Scope list_scope.
#[local] Set Warnings "-register-all".

(* ===================================================================== *)
(** * Part I.  Definitions                                                *)
(* ===================================================================== *)

(** ** Exceptions and fallible results *)

Inductive pyexn :=
| ValueError | TypeError | IndexError | KeyError
| InvalidOperation | OverflowError | ZeroDivisionError.

Inductive outcome (A : Type) :=
| Ok (a : A)
| Raise (e : pyexn).
Arguments Ok {A} a.
Arguments Raise {A} e.

Global Instance outcome_ret : MRet outcome := fun _ a => Ok a.
Global Instance outcome_bind : MBind outcome := fun _ _ k x =>
  match x with
  | Ok a => k a
  | Raise e => Raise e
  end.

(** [try_except c h] is Python's [try: c  except Exception: h]. *)
Definition try_except {A} (c : outcome A) (h : pyexn -> outcome A) : outcome A :=
  match c with
  | Ok a => Ok a
  | Raise e => h e
  end.

(** ** Python values *)

(** A finite [decimal.Decimal]: sign, coefficient and exponent, the triple
    that [Decimal.as_tuple] exposes.  The value is
    [(-1)^dsign * dcoeff * 10^dexp]. *)
Record decimal := Decimal { dsign : bool; dcoeff : N; dexp : Z }.

(** A naive [datetime.datetime] and [datetime.time]. *)
Record date_time := DateTime {
  year : Z; month : Z; day : Z;
  hour : Z; minute : Z; second : Z; microsecond : Z }.

Record time_of_day := TimeOfDay {
  t_hour : Z; t_minute : Z; t_second : Z; t_microsecond : Z }.

(** A [datetime.timedelta] is determined by its total number of
    microseconds (its normal form is days, seconds, microseconds). *)
Record timedelta := Timedelta { total_us : Z }.

Inductive pyobj :=
| VNone
| VUndefined                                  (* pydantic_core.PydanticUndefined *)
| VBool (b : bool)
| VInt (n : Z)
| VFloat (f : spec_float)                     (* binary64 *)
| VStr (s : string)
| VDecimal (d : decimal)
| VEnum (cls : string) (member : string) (payload : pyobj)
| VDatetime (dt : date_time)
| VTime (t : time_of_day)
| VTimedelta (td : timedelta)
| VList (items : list pyobj)
| VTuple (items : list pyobj)
| VSet (items : list pyobj)                   (* elements in iteration order *)
| VDict (items : list (pyobj * pyobj))        (* entries in insertion order *)
| VModel (cls : string) (fields : list (string * pyobj)).  (* a BaseModel instance *)

(** An enumeration class: its name and its members with their values. *)
Record enum_def := EnumDef {
  enum_name : string;
  enum_members : list (string * pyobj) }.

(** ** Text: digits, integers, decimals *)

(** Python strings are modelled by [string]; the functions that build or
    read text work on the list of its characters. *)
Abbreviation text := (list ascii).

Definition digit_char (d : N) : ascii := ascii_of_N (48 + d).
Definition digit_val (c : ascii) : N := N_of_ascii c - 48.
Definition is_digit (c : ascii) : bool :=
  (48 <=? N_of_ascii c)%N && (N_of_ascii c <=? 57)%N.

(** The number a run of decimal digits denotes, most significant first. *)
Definition digits_value (l : text) : N :=
  fold_left (fun acc c => 10 * acc + digit_val c)%N l 0%N.

Fixpoint digits_fuel (fuel : nat) (n : N) : text :=
  match fuel with
  | O => []
  | S fuel =>
      (if (n / 10 =? 0)%N then [] else digits_fuel fuel (n / 10)%N)
      ++ [digit_char (n mod 10)%N]
  end.

(** The decimal digits of [n], without leading zeros (["0"] for zero). *)
Definition digits_of_N (n : N) : text := digits_fuel (S (N.size_nat n)) n.

(** [str(z)] for an [int]; also ["%+d" % z] when [plus] is set. *)
Definition int_to_text (plus : bool) (z : Z) : text :=
  (if (z <? 0)%Z then ["-"%char] else if plus then ["+"%char] else [])
  ++ digits_of_N (Z.abs_N z).

Fixpoint span_digits (l : text) : text * text :=
  match l with
  | c :: r =>
      if is_digit c
      then let (ds, rest) := span_digits r in (c :: ds, rest)
      else ([], l)
  | [] => ([], [])
  end.

(** The text does not start with a digit. *)
Definition not_digit_first (l : text) : Prop :=
  match l with
  | [] => True
  | c :: _ => is_digit c = false
  end.

Definition parse_sign (l : text) : bool * text :=
  match l with
  | "-"%char :: r => (true, r)
  | "+"%char :: r => (false, r)
  | _ => (false, l)
  end.

(** [[-+]?\d+] up to the end of the text. *)
Definition parse_int (l : text) : option Z :=
  let (neg, r) := parse_sign l in
  let (ds, rest) := span_digits r in
  match ds, rest with
  | _ :: _, [] =>
      Some (if neg then - Z.of_N (digits_value ds) else Z.of_N (digits_value ds))%Z
  | _, _ => None
  end.

(** The exponent part of [Decimal.__str__]: empty, or [E] and ["%+d"]. *)
Definition exponent_text (leftdigits dotplace : Z) : text :=
  if (leftdigits =? dotplace)%Z then []
  else "E"%char :: int_to_text true (leftdigits - dotplace).

(** [Decimal.__str__]: the scientific string of the General Decimal
    Arithmetic specification, as [_pydecimal] computes it. *)
Definition Decimal_to_text (d : decimal) : text :=
  let sign := if dsign d then ["-"%char] else [] in
  let _int := digits_of_N (dcoeff d) in
  let len := Z.of_nat (length _int) in
  let leftdigits := (dexp d + len)%Z in
  let dotplace :=
    if (dexp d <=? 0)%Z && (-6 <? leftdigits)%Z then leftdigits else 1%Z in
  let '(intpart, fracpart) :=
    if (dotplace <=? 0)%Z then
      (["0"%char], "."%char :: repeat "0"%char (Z.to_nat (- dotplace)) ++ _int)
    else if (len <=? dotplace)%Z then
      (_int ++ repeat "0"%char (Z.to_nat (dotplace - len)), [])
    else
      (take (Z.to_nat dotplace) _int, "."%char :: drop (Z.to_nat dotplace) _int) in
  let exp := exponent_text leftdigits dotplace in
  sign ++ intpart ++ fracpart ++ exp.

(** The exponent part [([eE][-+]?\d+)?] up to the end of the text. *)
Definition parse_exponent (l : text) : option Z :=
  match l with
  | [] => Some 0%Z
  | c :: r =>
      if Ascii.eqb c "E" || Ascii.eqb c "e" then parse_int r else None
  end.

(** [Decimal(s)] for the numeric strings
    [[-+]? (\d+ (\.\d* )? | \.\d+) ([eE][-+]?\d+)?]; anything else is
    [InvalidOperation] (the special values are outside the finite model). *)
Definition Decimal_of_text (l : text) : outcome decimal :=
  let (neg, r) := parse_sign l in
  let (intpart, r1) := span_digits r in
  let (fracpart, r2) :=
    match r1 with
    | "."%char :: r' => span_digits r'
    | _ => ([], r1)
    end in
  match intpart ++ fracpart with
  | [] => Raise InvalidOperation
  | _ :: _ =>
      match parse_exponent r2 with
      | Some e =>
          Ok {| dsign := neg;
                dcoeff := digits_value (intpart ++ fracpart);
                dexp := (e - Z.of_nat (length fracpart))%Z |}
      | None => Raise InvalidOperation
      end
  end.

Definition Decimal_to_str (d : decimal) : string :=
  string_of_list_ascii (Decimal_to_text d).
Definition Decimal_of_str (s : string) : outcome decimal :=
  Decimal_of_text (list_ascii_of_string s).

(** ** Text: ISO 8601 forms of [datetime] and [time] *)

(** ["%0kd" % n] for a field that fits [k] digits. *)
Fixpoint fixed_digits (k : nat) (n : N) : text :=
  match k with
  | O => []
  | S k => fixed_digits k (n / 10)%N ++ [digit_char (n mod 10)%N]
  end.

(** Read exactly [k] digits. *)
Fixpoint read_digits (k : nat) (acc : N) (l : text) : option (N * text) :=
  match k with
  | O => Some (acc, l)
  | S k =>
      match l with
      | c :: r => if is_digit c then read_digits k (10 * acc + digit_val c)%N r
                  else None
      | [] => None
      end
  end.

Definition expect (c : ascii) (l : text) : option text :=
  match l with
  | c' :: r => if Ascii.eqb c c' then Some r else None
  | [] => None
  end.

Definition time_to_text (h m s us : Z) : text :=
  fixed_digits 2 (Z.to_N h) ++ ":"%char :: fixed_digits 2 (Z.to_N m)
  ++ ":"%char :: fixed_digits 2 (Z.to_N s)
  ++ (if (us =? 0)%Z then [] else "."%char :: fixed_digits 6 (Z.to_N us)).

(** [HH:MM:SS[.ffffff]] up to the end of the text. *)
Definition time_of_text (l : text) : option (Z * Z * Z * Z) :=
  '(h, l) ← read_digits 2 0 l;
  l ← expect ":" l;
  '(m, l) ← read_digits 2 0 l;
  l ← expect ":" l;
  '(s, l) ← read_digits 2 0 l;
  match l with
  | [] => Some (Z.of_N h, Z.of_N m, Z.of_N s, 0%Z)
  | _ =>
      l ← expect "." l;
      '(us, l) ← read_digits 6 0 l;
      match l with
      | [] => Some (Z.of_N h, Z.of_N m, Z.of_N s, Z.of_N us)
      | _ => None
      end
  end.

Definition is_leap (y : Z) : bool :=
  ((y mod 4 =? 0) && (negb (y mod 100 =? 0) || (y mod 400 =? 0)))%Z.

Definition days_in_month (y m : Z) : Z :=
  (if (m =? 2) then (if is_leap y then 29 else 28)
   else if (m =? 4) || (m =? 6) || (m =? 9) || (m =? 11) then 30
   else 31)%Z.

Definition valid_time (h m s us : Z) : bool :=
  ((0 <=? h) && (h <? 24) && (0 <=? m) && (m <? 60) &&
   (0 <=? s) && (s <? 60) && (0 <=? us) && (us <? 1000000))%Z.

(** The range checks of the [datetime] and [time] constructors. *)
Definition valid_datetime (dt : date_time) : bool :=
  ((1 <=? year dt) && (year dt <=? 9999) &&
   (1 <=? month dt) && (month dt <=? 12) &&
   (1 <=? day dt) && (day dt <=? days_in_month (year dt) (month dt)))%Z
  && valid_time (hour dt) (minute dt) (second dt) (microsecond dt).

Definition valid_time_of_day (t : time_of_day) : bool :=
  valid_time (t_hour t) (t_minute t) (t_second t) (t_microsecond t).

(** [datetime.isoformat()] *)
Definition datetime_isoformat (dt : date_time) : string :=
  string_of_list_ascii
    (fixed_digits 4 (Z.to_N (year dt)) ++ "-"%char
     :: fixed_digits 2 (Z.to_N (month dt)) ++ "-"%char
     :: fixed_digits 2 (Z.to_N (day dt)) ++ "T"%char
     :: time_to_text (hour dt) (minute dt) (second dt) (microsecond dt)).

(** [datetime.fromisoformat(s)] on the form [isoformat] writes. *)
Definition datetime_fromisoformat (s : string) : outcome date_time :=
  let parsed :=
    '(y, l) ← read_digits 4 0 (list_ascii_of_string s);
    l ← expect "-" l;
    '(mo, l) ← read_digits 2 0 l;
    l ← expect "-" l;
    '(d, l) ← read_digits 2 0 l;
    l ← expect "T" l;
    '(h, mi, sec, us) ← time_of_text l;
    Some (DateTime (Z.of_N y) (Z.of_N mo) (Z.of_N d) h mi sec us) in
  match parsed with
  | Some dt => if valid_datetime dt then Ok dt else Raise ValueError
  | None => Raise ValueError
  end.

(** [time.isoformat()] and [time.fromisoformat(s)] *)
Definition time_isoformat (t : time_of_day) : string :=
  string_of_list_ascii
    (time_to_text (t_hour t) (t_minute t) (t_second t) (t_microsecond t)).

Definition time_fromisoformat (s : string) : outcome time_of_day :=
  match time_of_text (list_ascii_of_string s) with
  | Some (h, m, sec, us) =>
      let t := TimeOfDay h m sec us in
      if valid_time_of_day t then Ok t else Raise ValueError
  | None => Raise ValueError
  end.

(** ** Floats and durations *)

(** Python's [float] is IEEE 754 binary64; its operations are those of
    [SpecFloat] at precision 53. *)
Definition prec : Z := 53.
Definition emax : Z := 1024.

(** The float nearest to the rational [a / b], ties to even: this is what
    [a / b] (true division of two [int]) and the conversion of a decimal
    literal compute. *)
Definition float_of_ratio (a b : Z) : spec_float :=
  match a, b with
  | Z0, _ => S754_zero false
  | _, Z0 => S754_nan
  | Zpos p, Zpos q => SFdiv prec emax (S754_finite false p 0) (S754_finite false q 0)
  | Zneg p, Zpos q => SFdiv prec emax (S754_finite true p 0) (S754_finite false q 0)
  | Zpos p, Zneg q => SFdiv prec emax (S754_finite true p 0) (S754_finite false q 0)
  | Zneg p, Zneg q => SFdiv prec emax (S754_finite false p 0) (S754_finite false q 0)
  end.

(** [float(n)] for an [int]. *)
Definition float_of_Z (n : Z) : spec_float := binary_normalize prec emax n 0 false.

(** [a / b] on two [int]. *)
Definition int_truediv (a b : Z) : outcome spec_float :=
  if (b =? 0)%Z then Raise ZeroDivisionError
  else match float_of_ratio a b with
       | S754_infinity _ => Raise OverflowError
       | f => Ok f
       end.

(** [math.modf]: the integral part (as an [int]) and the fractional part,
    which is exact and carries the sign of the argument. *)
Definition float_trunc (f : spec_float) : outcome Z :=
  match f with
  | S754_zero _ => Ok 0%Z
  | S754_finite s m e =>
      let a := if (0 <=? e)%Z then Z.shiftl (Zpos m) e
               else Z.shiftr (Zpos m) (- e) in
      Ok (if s then - a else a)%Z
  | S754_infinity _ => Raise OverflowError
  | S754_nan => Raise ValueError
  end.

Definition float_frac (f : spec_float) : spec_float :=
  match f with
  | S754_finite s m e =>
      if (0 <=? e)%Z then S754_zero s
      else binary_normalize prec emax
             (cond_Zopp s (Z.land (Zpos m) (Z.ones (- e)))) e s
  | S754_zero s => S754_zero s
  | S754_infinity s => S754_zero s
  | S754_nan => S754_nan
  end.

(** [round(f)] on a finite float: nearest integer, ties to even. *)
Definition float_round (f : spec_float) : outcome Z :=
  match f with
  | S754_zero _ => Ok 0%Z
  | S754_finite s m e =>
      let a :=
        if (0 <=? e)%Z then Z.shiftl (Zpos m) e
        else
          let q := Z.shiftr (Zpos m) (- e) in
          let r := Z.land (Zpos m) (Z.ones (- e)) in
          match (2 * r ?= Z.shiftl 1 (- e))%Z with
          | Lt => q
          | Gt => (q + 1)%Z
          | Eq => if Z.even q then q else (q + 1)%Z
          end in
      Ok (if s then - a else a)%Z
  | S754_infinity _ => Raise OverflowError
  | S754_nan => Raise ValueError
  end.

(** [timedelta.total_seconds()]: the total of microseconds divided by
    [10**6], as a float. *)
Definition total_seconds (td : timedelta) : spec_float :=
  float_of_ratio (total_us td) 1000000.

(** [timedelta.min] and [timedelta.max] in microseconds. *)
Definition min_timedelta_us : Z := - (999999999 * 86400 * 1000000).
Definition max_timedelta_us : Z := (999999999 * 86400 + 86399) * 1000000 + 999999.

(** [timedelta(seconds=x)] for a float [x]: whole seconds are kept
    exactly, the fraction is scaled to microseconds in float arithmetic
    and rounded half to even; out of range is [OverflowError]. *)
Definition timedelta_of_seconds (x : spec_float) : outcome timedelta :=
  seconds ← float_trunc x;
  let usdouble := SFmul prec emax (float_frac x) (float_of_Z 1000000) in
  microseconds ← float_round usdouble;
  let us := (seconds * 1000000 + microseconds)%Z in
  if (min_timedelta_us <=? us)%Z && (us <=? max_timedelta_us)%Z
  then Ok (Timedelta us) else Raise OverflowError.

(** The durations that the float of their total seconds carries exactly:
    every duration shorter than [2**33] seconds (some 272 years), to the
    microsecond, and beyond that the whole numbers of seconds in the
    range of [timedelta]. *)
Definition exact_duration (td : timedelta) : bool :=
  (Z.abs (total_us td) <? 2 ^ 33 * 1000000)%Z
  || ((total_us td mod 1000000 =? 0)%Z
      && (min_timedelta_us <=? total_us td)%Z
      && (total_us td <=? max_timedelta_us)%Z).

(** A shift record [(m, round, sticky)] locates the rational [A / B]: [m]
    is its integral part, the round bit tells whether the rest is at
    least one half, the sticky bit whether the rest is neither zero nor
    one half. *)
Definition locates (mrs : shr_record) (A B : Z) : Prop :=
  (shr_m mrs = A / B /\
   shr_r mrs = (B <=? 2 * (A mod B)) /\
   shr_s mrs = negb (A mod B =? 0) && negb (2 * (A mod B) =? B))%Z.

(** ** Built-in conversions *)

(** The text form of the objects whose [__str__] is left to the Python
    run time: floats, containers, enum members, model instances. *)
Class PyRuntime := { py_repr : pyobj -> string }.

Section Builtins.
Context `{PyRuntime}.

(** [str(v)] *)
Definition py_str (v : pyobj) : string :=
  match v with
  | VNone => "None"
  | VUndefined => "PydanticUndefined"
  | VBool true => "True"
  | VBool false => "False"
  | VInt n => string_of_list_ascii (int_to_text false n)
  | VStr s => s
  | VDecimal d => Decimal_to_str d
  | _ => py_repr v
  end.

(** [bool(v)]: truth value testing. *)
Definition py_bool (v : pyobj) : bool :=
  match v with
  | VNone => false
  | VBool b => b
  | VInt n => negb (n =? 0)%Z
  | VFloat (S754_zero _) => false
  | VStr "" => false
  | VDecimal d => negb (dcoeff d =? 0)%N
  | VTimedelta td => negb (total_us td =? 0)%Z
  | VList [] | VTuple [] | VSet [] | VDict [] => false
  | _ => true
  end.

(** The integer part of a decimal, towards zero. *)
Definition Decimal_trunc (d : decimal) : Z :=
  let a := if (0 <=? dexp d)%Z then (Z.of_N (dcoeff d) * 10 ^ dexp d)%Z
           else (Z.of_N (dcoeff d) / 10 ^ (- dexp d))%Z in
  if dsign d then (- a)%Z else a.

(** [int(v)].  Of the strings [int] accepts, the model reads the plain
    decimal literals [[-+]?\d+]. *)
Definition py_int (v : pyobj) : outcome Z :=
  match v with
  | VBool b => Ok (if b then 1 else 0)%Z
  | VInt n => Ok n
  | VFloat f => float_trunc f
  | VDecimal d => Ok (Decimal_trunc d)
  | VStr s =>
      match parse_int (list_ascii_of_string s) with
      | Some n => Ok n
      | None => Raise ValueError
      end
  | _ => Raise TypeError
  end.

(** The float nearest to a finite decimal. *)
Definition float_of_decimal (d : decimal) : spec_float :=
  match dcoeff d with
  | N0 => S754_zero (dsign d)
  | _ =>
      let m := if dsign d then (- Z.of_N (dcoeff d))%Z else Z.of_N (dcoeff d) in
      if (0 <=? dexp d)%Z then float_of_ratio (m * 10 ^ dexp d) 1
      else float_of_ratio m (10 ^ (- dexp d))
  end.

(** [float(v)].  A string is read as a decimal literal and rounded to the
    nearest float, as [float] does; the spellings of infinity and NaN are
    not read. *)
Definition py_float (v : pyobj) : outcome spec_float :=
  match v with
  | VBool b => Ok (float_of_Z (if b then 1 else 0))
  | VInt n =>
      match float_of_Z n with
      | S754_infinity _ => Raise OverflowError
      | f => Ok f
      end
  | VFloat f => Ok f
  | VDecimal d => Ok (float_of_decimal d)
  | VStr s =>
      match Decimal_of_str s with
      | Ok d => Ok (float_of_decimal d)
      | Raise _ => Raise ValueError
      end
  | _ => Raise TypeError
  end.

End Builtins.

(** Structural equality of values, used to look a value up among enum
    members and to drop duplicates when a set is built. *)
Fixpoint value_eqb (a b : pyobj) : bool :=
  let fix all2 (l l' : list pyobj) : bool :=
    match l, l' with
    | [], [] => true
    | x :: r, y :: r' => value_eqb x y && all2 r r'
    | _, _ => false
    end in
  match a, b with
  | VNone, VNone | VUndefined, VUndefined => true
  | VBool x, VBool y => Bool.eqb x y
  | VInt x, VInt y => (x =? y)%Z
  | VFloat x, VFloat y =>
      match x, y with
      | S754_zero s, S754_zero s' | S754_infinity s, S754_infinity s' => Bool.eqb s s'
      | S754_nan, S754_nan => true
      | S754_finite s m e, S754_finite s' m' e' =>
          Bool.eqb s s' && (m =? m')%positive && (e =? e')%Z
      | _, _ => false
      end
  | VStr x, VStr y => String.eqb x y
  | VDecimal x, VDecimal y =>
      Bool.eqb (dsign x) (dsign y) && (dcoeff x =? dcoeff y)%N && (dexp x =? dexp y)%Z
  | VEnum c m p, VEnum c' m' p' => String.eqb c c' && String.eqb m m' && value_eqb p p'
  | VDatetime x, VDatetime y =>
      (year x =? year y)%Z && (month x =? month y)%Z && (day x =? day y)%Z &&
      (hour x =? hour y)%Z && (minute x =? minute y)%Z &&
      (second x =? second y)%Z && (microsecond x =? microsecond y)%Z
  | VTime x, VTime y =>
      (t_hour x =? t_hour y)%Z && (t_minute x =? t_minute y)%Z &&
      (t_second x =? t_second y)%Z && (t_microsecond x =? t_microsecond y)%Z
  | VTimedelta x, VTimedelta y => (total_us x =? total_us y)%Z
  | VList l, VList l' | VTuple l, VTuple l' | VSet l, VSet l' => all2 l l'
  | VDict l, VDict l' =>
      (fix all2d (l l' : list (pyobj * pyobj)) : bool :=
         match l, l' with
         | [], [] => true
         | (k, x) :: r, (k', y) :: r' => value_eqb k k' && value_eqb x y && all2d r r'
         | _, _ => false
         end) l l'
  | VModel c l, VModel c' l' =>
      String.eqb c c' &&
      (fix all2m (l l' : list (string * pyobj)) : bool :=
         match l, l' with
         | [], [] => true
         | (k, x) :: r, (k', y) :: r' => String.eqb k k' && value_eqb x y && all2m r r'
         | _, _ => false
         end) l l'
  | _, _ => false
  end.

Definition value_in (x : pyobj) (l : list pyobj) : bool :=
  existsb (value_eqb x) l.

(** Keep the first occurrence of every element. *)
Definition dedup_values (l : list pyobj) : list pyobj :=
  fold_left (fun acc x => if value_in x acc then acc else acc ++ [x]) l [].

(** Unhashable objects cannot be members of a set or keys of a dict. *)
Fixpoint hashable (v : pyobj) : bool :=
  match v with
  | VList _ | VSet _ | VDict _ | VModel _ _ => false
  | VTuple l => forallb hashable l
  | _ => true
  end.

(** Iterating over a value, as [list(v)], [set(v)] and [for x in v] do. *)
Definition py_iter (v : pyobj) : outcome (list pyobj) :=
  match v with
  | VList l | VTuple l | VSet l => Ok l
  | VDict kv => Ok (map fst kv)
  | VStr s => Ok (map (fun c => VStr (String c "")) (list_ascii_of_string s))
  | VModel _ fields => Ok (map (fun kv => VTuple [VStr (fst kv); snd kv]) fields)
  | _ => Raise TypeError
  end.

(** [list(v)] *)
Definition py_list (v : pyobj) : outcome pyobj :=
  l ← py_iter v; Ok (VList l).

(** [set(v)].  The iteration order of the new set is decided by the
    hashes; the model lists the elements by first occurrence, and nothing
    below depends on that choice except through [list] and [sorted]. *)
Definition py_set (v : pyobj) : outcome pyobj :=
  l ← py_iter v;
  if forallb hashable l then Ok (VSet (dedup_values l)) else Raise TypeError.

(** [d[k] = v] on the entries of a dict: replace in place or append. *)
Fixpoint dict_set (k v : pyobj) (kv : list (pyobj * pyobj)) : list (pyobj * pyobj) :=
  match kv with
  | [] => [(k, v)]
  | (k', v') :: rest =>
      if value_eqb k k' then (k', v) :: rest else (k', v') :: dict_set k v rest
  end.

(** [dict(v)] *)
Definition py_dict (v : pyobj) : outcome pyobj :=
  match v with
  | VDict kv => Ok (VDict kv)
  | _ =>
      l ← py_iter v;
      kv ← fold_left (fun acc item =>
                        kv ← acc;
                        match item with
                        | VTuple [k; x] | VList [k; x] =>
                            if hashable k then Ok (dict_set k x kv) else Raise TypeError
                        | VTuple _ | VList _ => Raise ValueError
                        | _ => Raise TypeError
                        end) l (Ok []);
      Ok (VDict kv)
  end.

(** [model.model_dump()]: nested model instances become dicts, in fields
    and inside containers; other values are kept. *)
Fixpoint dump (v : pyobj) : pyobj :=
  match v with
  | VModel _ fields => VDict (map (fun kv => (VStr (fst kv), dump (snd kv))) fields)
  | VList l => VList (map dump l)
  | VTuple l => VTuple (map dump l)
  | VSet l => VSet (map dump l)
  | VDict kv => VDict (map (fun e => (fst e, dump (snd e))) kv)
  | _ => v
  end.

Definition model_dump (v : pyobj) : pyobj := dump v.

(** [enum_type(raw)]: the member itself, or the member with that value. *)
Definition is_member_of (e : enum_def) (v : pyobj) : bool :=
  match v with
  | VEnum cls _ _ => String.eqb cls (enum_name e)
  | _ => false
  end.

Definition enum_call (e : enum_def) (raw : pyobj) : outcome pyobj :=
  if is_member_of e raw then Ok raw
  else
    match find (fun mv => value_eqb (snd mv) raw) (enum_members e) with
    | Some (m, v) => Ok (VEnum (enum_name e) m v)
    | None => Raise ValueError
    end.

(** ** Type annotations *)

Inductive pyclass :=
| CBool | CStr | CInt | CFloat | CDecimal
| CDatetime | CTime | CTimedelta
| CNoneType
| CEnum (e : enum_def)            (* a subclass of enum.Enum *)
| CModel (name : string)          (* a subclass of pydantic.BaseModel *)
| CClass (name : string).         (* any other class: bytes, bare list, ... *)

(** What [typing.get_origin] can return. *)
Inductive type_origin :=
| OUnionType                      (* types.UnionType: [X | Y] *)
| OTypingUnion                    (* typing.Union *)
| OList | OSet | ODict
| OLiteral
| OOther (qualname : string).     (* tuple, frozenset, a user generic, ... *)

(** An annotation is any object: a class, a special form without origin
    ([Any], a type variable, a forward reference), a parameterised form
    [origin[args]], or a plain value (the arguments of [Literal]). *)
Inductive type_annotation :=
| Plain (c : pyclass)
| Special (name : string)
| Const (v : pyobj)
| Generic (o : type_origin) (args : list type_annotation).

Definition Any : type_annotation := Special "Any".

Definition get_origin (a : type_annotation) : option type_origin :=
  match a with
  | Generic o _ => Some o
  | _ => None
  end.

Definition get_args (a : type_annotation) : list type_annotation :=
  match a with
  | Generic _ args => args
  | _ => []
  end.

(** [getattr(origin, "__qualname__", None)] *)
Definition qualname (o : type_origin) : string :=
  match o with
  | OUnionType => "UnionType"
  | OTypingUnion => "Union"
  | OList => "list"
  | OSet => "set"
  | ODict => "dict"
  | OLiteral => "Literal"
  | OOther q => q
  end.

(** ** introspection.py: FieldSpec *)

(** A default factory is a callable without arguments: calling it returns
    a value or raises. *)
Definition factory := unit -> outcome pyobj.

Record FieldSpec := mkFieldSpec {
  name : string;
  annotation : option type_annotation;
  origin : option type_origin;
  args : list type_annotation;
  default : pyobj;
  default_factory : option factory;
  description : option string;
  constraints : gmap string pyobj;
  is_required : bool;
  is_optional : bool;
  is_init : bool;
  inner_type : option type_annotation;
  is_enum : bool;
  is_literal : bool;
  is_pydantic_model : bool;
  is_union : bool;
  union_types : list type_annotation;
  is_list : bool;
  is_set : bool;
  is_dict : bool;
  key_type : option type_annotation;
  value_type : option type_annotation }.

(** [FieldSpec(name=n)]: every other field at its dataclass default. *)
Definition FieldSpec_new (n : string) : FieldSpec :=
  {| name := n; annotation := None; origin := None; args := [];
     default := VUndefined; default_factory := None; description := None;
     constraints := ∅; is_required := true; is_optional := false;
     is_init := true; inner_type := None; is_enum := false;
     is_literal := false; is_pydantic_model := false; is_union := false;
     union_types := []; is_list := false; is_set := false; is_dict := false;
     key_type := None; value_type := None |}.

(** Attribute assignment [spec.f = v], one setter per attribute. *)

Definition set_name (v : string) (spec : FieldSpec) : FieldSpec :=
  {| name := v; annotation := annotation spec; origin := origin spec; args
     := args spec; default := default spec; default_factory :=
     default_factory spec; description := description spec; constraints :=
     constraints spec; is_required := is_required spec; is_optional :=
     is_optional spec; is_init := is_init spec; inner_type := inner_type
     spec; is_enum := is_enum spec; is_literal := is_literal spec;
     is_pydantic_model := is_pydantic_model spec; is_union := is_union
     spec; union_types := union_types spec; is_list := is_list spec;
     is_set := is_set spec; is_dict := is_dict spec; key_type := key_type
     spec; value_type := value_type spec |}.

Definition set_annotation (v : option type_annotation) (spec : FieldSpec) : FieldSpec :=
  {| name := name spec; annotation := v; origin := origin spec; args :=
     args spec; default := default spec; default_factory :=
     default_factory spec; description := description spec; constraints :=
     constraints spec; is_required := is_required spec; is_optional :=
     is_optional spec; is_init := is_init spec; inner_type := inner_type
     spec; is_enum := is_enum spec; is_literal := is_literal spec;
     is_pydantic_model := is_pydantic_model spec; is_union := is_union
     spec; union_types := union_types spec; is_list := is_list spec;
     is_set := is_set spec; is_dict := is_dict spec; key_type := key_type
     spec; value_type := value_type spec |}.

Definition set_origin (v : option type_origin) (spec : FieldSpec) : FieldSpec :=
  {| name := name spec; annotation := annotation spec; origin := v; args
     := args spec; default := default spec; default_factory :=
     default_factory spec; description := description spec; constraints :=
     constraints spec; is_required := is_required spec; is_optional :=
     is_optional spec; is_init := is_init spec; inner_type := inner_type
     spec; is_enum := is_enum spec; is_literal := is_literal spec;
     is_pydantic_model := is_pydantic_model spec; is_union := is_union
     spec; union_types := union_types spec; is_list := is_list spec;
     is_set := is_set spec; is_dict := is_dict spec; key_type := key_type
     spec; value_type := value_type spec |}.

Definition set_args (v : list type_annotation) (spec : FieldSpec) : FieldSpec :=
  {| name := name spec; annotation := annotation spec; origin := origin
     spec; args := v; default := default spec; default_factory :=
     default_factory spec; description := description spec; constraints :=
     constraints spec; is_required := is_required spec; is_optional :=
     is_optional spec; is_init := is_init spec; inner_type := inner_type
     spec; is_enum := is_enum spec; is_literal := is_literal spec;
     is_pydantic_model := is_pydantic_model spec; is_union := is_union
     spec; union_types := union_types spec; is_list := is_list spec;
     is_set := is_set spec; is_dict := is_dict spec; key_type := key_type
     spec; value_type := value_type spec |}.

Definition set_default (v : pyobj) (spec : FieldSpec) : FieldSpec :=
  {| name := name spec; annotation := annotation spec; origin := origin
     spec; args := args spec; default := v; default_factory :=
     default_factory spec; description := description spec; constraints :=
     constraints spec; is_required := is_required spec; is_optional :=
     is_optional spec; is_init := is_init spec; inner_type := inner_type
     spec; is_enum := is_enum spec; is_literal := is_literal spec;
     is_pydantic_model := is_pydantic_model spec; is_union := is_union
     spec; union_types := union_types spec; is_list := is_list spec;
     is_set := is_set spec; is_dict := is_dict spec; key_type := key_type
     spec; value_type := value_type spec |}.

Definition set_default_factory (v : option factory) (spec : FieldSpec) : FieldSpec :=
  {| name := name spec; annotation := annotation spec; origin := origin
     spec; args := args spec; default := default spec; default_factory :=
     v; description := description spec; constraints := constraints spec;
     is_required := is_required spec; is_optional := is_optional spec;
     is_init := is_init spec; inner_type := inner_type spec; is_enum :=
     is_enum spec; is_literal := is_literal spec; is_pydantic_model :=
     is_pydantic_model spec; is_union := is_union spec; union_types :=
     union_types spec; is_list := is_list spec; is_set := is_set spec;
     is_dict := is_dict spec; key_type := key_type spec; value_type :=
     value_type spec |}.

Definition set_description (v : option string) (spec : FieldSpec) : FieldSpec :=
  {| name := name spec; annotation := annotation spec; origin := origin
     spec; args := args spec; default := default spec; default_factory :=
     default_factory spec; description := v; constraints := constraints
     spec; is_required := is_required spec; is_optional := is_optional
     spec; is_init := is_init spec; inner_type := inner_type spec; is_enum
     := is_enum spec; is_literal := is_literal spec; is_pydantic_model :=
     is_pydantic_model spec; is_union := is_union spec; union_types :=
     union_types spec; is_list := is_list spec; is_set := is_set spec;
     is_dict := is_dict spec; key_type := key_type spec; value_type :=
     value_type spec |}.

Definition set_constraints (v : gmap string pyobj) (spec : FieldSpec) : FieldSpec :=
  {| name := name spec; annotation := annotation spec; origin := origin
     spec; args := args spec; default := default spec; default_factory :=
     default_factory spec; description := description spec; constraints :=
     v; is_required := is_required spec; is_optional := is_optional spec;
     is_init := is_init spec; inner_type := inner_type spec; is_enum :=
     is_enum spec; is_literal := is_literal spec; is_pydantic_model :=
     is_pydantic_model spec; is_union := is_union spec; union_types :=
     union_types spec; is_list := is_list spec; is_set := is_set spec;
     is_dict := is_dict spec; key_type := key_type spec; value_type :=
     value_type spec |}.

Definition set_is_required (v : bool) (spec : FieldSpec) : FieldSpec :=
  {| name := name spec; annotation := annotation spec; origin := origin
     spec; args := args spec; default := default spec; default_factory :=
     default_factory spec; description := description spec; constraints :=
     constraints spec; is_required := v; is_optional := is_optional spec;
     is_init := is_init spec; inner_type := inner_type spec; is_enum :=
     is_enum spec; is_literal := is_literal spec; is_pydantic_model :=
     is_pydantic_model spec; is_union := is_union spec; union_types :=
     union_types spec; is_list := is_list spec; is_set := is_set spec;
     is_dict := is_dict spec; key_type := key_type spec; value_type :=
     value_type spec |}.

Definition set_is_optional (v : bool) (spec : FieldSpec) : FieldSpec :=
  {| name := name spec; annotation := annotation spec; origin := origin
     spec; args := args spec; default := default spec; default_factory :=
     default_factory spec; description := description spec; constraints :=
     constraints spec; is_required := is_required spec; is_optional := v;
     is_init := is_init spec; inner_type := inner_type spec; is_enum :=
     is_enum spec; is_literal := is_literal spec; is_pydantic_model :=
     is_pydantic_model spec; is_union := is_union spec; union_types :=
     union_types spec; is_list := is_list spec; is_set := is_set spec;
     is_dict := is_dict spec; key_type := key_type spec; value_type :=
     value_type spec |}.

Definition set_is_init (v : bool) (spec : FieldSpec) : FieldSpec :=
  {| name := name spec; annotation := annotation spec; origin := origin
     spec; args := args spec; default := default spec; default_factory :=
     default_factory spec; description := description spec; constraints :=
     constraints spec; is_required := is_required spec; is_optional :=
     is_optional spec; is_init := v; inner_type := inner_type spec;
     is_enum := is_enum spec; is_literal := is_literal spec;
     is_pydantic_model := is_pydantic_model spec; is_union := is_union
     spec; union_types := union_types spec; is_list := is_list spec;
     is_set := is_set spec; is_dict := is_dict spec; key_type := key_type
     spec; value_type := value_type spec |}.

Definition set_inner_type (v : option type_annotation) (spec : FieldSpec) : FieldSpec :=
  {| name := name spec; annotation := annotation spec; origin := origin
     spec; args := args spec; default := default spec; default_factory :=
     default_factory spec; description := description spec; constraints :=
     constraints spec; is_required := is_required spec; is_optional :=
     is_optional spec; is_init := is_init spec; inner_type := v; is_enum
     := is_enum spec; is_literal := is_literal spec; is_pydantic_model :=
     is_pydantic_model spec; is_union := is_union spec; union_types :=
     union_types spec; is_list := is_list spec; is_set := is_set spec;
     is_dict := is_dict spec; key_type := key_type spec; value_type :=
     value_type spec |}.

Definition set_is_enum (v : bool) (spec : FieldSpec) : FieldSpec :=
  {| name := name spec; annotation := annotation spec; origin := origin
     spec; args := args spec; default := default spec; default_factory :=
     default_factory spec; description := description spec; constraints :=
     constraints spec; is_required := is_required spec; is_optional :=
     is_optional spec; is_init := is_init spec; inner_type := inner_type
     spec; is_enum := v; is_literal := is_literal spec; is_pydantic_model
     := is_pydantic_model spec; is_union := is_union spec; union_types :=
     union_types spec; is_list := is_list spec; is_set := is_set spec;
     is_dict := is_dict spec; key_type := key_type spec; value_type :=
     value_type spec |}.

Definition set_is_literal (v : bool) (spec : FieldSpec) : FieldSpec :=
  {| name := name spec; annotation := annotation spec; origin := origin
     spec; args := args spec; default := default spec; default_factory :=
     default_factory spec; description := description spec; constraints :=
     constraints spec; is_required := is_required spec; is_optional :=
     is_optional spec; is_init := is_init spec; inner_type := inner_type
     spec; is_enum := is_enum spec; is_literal := v; is_pydantic_model :=
     is_pydantic_model spec; is_union := is_union spec; union_types :=
     union_types spec; is_list := is_list spec; is_set := is_set spec;
     is_dict := is_dict spec; key_type := key_type spec; value_type :=
     value_type spec |}.

Definition set_is_pydantic_model (v : bool) (spec : FieldSpec) : FieldSpec :=
  {| name := name spec; annotation := annotation spec; origin := origin
     spec; args := args spec; default := default spec; default_factory :=
     default_factory spec; description := description spec; constraints :=
     constraints spec; is_required := is_required spec; is_optional :=
     is_optional spec; is_init := is_init spec; inner_type := inner_type
     spec; is_enum := is_enum spec; is_literal := is_literal spec;
     is_pydantic_model := v; is_union := is_union spec; union_types :=
     union_types spec; is_list := is_list spec; is_set := is_set spec;
     is_dict := is_dict spec; key_type := key_type spec; value_type :=
     value_type spec |}.

Definition set_is_union (v : bool) (spec : FieldSpec) : FieldSpec :=
  {| name := name spec; annotation := annotation spec; origin := origin
     spec; args := args spec; default := default spec; default_factory :=
     default_factory spec; description := description spec; constraints :=
     constraints spec; is_required := is_required spec; is_optional :=
     is_optional spec; is_init := is_init spec; inner_type := inner_type
     spec; is_enum := is_enum spec; is_literal := is_literal spec;
     is_pydantic_model := is_pydantic_model spec; is_union := v;
     union_types := union_types spec; is_list := is_list spec; is_set :=
     is_set spec; is_dict := is_dict spec; key_type := key_type spec;
     value_type := value_type spec |}.

Definition set_union_types (v : list type_annotation) (spec : FieldSpec) : FieldSpec :=
  {| name := name spec; annotation := annotation spec; origin := origin
     spec; args := args spec; default := default spec; default_factory :=
     default_factory spec; description := description spec; constraints :=
     constraints spec; is_required := is_required spec; is_optional :=
     is_optional spec; is_init := is_init spec; inner_type := inner_type
     spec; is_enum := is_enum spec; is_literal := is_literal spec;
     is_pydantic_model := is_pydantic_model spec; is_union := is_union
     spec; union_types := v; is_list := is_list spec; is_set := is_set
     spec; is_dict := is_dict spec; key_type := key_type spec; value_type
     := value_type spec |}.

Definition set_is_list (v : bool) (spec : FieldSpec) : FieldSpec :=
  {| name := name spec; annotation := annotation spec; origin := origin
     spec; args := args spec; default := default spec; default_factory :=
     default_factory spec; description := description spec; constraints :=
     constraints spec; is_required := is_required spec; is_optional :=
     is_optional spec; is_init := is_init spec; inner_type := inner_type
     spec; is_enum := is_enum spec; is_literal := is_literal spec;
     is_pydantic_model := is_pydantic_model spec; is_union := is_union
     spec; union_types := union_types spec; is_list := v; is_set := is_set
     spec; is_dict := is_dict spec; key_type := key_type spec; value_type
     := value_type spec |}.

Definition set_is_set (v : bool) (spec : FieldSpec) : FieldSpec :=
  {| name := name spec; annotation := annotation spec; origin := origin
     spec; args := args spec; default := default spec; default_factory :=
     default_factory spec; description := description spec; constraints :=
     constraints spec; is_required := is_required spec; is_optional :=
     is_optional spec; is_init := is_init spec; inner_type := inner_type
     spec; is_enum := is_enum spec; is_literal := is_literal spec;
     is_pydantic_model := is_pydantic_model spec; is_union := is_union
     spec; union_types := union_types spec; is_list := is_list spec;
     is_set := v; is_dict := is_dict spec; key_type := key_type spec;
     value_type := value_type spec |}.

Definition set_is_dict (v : bool) (spec : FieldSpec) : FieldSpec :=
  {| name := name spec; annotation := annotation spec; origin := origin
     spec; args := args spec; default := default spec; default_factory :=
     default_factory spec; description := description spec; constraints :=
     constraints spec; is_required := is_required spec; is_optional :=
     is_optional spec; is_init := is_init spec; inner_type := inner_type
     spec; is_enum := is_enum spec; is_literal := is_literal spec;
     is_pydantic_model := is_pydantic_model spec; is_union := is_union
     spec; union_types := union_types spec; is_list := is_list spec;
     is_set := is_set spec; is_dict := v; key_type := key_type spec;
     value_type := value_type spec |}.

Definition set_key_type (v : option type_annotation) (spec : FieldSpec) : FieldSpec :=
  {| name := name spec; annotation := annotation spec; origin := origin
     spec; args := args spec; default := default spec; default_factory :=
     default_factory spec; description := description spec; constraints :=
     constraints spec; is_required := is_required spec; is_optional :=
     is_optional spec; is_init := is_init spec; inner_type := inner_type
     spec; is_enum := is_enum spec; is_literal := is_literal spec;
     is_pydantic_model := is_pydantic_model spec; is_union := is_union
     spec; union_types := union_types spec; is_list := is_list spec;
     is_set := is_set spec; is_dict := is_dict spec; key_type := v;
     value_type := value_type spec |}.

Definition set_value_type (v : option type_annotation) (spec : FieldSpec) : FieldSpec :=
  {| name := name spec; annotation := annotation spec; origin := origin
     spec; args := args spec; default := default spec; default_factory :=
     default_factory spec; description := description spec; constraints :=
     constraints spec; is_required := is_required spec; is_optional :=
     is_optional spec; is_init := is_init spec; inner_type := inner_type
     spec; is_enum := is_enum spec; is_literal := is_literal spec;
     is_pydantic_model := is_pydantic_model spec; is_union := is_union
     spec; union_types := union_types spec; is_list := is_list spec;
     is_set := is_set spec; is_dict := is_dict spec; key_type := key_type
     spec; value_type := v |}.

(** *** The schema collaborator: pydantic's [FieldInfo] and model classes *)

Module FieldInfo.
Record t := Make {
  annotation : option type_annotation;
  default : pyobj;                      (* [VUndefined] when not given *)
  default_factory : option factory;
  description : option string;
  metadata : list (gmap string pyobj);  (* constraint objects, by attribute *)
  init : option bool;
  frozen : option bool }.
End FieldInfo.

Record BaseModelClass := ModelClass {
  __name__ : string;
  model_fields : list (string * FieldInfo.t) }.

(** *** Helpers of introspection.py *)

Definition _is_none_type (tp : type_annotation) : bool :=
  match tp with
  | Plain CNoneType => true
  | _ => false
  end.

(** [isinstance(tp, type)] *)
Definition isinstance_type (tp : type_annotation) : bool :=
  match tp with
  | Plain _ => true
  | _ => false
  end.

Inductive base_class := BaseModel | Enum.

(** [issubclass(tp, base)]: raises [TypeError] when [tp] is not a class. *)
Definition issubclass (tp : type_annotation) (base : base_class) : outcome bool :=
  match tp, base with
  | Plain (CEnum _), Enum => Ok true
  | Plain (CModel _), BaseModel => Ok true
  | Plain _, _ => Ok false
  | _, _ => Raise TypeError
  end.

Definition _is_pydantic_model (tp : type_annotation) : bool :=
  match try_except
          (if isinstance_type tp then issubclass tp BaseModel else Ok false)
          (fun _ => Ok false) with
  | Ok b => b
  | Raise _ => false
  end.

Definition _is_enum_type (tp : type_annotation) : bool :=
  match try_except
          (if isinstance_type tp then issubclass tp Enum else Ok false)
          (fun _ => Ok false) with
  | Ok b => b
  | Raise _ => false
  end.

Definition constraint_attrs : list string :=
  ["ge"; "le"; "gt"; "lt"; "min_length"; "max_length"; "pattern"].

Definition _extract_constraints (field_info : FieldInfo.t) : gmap string pyobj :=
  foldl (fun constraints meta =>
           foldl (fun constraints attr =>
                    match meta !! attr with          (* getattr(meta, attr, None) *)
                    | Some VNone | None => constraints
                    | Some val => <[attr := val]> constraints
                    end)
                 constraints constraint_attrs)
        ∅ (FieldInfo.metadata field_info).

(** [seq[i]], raising [IndexError] out of range. *)
Definition index {A} (l : list A) (i : nat) : outcome A :=
  match l !! i with
  | Some x => Ok x
  | None => Raise IndexError
  end.

(** *** _resolve_type *)

Definition is_union_type (o : option type_origin) : bool :=
  match o with
  | Some OUnionType => true
  | _ => false
  end.

Definition is_typing_union (o : option type_origin) : bool :=
  match o with
  | Some o => String.eqb (qualname o) "Union"
  | None => false
  end.

Definition origin_is (k : type_origin) (o : option type_origin) : bool :=
  match o, k with
  | Some OList, OList | Some OSet, OSet | Some ODict, ODict
  | Some OLiteral, OLiteral => true
  | _, _ => false
  end.

(** The body shared by the two union branches.  [resolved] stands for the
    recursive call [_resolve_type(non_none[0])]. *)
Definition resolve_union (spec : FieldSpec) (args : list type_annotation)
    (resolved : outcome FieldSpec) : outcome FieldSpec :=
  let non_none := List.filter (fun a => negb (_is_none_type a)) args in
  let has_none := (length non_none <? length args)%nat in
  let spec := set_is_optional has_none spec in
  if (length non_none =? 1)%nat then
    inner ← resolved;
    first ← index non_none 0;
    let spec := set_inner_type (Some first) spec in
    let spec := set_is_enum (is_enum inner) spec in
    let spec := set_is_literal (is_literal inner) spec in
    let spec := set_is_pydantic_model (is_pydantic_model inner) spec in
    let spec := set_is_list (is_list inner) spec in
    let spec := set_is_set (is_set inner) spec in
    let spec := set_is_dict (is_dict inner) spec in
    let spec := set_union_types (union_types inner) spec in
    let spec := set_is_union (is_union inner) spec in
    let spec := set_key_type (key_type inner) spec in
    let spec := set_value_type (value_type inner) spec in
    let spec :=
      match inner_type inner with
      | Some t => set_inner_type (Some t) spec
      | None => spec
      end in
    Ok spec
  else if (1 <? length non_none)%nat then
    Ok (set_union_types non_none (set_is_union true spec))
  else Ok spec.

(** The body of [_resolve_type], with the recursive call passed in. *)
Definition resolve_with (resolved : outcome FieldSpec)
    (annotation : type_annotation) : outcome FieldSpec :=
  let spec := FieldSpec_new "" in
  let origin := get_origin annotation in
  let args := get_args annotation in
  let spec := set_origin origin spec in
  let spec := set_args args spec in
  if is_union_type origin then resolve_union spec args resolved
  else if is_typing_union origin then resolve_union spec args resolved
  else if origin_is OList origin then
    let spec := set_is_list true spec in
    inner ← (if bool_decide (args = []) then Ok Any else index args 0);
    Ok (set_inner_type (Some inner) spec)
  else if origin_is OSet origin then
    let spec := set_is_set true spec in
    inner ← (if bool_decide (args = []) then Ok Any else index args 0);
    Ok (set_inner_type (Some inner) spec)
  else if origin_is ODict origin then
    let spec := set_is_dict true spec in
    k ← (if bool_decide (args = []) then Ok (Plain CStr) else index args 0);
    let spec := set_key_type (Some k) spec in
    v ← (if (1 <? length args)%nat then index args 1 else Ok Any);
    Ok (set_value_type (Some v) spec)
  else if origin_is OLiteral origin then
    Ok (set_is_literal true spec)
  else
    let spec :=
      if _is_enum_type annotation then set_is_enum true spec
      else if _is_pydantic_model annotation then set_is_pydantic_model true spec
      else spec in
    Ok (set_inner_type (Some annotation) spec).

(** [rec(non_none[0])] where [non_none] are the members of [l] that are not
    [NoneType]; [IndexError] when there is none. *)
Definition on_first_non_none {A} (rec : type_annotation -> outcome A)
    : list type_annotation -> outcome A :=
  fix go (l : list type_annotation) : outcome A :=
    match l with
    | [] => Raise IndexError
    | a :: rest => if _is_none_type a then go rest else rec a
    end.

(** [_resolve_type(annotation)].  The only recursive call is on the first
    argument that is not [NoneType]. *)
Fixpoint _resolve_type (annotation : type_annotation) : outcome FieldSpec :=
  resolve_with
    match annotation with
    | Generic _ args => on_first_non_none _resolve_type args
    | _ => Raise IndexError
    end
    annotation.

(** *** introspect_model *)

(** One iteration of the loop over [model_fields.items()]; [None] is the
    [continue] taken when the field has no annotation. *)
Definition introspect_field (name : string) (field_info : FieldInfo.t)
    : outcome (option FieldSpec) :=
  match FieldInfo.annotation field_info with
  | None => Ok None
  | Some annotation =>
      resolved ← _resolve_type annotation;
      let resolved := set_name name resolved in
      let resolved := set_annotation (Some annotation) resolved in
      let resolved := set_description (FieldInfo.description field_info) resolved in
      let resolved := set_constraints (_extract_constraints field_info) resolved in
      let resolved :=
        match FieldInfo.default field_info with
        | VUndefined =>
            match FieldInfo.default_factory field_info with
            | Some f => set_is_required false (set_default_factory (Some f) resolved)
            | None => resolved
            end
        | d => set_is_required false (set_default d resolved)
        end in
      let resolved :=
        if is_optional resolved && is_required resolved
        then set_is_required false (set_default VNone resolved)
        else resolved in
      let resolved :=
        match FieldInfo.init field_info with
        | Some false => set_is_init false resolved
        | _ => resolved
        end in
      let resolved :=
        match FieldInfo.frozen field_info with
        | Some true => set_is_init false resolved
        | _ => resolved
        end in
      Ok (Some resolved)
  end.

Fixpoint introspect_fields (fields : list (string * FieldInfo.t))
    : outcome (list FieldSpec) :=
  match fields with
  | [] => Ok []
  | (name, field_info) :: rest =>
      r ← introspect_field name field_info;
      specs ← introspect_fields rest;
      Ok (match r with Some spec => spec :: specs | None => specs end)
  end.

Definition introspect_model (model_class : BaseModelClass)
    : outcome (list FieldSpec) :=
  introspect_fields (model_fields model_class).

(** ** type_handlers.py: the handlers' applicability and the registry *)

(** A handler supplied by a caller through [register]. *)
Record custom_handler := CustomHandlerOf {
  ch_name : string;
  ch_can_handle : FieldSpec -> bool;
  ch_serialize : pyobj -> outcome pyobj;
  ch_deserialize : pyobj -> FieldSpec -> outcome pyobj }.

(** The handler objects: one per built-in class, or a custom one. *)
Inductive Handler :=
| OptionalHandler | UnionHandler | ListHandler | SetHandler | DictHandler
| BoolHandler | EnumHandler | LiteralHandler | DecimalHandler | IntHandler
| FloatHandler | DatetimeHandler | TimeHandler | TimedeltaHandler
| PydanticModelHandler | StrHandler
| CustomHandler (h : custom_handler).

(** [spec.inner_type is c] for one of the classes the handlers test. *)
Definition inner_type_is (c : pyclass) (spec : FieldSpec) : bool :=
  match inner_type spec, c with
  | Some (Plain CBool), CBool
  | Some (Plain CStr), CStr
  | Some (Plain CInt), CInt
  | Some (Plain CFloat), CFloat
  | Some (Plain CDecimal), CDecimal
  | Some (Plain CDatetime), CDatetime
  | Some (Plain CTime), CTime
  | Some (Plain CTimedelta), CTimedelta => true
  | _, _ => false
  end.

Definition can_handle (h : Handler) (spec : FieldSpec) : bool :=
  match h with
  | BoolHandler => inner_type_is CBool spec
  | StrHandler => inner_type_is CStr spec
  | IntHandler => inner_type_is CInt spec
  | FloatHandler => inner_type_is CFloat spec
  | DecimalHandler => inner_type_is CDecimal spec
  | EnumHandler => is_enum spec
  | LiteralHandler => is_literal spec
  | DatetimeHandler => inner_type_is CDatetime spec
  | TimeHandler => inner_type_is CTime spec
  | TimedeltaHandler => inner_type_is CTimedelta spec
  | OptionalHandler => is_optional spec
  | ListHandler => is_list spec
  | SetHandler => is_set spec
  | DictHandler => is_dict spec
  | UnionHandler => is_union spec && negb (is_optional spec)
  | PydanticModelHandler => is_pydantic_model spec
  | CustomHandler h => ch_can_handle h spec
  end.

Record TypeHandlerRegistry := Registry { _handlers : list Handler }.

(** [TypeHandlerRegistry()] *)
Definition TypeHandlerRegistry_new : TypeHandlerRegistry :=
  {| _handlers :=
       [ OptionalHandler; UnionHandler; ListHandler; SetHandler; DictHandler;
         BoolHandler; EnumHandler; LiteralHandler; DecimalHandler; IntHandler;
         FloatHandler; DatetimeHandler; TimeHandler; TimedeltaHandler;
         PydanticModelHandler; StrHandler ] |}.

Definition register (handler : Handler) (priority : bool)
    (self : TypeHandlerRegistry) : TypeHandlerRegistry :=
  if priority
  then {| _handlers := handler :: _handlers self |}
  else {| _handlers := _handlers self ++ [handler] |}.

Fixpoint first_handler (hs : list Handler) (spec : FieldSpec) : option Handler :=
  match hs with
  | [] => None
  | handler :: rest =>
      if can_handle handler spec then Some handler else first_handler rest spec
  end.

Definition get_handler (self : TypeHandlerRegistry) (spec : FieldSpec)
    : option Handler :=
  first_handler (_handlers self) spec.


(** ** type_handlers.py: serialize and deserialize *)

Section Transport.
Context `{PyRuntime}.

Definition BoolHandler_serialize (value : pyobj) : outcome pyobj :=
  Ok (VBool (py_bool value)).
Definition BoolHandler_deserialize (raw : pyobj) (spec : FieldSpec) : outcome pyobj :=
  Ok (VBool (py_bool raw)).

Definition StrHandler_serialize (value : pyobj) : outcome pyobj :=
  Ok (VStr (py_str value)).
Definition StrHandler_deserialize (raw : pyobj) (spec : FieldSpec) : outcome pyobj :=
  Ok (VStr (py_str raw)).

Definition IntHandler_serialize (value : pyobj) : outcome pyobj :=
  n ← py_int value; Ok (VInt n).
Definition IntHandler_deserialize (raw : pyobj) (spec : FieldSpec) : outcome pyobj :=
  n ← py_int raw; Ok (VInt n).

Definition FloatHandler_serialize (value : pyobj) : outcome pyobj :=
  f ← py_float value; Ok (VFloat f).
Definition FloatHandler_deserialize (raw : pyobj) (spec : FieldSpec) : outcome pyobj :=
  f ← py_float raw; Ok (VFloat f).

Definition DecimalHandler_serialize (value : pyobj) : outcome pyobj :=
  Ok (VStr (py_str value)).
Definition DecimalHandler_deserialize (raw : pyobj) (spec : FieldSpec) : outcome pyobj :=
  d ← Decimal_of_str (py_str raw); Ok (VDecimal d).

Definition EnumHandler_serialize (value : pyobj) : outcome pyobj :=
  match value with
  | VEnum _ _ payload => Ok payload          (* value.value *)
  | _ => Ok value
  end.
Definition EnumHandler_deserialize (raw : pyobj) (spec : FieldSpec) : outcome pyobj :=
  match inner_type spec with
  | Some (Plain (CEnum enum_type)) => enum_call enum_type raw
  | _ => Ok raw
  end.

Definition LiteralHandler_serialize (value : pyobj) : outcome pyobj := Ok value.
Definition LiteralHandler_deserialize (raw : pyobj) (spec : FieldSpec) : outcome pyobj :=
  Ok raw.

Definition DatetimeHandler_serialize (value : pyobj) : outcome pyobj :=
  match value with
  | VDatetime dt => Ok (VStr (datetime_isoformat dt))
  | _ => Ok value
  end.
Definition DatetimeHandler_deserialize (raw : pyobj) (spec : FieldSpec) : outcome pyobj :=
  match raw with
  | VStr s => dt ← datetime_fromisoformat s; Ok (VDatetime dt)
  | _ => Ok raw
  end.

Definition TimeHandler_serialize (value : pyobj) : outcome pyobj :=
  match value with
  | VTime t => Ok (VStr (time_isoformat t))
  | _ => Ok value
  end.
Definition TimeHandler_deserialize (raw : pyobj) (spec : FieldSpec) : outcome pyobj :=
  match raw with
  | VStr s => t ← time_fromisoformat s; Ok (VTime t)
  | _ => Ok raw
  end.

Definition TimedeltaHandler_serialize (value : pyobj) : outcome pyobj :=
  match value with
  | VTimedelta td => Ok (VFloat (total_seconds td))
  | _ => Ok value
  end.
Definition TimedeltaHandler_deserialize (raw : pyobj) (spec : FieldSpec) : outcome pyobj :=
  x ← py_float raw;
  td ← timedelta_of_seconds x;
  Ok (VTimedelta td).

Definition OptionalHandler_serialize (value : pyobj) : outcome pyobj := Ok value.
Definition OptionalHandler_deserialize (raw : pyobj) (spec : FieldSpec) : outcome pyobj :=
  Ok raw.

Definition ListHandler_serialize (value : pyobj) : outcome pyobj := Ok value.
Definition ListHandler_deserialize (raw : pyobj) (spec : FieldSpec) : outcome pyobj :=
  if py_bool raw then py_list raw else Ok (VList []).

Definition SetHandler_serialize (value : pyobj) : outcome pyobj :=
  match value with
  | VSet _ => py_list value
  | _ => Ok value
  end.
Definition SetHandler_deserialize (raw : pyobj) (spec : FieldSpec) : outcome pyobj :=
  if py_bool raw then py_set raw else Ok (VSet []).

Definition DictHandler_serialize (value : pyobj) : outcome pyobj :=
  if py_bool value then py_dict value else Ok (VDict []).
Definition DictHandler_deserialize (raw : pyobj) (spec : FieldSpec) : outcome pyobj :=
  if py_bool raw then py_dict raw else Ok (VDict []).

Definition UnionHandler_serialize (value : pyobj) : outcome pyobj := Ok value.
Definition UnionHandler_deserialize (raw : pyobj) (spec : FieldSpec) : outcome pyobj :=
  Ok raw.

Definition PydanticModelHandler_serialize (value : pyobj) : outcome pyobj :=
  match value with
  | VModel _ _ => Ok (model_dump value)
  | _ => Ok value
  end.
Definition PydanticModelHandler_deserialize (raw : pyobj) (spec : FieldSpec)
    : outcome pyobj :=
  Ok raw.

(** [handler.serialize(value)] and [handler.deserialize(raw, spec)] *)
Definition serialize (handler : Handler) (value : pyobj) : outcome pyobj :=
  match handler with
  | OptionalHandler => OptionalHandler_serialize value
  | UnionHandler => UnionHandler_serialize value
  | ListHandler => ListHandler_serialize value
  | SetHandler => SetHandler_serialize value
  | DictHandler => DictHandler_serialize value
  | BoolHandler => BoolHandler_serialize value
  | EnumHandler => EnumHandler_serialize value
  | LiteralHandler => LiteralHandler_serialize value
  | DecimalHandler => DecimalHandler_serialize value
  | IntHandler => IntHandler_serialize value
  | FloatHandler => FloatHandler_serialize value
  | DatetimeHandler => DatetimeHandler_serialize value
  | TimeHandler => TimeHandler_serialize value
  | TimedeltaHandler => TimedeltaHandler_serialize value
  | PydanticModelHandler => PydanticModelHandler_serialize value
  | StrHandler => StrHandler_serialize value
  | CustomHandler h => ch_serialize h value
  end.

Definition deserialize (handler : Handler) (raw : pyobj) (spec : FieldSpec)
    : outcome pyobj :=
  match handler with
  | OptionalHandler => OptionalHandler_deserialize raw spec
  | UnionHandler => UnionHandler_deserialize raw spec
  | ListHandler => ListHandler_deserialize raw spec
  | SetHandler => SetHandler_deserialize raw spec
  | DictHandler => DictHandler_deserialize raw spec
  | BoolHandler => BoolHandler_deserialize raw spec
  | EnumHandler => EnumHandler_deserialize raw spec
  | LiteralHandler => LiteralHandler_deserialize raw spec
  | DecimalHandler => DecimalHandler_deserialize raw spec
  | IntHandler => IntHandler_deserialize raw spec
  | FloatHandler => FloatHandler_deserialize raw spec
  | DatetimeHandler => DatetimeHandler_deserialize raw spec
  | TimeHandler => TimeHandler_deserialize raw spec
  | TimedeltaHandler => TimedeltaHandler_deserialize raw spec
  | PydanticModelHandler => PydanticModelHandler_deserialize raw spec
  | StrHandler => StrHandler_deserialize raw spec
  | CustomHandler h => ch_deserialize h raw spec
  end.

(** ** serialization.py: preparing values for YAML *)

(** [sorted(l, key=key)]: a stable sort that compares keys with [<]. *)
Fixpoint insert_sorted {A} (key : A -> string) (x : A) (l : list A) : list A :=
  match l with
  | [] => [x]
  | y :: rest =>
      if String.ltb (key y) (key x) then y :: insert_sorted key x rest
      else x :: y :: rest
  end.

Fixpoint sorted {A} (key : A -> string) (l : list A) : list A :=
  match l with
  | [] => []
  | x :: rest => insert_sorted key x (sorted key rest)
  end.

(** The order [sorted] arranges by. *)
Definition key_le {A} (key : A -> string) (x y : A) : Prop :=
  String.leb (key x) (key y) = true.

(** [_prepare_value] and [_prepare_dict].  The recursion goes through
    [model_dump()], so it is driven by a bound on the nesting depth;
    [None] means the bound was too small. *)
Fixpoint _prepare_value_upto (depth : nat) (value : pyobj) : option pyobj :=
  match depth with
  | O => None
  | S depth =>
      let _prepare_dict (data : list (pyobj * pyobj)) : option pyobj :=
        kv ← mapM (fun e => v ← _prepare_value_upto depth (snd e); Some (fst e, v)) data;
        Some (VDict kv) in
      match value with
      | VNone => Some VNone
      | VModel _ _ =>
          match model_dump value with
          | VDict data => _prepare_dict data
          | _ => None
          end
      | VDict data => _prepare_dict data
      | VList l | VTuple l =>
          l' ← mapM (_prepare_value_upto depth) l; Some (VList l')
      | VSet l =>
          l' ← mapM (_prepare_value_upto depth) (sorted py_str l); Some (VList l')
      | VDecimal _ => Some (VStr (py_str value))
      | VEnum _ _ payload => Some payload
      | VDatetime dt => Some (VStr (datetime_isoformat dt))
      | VTime t => Some (VStr (time_isoformat t))
      | VTimedelta td => Some (VFloat (total_seconds td))
      | _ => Some value
      end
  end.

(** The nesting depth of a value. *)
Fixpoint depth_of (v : pyobj) : nat :=
  match v with
  | VList l | VTuple l | VSet l => S (foldr Nat.max O (map depth_of l))
  | VDict kv => S (foldr Nat.max O (map (fun e => depth_of (snd e)) kv))
  | VModel _ fields => S (foldr Nat.max O (map (fun e => depth_of (snd e)) fields))
  | _ => O
  end.

Definition _prepare_value (value : pyobj) : option pyobj :=
  _prepare_value_upto (S (depth_of value)) value.

Definition _prepare_dict (data : list (pyobj * pyobj)) : option pyobj :=
  _prepare_value (VDict data).

End Transport.

(** ** The operator at the terminal *)

(** What the operator does at a yes/no prompt and at a text prompt.
    [Enter] accepts the default the prompt shows; [Interrupt] is Ctrl-C,
    on which questionary's [ask()] returns [None]. *)
Inductive confirm_answer := SayYes | SayNo | EnterDefault | Interrupt.
Inductive text_answer := Typed (s : string) | EnterText | InterruptText.

Inductive question :=
| QConfigure (field : string)                 (* "Configure <field>? (<type>)" *)
| QFixErrors                                  (* "Would you like to fix these errors?" *)
| QNewValue (field : string) (msg : string).  (* "New value for '<field>' (<msg>):" *)

(** What has happened at the terminal so far. *)
Inductive event :=
| AskedConfirm (q : question) (default : bool)
| AskedText (q : question) (default : string)
| CalledPrompt (handler : Handler) (spec : FieldSpec) (default : pyobj)
               (registry : option TypeHandlerRegistry).

Record terminal := Terminal {
  confirm_answers : list confirm_answer;      (* answers still to come *)
  text_answers : list text_answer;
  trace : list event }.                       (* most recent last *)

(** A computation at the terminal returns, raises, or is still waiting
    for the operator when the answers run out. *)
Inductive run (A : Type) :=
| Returned (a : A) (t : terminal)
| Raised (e : pyexn) (t : terminal)
| Waiting (t : terminal).
Arguments Returned {A} a t.
Arguments Raised {A} e t.
Arguments Waiting {A} t.

Definition M (A : Type) : Type := terminal -> run A.

Global Instance M_ret : MRet M := fun _ a t => Returned a t.
Global Instance M_bind : MBind M := fun _ _ k c t =>
  match c t with
  | Returned a t' => k a t'
  | Raised e t' => Raised e t'
  | Waiting t' => Waiting t'
  end.

(** Still at a prompt: no answer has come. *)
Definition wait {A} : M A := fun t => Waiting t.

Definition lift {A} (x : outcome A) : M A := fun t =>
  match x with
  | Ok a => Returned a t
  | Raise e => Raised e t
  end.

Definition log (e : event) (t : terminal) : terminal :=
  {| confirm_answers := confirm_answers t;
     text_answers := text_answers t;
     trace := trace t ++ [e] |}.

(** [questionary.confirm(q, default=d).ask()] *)
Definition questionary_confirm (q : question) (d : bool) : M (option bool) := fun t =>
  let t := log (AskedConfirm q d) t in
  match confirm_answers t with
  | [] => Waiting t
  | a :: rest =>
      Returned
        match a with
        | SayYes => Some true
        | SayNo => Some false
        | EnterDefault => Some d
        | Interrupt => None
        end
        {| confirm_answers := rest; text_answers := text_answers t; trace := trace t |}
  end.

(** [questionary.text(q, default=d).ask()] *)
Definition questionary_text (q : question) (d : string) : M (option string) := fun t =>
  let t := log (AskedText q d) t in
  match text_answers t with
  | [] => Waiting t
  | a :: rest =>
      Returned
        match a with
        | Typed s => Some s
        | EnterText => Some d
        | InterruptText => None
        end
        {| confirm_answers := confirm_answers t; text_answers := rest; trace := trace t |}
  end.

(** Truth value of an annotation object and of [ask()]'s result. *)
Definition annotation_bool (a : type_annotation) : bool :=
  match a with
  | Const v => py_bool v
  | _ => true
  end.

Definition is_None (v : pyobj) : bool :=
  match v with
  | VNone => true
  | _ => false
  end.

Section Prompts.
Context `{PyRuntime}.

(** The [prompt] methods of the handlers other than [OptionalHandler]:
    [handler.prompt(spec, default)] when [registry] is [None],
    [handler.prompt(spec, default, registry=registry)] otherwise (for
    [PydanticModelHandler] together with [prompt_model_fn]). *)
Variable handler_prompt :
  Handler -> FieldSpec -> pyobj -> option TypeHandlerRegistry -> M pyobj.

Definition call_prompt (handler : Handler) (spec : FieldSpec) (default : pyobj)
    (registry : option TypeHandlerRegistry) : M pyobj := fun t =>
  handler_prompt handler spec default registry
    (log (CalledPrompt handler spec default registry) t).

(** *** OptionalHandler.prompt *)

Definition OptionalHandler_inner_spec (spec : FieldSpec) : FieldSpec :=
  {| name := name spec;
     annotation :=
       match inner_type spec with
       | Some t => if annotation_bool t then Some t else annotation spec
       | None => annotation spec
       end;
     origin := None; args := [];
     default := VUndefined; default_factory := None;
     description := description spec;
     constraints := constraints spec;
     is_required := false;
     is_optional := false;
     is_init := true;
     inner_type := inner_type spec;
     is_enum := is_enum spec;
     is_literal := is_literal spec;
     is_pydantic_model := is_pydantic_model spec;
     is_union := is_union spec;
     union_types := union_types spec;
     is_list := is_list spec;
     is_set := is_set spec;
     is_dict := is_dict spec;
     key_type := key_type spec;
     value_type := value_type spec |}.

Definition OptionalHandler_prompt (spec : FieldSpec) (default : pyobj)
    (registry : option TypeHandlerRegistry) : M pyobj :=
  should_configure ← questionary_confirm (QConfigure (name spec))
                                         (negb (is_None default));
  match should_configure with
  | Some true =>
      let inner_spec := OptionalHandler_inner_spec spec in
      match registry with
      | Some registry =>
          match get_handler registry inner_spec with
          | Some handler => call_prompt handler inner_spec default None
          | None => mret VNone
          end
      | None => mret VNone
      end
  | _ => mret VNone
  end.

(** *** prompts.py *)

Definition _call_handler (handler : Handler) (spec : FieldSpec) (default : pyobj)
    (registry : TypeHandlerRegistry) (path : string) : M pyobj :=
  match handler with
  | PydanticModelHandler => call_prompt handler spec default (Some registry)
  | OptionalHandler => fun t =>
      OptionalHandler_prompt spec default (Some registry)
        (log (CalledPrompt handler spec default (Some registry)) t)
  | ListHandler | SetHandler | UnionHandler | DictHandler =>
      call_prompt handler spec default (Some registry)
  | _ => call_prompt handler spec default None
  end.

(** The "effective default" block of [prompt_model]. *)
Definition effective_default_of (defaults : gmap string pyobj) (spec : FieldSpec)
    : outcome pyobj :=
  let effective_default :=
    match defaults !! name spec with          (* defaults.get(spec.name) *)
    | Some v => v
    | None => VNone
    end in
  if is_None effective_default then
    if negb (is_None (default spec))
       && negb (String.eqb (py_str (default spec)) "PydanticUndefined")
    then Ok (default spec)
    else
      match default_factory spec with
      | Some default_factory =>
          try_except (default_factory tt) (fun _ => Ok VNone)
      | None => Ok effective_default
      end
  else Ok effective_default.

(** The handler [prompt_model] uses for a field. *)
Definition handler_for (registry : TypeHandlerRegistry) (spec : FieldSpec) : Handler :=
  match get_handler registry spec with
  | Some handler => handler
  | None => StrHandler                        (* "Fallback: try as string" *)
  end.

Fixpoint prompt_fields (specs : list FieldSpec) (defaults : gmap string pyobj)
    (path : string) (registry : TypeHandlerRegistry)
    (result : gmap string pyobj) : M (gmap string pyobj) :=
  match specs with
  | [] => mret result
  | spec :: rest =>
      if negb (is_init spec) then prompt_fields rest defaults path registry result
      else
        effective_default ← lift (effective_default_of defaults spec);
        let handler := handler_for registry spec in
        value ← _call_handler handler spec effective_default registry path;
        prompt_fields rest defaults path registry (<[name spec := value]> result)
  end.

Definition prompt_model (model_class : BaseModelClass)
    (defaults : option (gmap string pyobj)) (path : string)
    (registry : option TypeHandlerRegistry) : M (gmap string pyobj) :=
  let registry :=
    match registry with
    | Some r => r
    | None => TypeHandlerRegistry_new
    end in
  let defaults :=
    match defaults with
    | Some d => d
    | None => ∅
    end in
  specs ← lift (introspect_model model_class);
  prompt_fields specs defaults path registry ∅.

(** *** validation.py *)

(** One entry of [ValidationError.errors()]: a dict that may carry a
    location (field names and indices) and a message. *)
Inductive loc_item := LocStr (s : string) | LocInt (n : Z).

Record error_details := ErrorDetails {
  loc : option (list loc_item);
  msg : option string }.

Definition loc_item_str (i : loc_item) : string :=
  match i with
  | LocStr s => s
  | LocInt n => string_of_list_ascii (int_to_text false n)
  end.

(** The authoritative validator [model_class.model_validate]: the model
    instance, or the errors of the [ValidationError] it raises. *)
Variable model_validate : gmap string pyobj -> pyobj + list error_details.

(** The body of [for error in e.errors()]. *)
Definition fix_error (error : error_details) (data : gmap string pyobj)
    : M (gmap string pyobj) :=
  match loc error with
  | None | Some [] => mret data                        (* continue *)
  | Some (first :: _) =>
      let field_name := loc_item_str first in
      let msg := match msg error with Some m => m | None => "Invalid value" end in
      new_value ← questionary_text (QNewValue field_name msg)
                    (py_str match data !! field_name with
                            | Some v => v
                            | None => VStr ""
                            end);
      match new_value with
      | Some s => mret (<[field_name := VStr s]> data)
      | None => mret data
      end
  end.

Fixpoint fix_errors (errors : list error_details) (data : gmap string pyobj)
    : M (gmap string pyobj) :=
  match errors with
  | [] => mret data
  | error :: rest => data ← fix_error error data; fix_errors rest data
  end.

(** The [while True] loop, unrolled at most [rounds] times.  The result
    pairs what the function returns with the dict [data] as the caller
    sees it afterwards. *)
Fixpoint validate_and_fix_loop (rounds : nat) (data : gmap string pyobj)
    : M (option pyobj * gmap string pyobj) :=
  match model_validate data with
  | inl instance => mret (Some instance, data)
  | inr errors =>
      should_fix ← questionary_confirm QFixErrors true;
      match should_fix with
      | Some true =>
          match rounds with
          | O => wait
          | S rounds =>
              data ← fix_errors errors data;
              validate_and_fix_loop rounds data
          end
      | _ => mret (None, data)
      end
  end.

(** Every round consumes one answer to the yes/no prompt, so the loop
    cannot take more rounds than there are such answers. *)
Definition validate_and_fix (data : gmap string pyobj)
    : M (option pyobj * gmap string pyobj) := fun t =>
  validate_and_fix_loop (length (confirm_answers t)) data t.

End Prompts.

(** ** Descriptors and handlers used in the statements *)

(** The descriptors some built-in handler accepts. *)
Definition recognized (spec : FieldSpec) : bool :=
  is_optional spec || is_union spec || is_list spec || is_set spec
  || is_dict spec || inner_type_is CBool spec || is_enum spec
  || is_literal spec || inner_type_is CDecimal spec || inner_type_is CInt spec
  || inner_type_is CFloat spec || inner_type_is CDatetime spec
  || inner_type_is CTime spec || inner_type_is CTimedelta spec
  || is_pydantic_model spec || inner_type_is CStr spec.

(** A field of type [bytes], as [_resolve_type(bytes)] describes it. *)
Definition bytes_spec : FieldSpec :=
  set_inner_type (Some (Plain (CClass "bytes"))) (FieldSpec_new "").

(** A custom handler for [str] fields, and the descriptor of such a field. *)
Definition upper_case_handler : Handler :=
  CustomHandler
    {| ch_name := "UpperCaseHandler";
       ch_can_handle := inner_type_is CStr;
       ch_serialize := fun v => Ok v;
       ch_deserialize := fun raw _ => Ok raw |}.

Definition str_spec : FieldSpec :=
  set_inner_type (Some (Plain CStr)) (FieldSpec_new "label").

(** A model with one field, [nickname: str | None], without default. *)
Definition Profile : BaseModelClass :=
  {| __name__ := "Profile";
     model_fields :=
       [("nickname",
         {| FieldInfo.annotation := Some (Generic OUnionType [Plain CStr; Plain CNoneType]);
            FieldInfo.default := VUndefined;
            FieldInfo.default_factory := None;
            FieldInfo.description := None;
            FieldInfo.metadata := [];
            FieldInfo.init := None;
            FieldInfo.frozen := None |})] |}.




(** A run time whose text form of composite objects is a placeholder, and
    handlers whose prompt returns the default it is given. *)
Definition plain_runtime : PyRuntime := {| py_repr := fun _ => "<object>" |}.

Definition default_prompt (handler : Handler) (spec : FieldSpec) (default : pyobj)
    (registry : option TypeHandlerRegistry) : M pyobj :=
  mret default.


(** A model [Counter] with one field [count: int], validated as pydantic
    does in its default mode: an [int], or a string that reads as one. *)
Definition Counter_validate (data : gmap string pyobj) : pyobj + list error_details :=
  let invalid :=
    inr [ {| loc := Some [LocStr "count"];
             msg := Some "Input should be a valid integer" |} ] in
  match data !! "count" with
  | Some (VInt n) => inl (VModel "Counter" [("count", VInt n)])
  | Some (VStr s) =>
      match parse_int (list_ascii_of_string s) with
      | Some n => inl (VModel "Counter" [("count", VInt n)])
      | None => invalid
      end
  | Some _ => invalid
  | None =>
      inr [ {| loc := Some [LocStr "count"]; msg := Some "Field required" |} ]
  end.

(** A field [label: str = "PydanticUndefined"] as introspection builds it. *)
Definition Sentinel : BaseModelClass :=
  {| __name__ := "Sentinel";
     model_fields :=
       [("label",
         {| FieldInfo.annotation := Some (Plain CStr);
            FieldInfo.default := VStr "PydanticUndefined";
            FieldInfo.default_factory := None;
            FieldInfo.description := None;
            FieldInfo.metadata := [];
            FieldInfo.init := None;
            FieldInfo.frozen := None |})] |}.

Definition sentinel_spec : FieldSpec :=
  set_is_required false
    (set_default (VStr "PydanticUndefined")
       (set_annotation (Some (Plain CStr))
          (set_name "label"
             (set_inner_type (Some (Plain CStr)) (FieldSpec_new ""))))).

(** The effective default in the words of the specification: the default
    supplied for the field, else the field's declared default, else what
    its default factory returns, and no default when the factory raises. *)
Definition stated_effective_default (defaults : gmap string pyobj)
    (spec : FieldSpec) : pyobj :=
  let from_field :=
    match default spec with
    | VUndefined | VNone =>
        match default_factory spec with
        | Some default_factory =>
            match default_factory tt with
            | Ok v => v
            | Raise _ => VNone
            end
        | None => VNone
        end
    | declared => declared
    end in
  match defaults !! name spec with
  | Some VNone | None => from_field
  | Some supplied => supplied
  end.

(** ** Equality of values, and the values a handler is meant for *)

(** Python's [==] as far as the statements need it: two sets are equal
    when they have the same elements, whatever their iteration order;
    other values are equal when they are the same value. *)
Definition py_equal (a b : pyobj) : Prop :=
  match a, b with
  | VSet l1, VSet l2 => l1 ≡ₚ l2
  | _, _ => a = b
  end.

(** No element of the list equals an earlier one. *)
Fixpoint distinct_values (l : list pyobj) : bool :=
  match l with
  | [] => true
  | x :: rest =>
      forallb (fun y => negb (value_eqb y x)) rest && distinct_values rest
  end.

(** [member] is the one member of [e] whose value is [payload]. *)
Definition canonical_member (e : enum_def) (member : string) (payload : pyobj)
    : Prop :=
  (member, payload) ∈ enum_members e /\
  is_member_of e payload = false /\
  forall m v, (m, v) ∈ enum_members e -> value_eqb v payload = true ->
              (m, v) = (member, payload).

(** The values of each handler's shape, for a descriptor of that shape:
    the ones the round trip is stated for.  A float is not NaN (which is
    not equal to itself); a nested structure is in its value-map form; a
    duration is one that the float of its total seconds carries exactly
    ([exact_duration]). *)
Inductive representable : Handler -> FieldSpec -> pyobj -> Prop :=
| rep_bool spec b : representable BoolHandler spec (VBool b)
| rep_str spec s : representable StrHandler spec (VStr s)
| rep_int spec n : representable IntHandler spec (VInt n)
| rep_float spec f : f <> S754_nan -> representable FloatHandler spec (VFloat f)
| rep_decimal spec d : representable DecimalHandler spec (VDecimal d)
| rep_enum spec e member payload :
    inner_type spec = Some (Plain (CEnum e)) ->
    canonical_member e member payload ->
    representable EnumHandler spec (VEnum (enum_name e) member payload)
| rep_literal spec v : v <> VFloat S754_nan -> representable LiteralHandler spec v
| rep_datetime spec dt :
    valid_datetime dt = true -> representable DatetimeHandler spec (VDatetime dt)
| rep_time spec t :
    valid_time_of_day t = true -> representable TimeHandler spec (VTime t)
| rep_timedelta spec td :
    exact_duration td = true ->
    representable TimedeltaHandler spec (VTimedelta td)
| rep_optional spec v : v <> VFloat S754_nan -> representable OptionalHandler spec v
| rep_union spec v : v <> VFloat S754_nan -> representable UnionHandler spec v
| rep_list spec l : representable ListHandler spec (VList l)
| rep_set spec l :
    forallb hashable l = true -> distinct_values l = true ->
    representable SetHandler spec (VSet l)
| rep_dict spec kv : representable DictHandler spec (VDict kv)
| rep_model spec kv : representable PydanticModelHandler spec (VDict kv).

(** The transport form the specification names for the values of a
    handler's shape. *)
Definition stated_transport (handler : Handler) (v : pyobj) (raw : pyobj) : Prop :=
  match handler, v with
  | DecimalHandler, VDecimal d => raw = VStr (Decimal_to_str d)
  | TimedeltaHandler, VTimedelta td => raw = VFloat (total_seconds td)
  | DatetimeHandler, VDatetime dt => raw = VStr (datetime_isoformat dt)
  | TimeHandler, VTime t => raw = VStr (time_isoformat t)
  | EnumHandler, VEnum _ _ payload => raw = payload
  | SetHandler, VSet l => raw = VList l
  | _, _ => raw = v
  end.

(** An instance of the model [InnerModel(name="n", value=1)] and the
    descriptor of a field of that model type. *)
Definition inner_instance : pyobj :=
  VModel "InnerModel" [("name", VStr "n"); ("value", VInt 1)].

Definition inner_model_spec : FieldSpec :=
  set_inner_type (Some (Plain (CModel "InnerModel")))
    (set_is_pydantic_model true (FieldSpec_new "inner")).

(** Descriptors of a decimal field and of a duration field. *)
Definition amount_spec : FieldSpec :=
  set_inner_type (Some (Plain CDecimal)) (FieldSpec_new "amount").

Definition ttl_spec : FieldSpec :=
  set_inner_type (Some (Plain CTimedelta)) (FieldSpec_new "ttl").

(** The shape flags of a descriptor, and how many of them are set. *)
Definition shape_flags (spec : FieldSpec) : list bool :=
  [is_list spec; is_set spec; is_dict spec; is_literal spec; is_enum spec;
   is_pydantic_model spec; is_union spec].

Definition count_true (l : list bool) : nat := length (List.filter id l).

(** At most one shape flag is set. *)
Definition one_shape (spec : FieldSpec) : Prop :=
  (count_true (shape_flags spec) <= 1)%nat.

(** ** Further definitions: introspection and dispatch *)

(** [getattr(meta, attr, None)] when it is not [None]. *)
Definition constraint_of (meta : gmap string pyobj) (attr : string) : option pyobj :=
  match meta !! attr with
  | Some VNone | None => None
  | Some val => Some val
  end.

(** The origin is one of the two union forms [_resolve_type] tests for. *)
Definition union_origin (o : option type_origin) : bool :=
  is_union_type o || is_typing_union o.

(** The arguments of a union that are not [NoneType]. *)
Definition non_none (args : list type_annotation) : list type_annotation :=
  List.filter (fun a => negb (_is_none_type a)) args.

(** The built-in handler whose [can_handle] tests for the class. *)
Definition handler_of_class (c : pyclass) : option Handler :=
  match c with
  | CBool => Some BoolHandler
  | CStr => Some StrHandler
  | CInt => Some IntHandler
  | CFloat => Some FloatHandler
  | CDecimal => Some DecimalHandler
  | CDatetime => Some DatetimeHandler
  | CTime => Some TimeHandler
  | CTimedelta => Some TimedeltaHandler
  | CEnum _ => Some EnumHandler
  | CModel _ => Some PydanticModelHandler
  | CNoneType | CClass _ => None
  end.

(** The fields of a model class that carry an annotation. *)
Definition annotated_fields (model_class : BaseModelClass)
    : list (string * FieldInfo.t) :=
  List.filter (fun f => bool_decide (is_Some (FieldInfo.annotation (snd f))))
              (model_fields model_class).

(** The names of the descriptors [prompt_model] prompts for. *)
Definition init_names (specs : list FieldSpec) : list string :=
  map name (List.filter is_init specs).

(** ** Further definitions: prepared values *)

(** A value in which no model instance, tuple, set, decimal, enum member,
    date-time, time or duration is left (dict keys apart, which
    [_prepare_dict] does not touch). *)
Fixpoint prepared (v : pyobj) : bool :=
  match v with
  | VNone | VUndefined | VBool _ | VInt _ | VFloat _ | VStr _ => true
  | VList l => forallb prepared l
  | VDict kv => forallb (fun e => prepared (snd e)) kv
  | _ => false
  end.

(** Every enum member in the value has a prepared value ([_prepare_value]
    returns [member.value] as it is). *)
Fixpoint enum_values_prepared (v : pyobj) : bool :=
  match v with
  | VEnum _ _ payload => prepared payload
  | VList l | VTuple l | VSet l => forallb enum_values_prepared l
  | VDict kv => forallb (fun e => enum_values_prepared (snd e)) kv
  | VModel _ fields => forallb (fun e => enum_values_prepared (snd e)) fields
  | _ => true
  end.

(** The values for which a handler and [_prepare_value] are both meant:
    a scalar of the handler's own type. *)
Definition scalar_of (handler : Handler) (v : pyobj) : bool :=
  match handler, v with
  | BoolHandler, VBool _ | StrHandler, VStr _ | IntHandler, VInt _
  | FloatHandler, VFloat _ | DecimalHandler, VDecimal _
  | EnumHandler, VEnum _ _ _ | DatetimeHandler, VDatetime _
  | TimeHandler, VTime _ | TimedeltaHandler, VTimedelta _ => true
  | _, _ => false
  end.

(** ** Further definitions: what the class flags of a descriptor stand for *)

(** The inner type of a descriptor flagged as an enum is a subclass of
    [Enum]; of one flagged as a nested model, a subclass of [BaseModel]. *)
Definition class_flags_sound (spec : FieldSpec) : Prop :=
  (is_enum spec = true -> exists e, inner_type spec = Some (Plain (CEnum e))) /\
  (is_pydantic_model spec = true ->
   exists m, inner_type spec = Some (Plain (CModel m))).

(** A string, or [None]: what a text prompt returns. *)
Definition text_or_None (v : pyobj) : bool :=
  match v with
  | VStr _ | VNone => true
  | _ => false
  end.

Definition texts (kv : list (pyobj * pyobj)) : bool :=
  forallb (fun e => text_or_None (fst e) && text_or_None (snd e)) kv.

(** ** display.py *)

(** [s[:k]]: a negative [k] counts from the end of the string. *)
Definition slice_to (s : string) (k : Z) : string :=
  let n := Z.of_nat (String.length s) in
  let stop := if (k <? 0)%Z then Z.max 0 (n + k) else Z.min k n in
  substring 0 (Z.to_nat stop) s.

Definition _truncate (s : string) (max_len : Z) : string :=
  if (Z.of_nat (String.length s) <=? max_len)%Z then s
  else slice_to s (max_len - 3) +:+ "...".

Section Display.
Context `{PyRuntime}.

(** Python's [repr]. *)
Variable repr : pyobj -> string.

Definition _format_default (spec : FieldSpec) : string :=
  if negb (is_None (default spec))
     && negb (String.eqb (py_str (default spec)) "PydanticUndefined")
  then repr (default spec)
  else
    match default_factory spec with
    | Some default_factory =>
        match default_factory tt with
        | Ok v => repr v
        | Raise _ => "<factory>"
        end
    | None => "None"
    end.

End Display.

(** ** serialization.py: the document, and resolving the class it names *)

Definition METADATA_KEY : string := "_metadata".
Definition CONFIGURATION_KEY : string := "configuration".

(** Exceptions of the import system and of attribute access, beside the
    built-in ones. *)
Inductive exception :=
| Builtin (e : pyexn)
| ImportError
| AttributeError.

(** A class object: where it was defined and, for a subclass of
    [BaseModel], the model class. *)
Record class_object := ClassObject {
  __module__ : string;
  __qualname__ : string;
  as_model : option BaseModelClass }.

(** What a module binds a name to. *)
Inductive module_attr :=
| AttrClass (cls : class_object)
| AttrValue (v : pyobj).

(** [s.rpartition(".")]: split at the last dot. *)
Fixpoint rsplit_dot (l : text) : option (text * text) :=
  match l with
  | [] => None
  | c :: r =>
      match rsplit_dot r with
      | Some (h, t) => Some (c :: h, t)
      | None => if Ascii.eqb c "." then Some ([], r) else None
      end
  end.

Definition rpartition_dot (s : string) : string * string * string :=
  match rsplit_dot (list_ascii_of_string s) with
  | Some (h, t) => (string_of_list_ascii h, ".", string_of_list_ascii t)
  | None => ("", "", s)
  end.

(** [d.get(k, default)] on the entries of a dict. *)
Definition dict_get (kv : list (pyobj * pyobj)) (k default : pyobj) : pyobj :=
  match find (fun e => value_eqb k (fst e)) kv with
  | Some e => snd e
  | None => default
  end.

(** [obj.get(k, default)]: only a dict has the method. *)
Definition py_get (obj k default : pyobj) : pyobj + exception :=
  match obj with
  | VDict kv => inl (dict_get kv k default)
  | _ => inr AttributeError
  end.

Section Yaml.
Context `{PyRuntime}.

(** [importlib.import_module]: the namespace of the module, or the
    exception the import raises. *)
Variable import_module : string -> gmap string module_attr + exception.

(** [_get_package_version()]: the installed version, or ["unknown"]. *)
Variable _get_package_version : string.

Definition resolve_config_class (fqn : string) : class_object + exception :=
  let '(module_path, _, class_name) := rpartition_dot fqn in
  match import_module module_path with
  | inr e => inr e
  | inl module =>
      match module !! class_name with           (* getattr(module, class_name) *)
      | None => inr AttributeError
      | Some (AttrClass cls) =>
          match as_model cls with
          | Some _ => inl cls
          | None => inr (Builtin ValueError)
          end
      | Some (AttrValue _) => inr (Builtin ValueError)
      end
  end.

(** The [configuration_class] entry [serialize_to_yaml] writes. *)
Definition config_fqn (config_class : class_object) : string :=
  __module__ config_class +:+ "." +:+ __qualname__ config_class.

(** The document [serialize_to_yaml] hands to [yaml.dump]. *)
Definition serialize_to_yaml (data : list (pyobj * pyobj))
    (config_class : class_object) (model_name : string) : option pyobj :=
  configuration ← _prepare_dict data;
  Some (VDict
          [ (VStr METADATA_KEY,
             VDict [ (VStr "model_type", VStr model_name);
                     (VStr "configuration_class", VStr (config_fqn config_class));
                     (VStr "version", VStr _get_package_version) ]);
            (VStr CONFIGURATION_KEY, configuration) ]).

(** [load_from_yaml], from what [yaml.safe_load] returns. *)
Definition load_from_yaml (raw : pyobj) : (pyobj * pyobj * pyobj) + exception :=
  match py_get raw (VStr METADATA_KEY) (VDict []) with
  | inr e => inr e
  | inl metadata =>
      match py_get metadata (VStr "model_type") (VStr "") with
      | inr e => inr e
      | inl model_type =>
          match py_get metadata (VStr "configuration_class") (VStr "") with
          | inr e => inr e
          | inl config_class_fqn =>
              match py_get raw (VStr CONFIGURATION_KEY) (VDict []) with
              | inr e => inr e
              | inl data => inl (model_type, config_class_fqn, data)
              end
          end
      end
  end.

End Yaml.

(** ** type_handlers.py: the prompts of the handlers *)

(** *** Text as the operator submits it

    A string is a sequence of code points below 256. *)

(** [c.isspace()] *)
Definition isspace (c : ascii) : bool :=
  let n := N_of_ascii c in
  ((9 <=? n) && (n <=? 13) || (28 <=? n) && (n <=? 32)
   || (n =? 133) || (n =? 160))%N.

Fixpoint lstrip (l : text) : text :=
  match l with
  | c :: r => if isspace c then lstrip r else l
  | [] => []
  end.

(** The text does not start with white space. *)
Definition no_leading_space (l : text) : Prop :=
  match l with
  | c :: _ => isspace c = false
  | [] => True
  end.

(** [s.strip()] *)
Definition strip_text (l : text) : text := rev (lstrip (rev (lstrip l))).

Definition strip (s : string) : string :=
  string_of_list_ascii (strip_text (list_ascii_of_string s)).

(** [s.isdigit()]: beside the decimal digits, the superscripts one, two
    and three count as digits. *)
Definition isdigit_char (c : ascii) : bool :=
  let n := N_of_ascii c in
  (is_digit c || (n =? 178) || (n =? 179) || (n =? 185))%N.

Definition isdigit (s : string) : bool :=
  match list_ascii_of_string s with
  | [] => false
  | l => forallb isdigit_char l
  end.

(** The white space [int] skips around a literal: the ASCII white space
    of C, and the two other spaces below 256. *)
Definition int_space (c : ascii) : bool :=
  let n := N_of_ascii c in
  ((9 <=? n) && (n <=? 13) || (n =? 32) || (n =? 133) || (n =? 160))%N.

Fixpoint skip_int_space (l : text) : text :=
  match l with
  | c :: r => if int_space c then skip_int_space r else l
  | [] => []
  end.

(** The scan of [int] over digits and underscores: the digits read (most
    recent first) and the text left, or [None] on two underscores in a
    row or an underscore at the end of the run. *)
Fixpoint scan_digits (l : text) (prev_underscore : bool) (digits : text)
    : option (text * text) :=
  match l with
  | c :: r =>
      if Ascii.eqb c "_" then
        if prev_underscore then None else scan_digits r true digits
      else if is_digit c then scan_digits r false (c :: digits)
      else if prev_underscore then None else Some (digits, l)
  | [] => if prev_underscore then None else Some (digits, [])
  end.

(** The number of digits [int] converts at most. *)
Definition int_max_str_digits : nat := 4300.

(** [int(s)] for a string: optional white space, an optional sign, decimal
    digits with single underscores between them, optional white space. *)
Definition int_of_str (s : string) : outcome Z :=
  let (negative, l) := parse_sign (skip_int_space (list_ascii_of_string s)) in
  match l with
  | [] => Raise ValueError
  | c :: _ =>
      if Ascii.eqb c "_" then Raise ValueError
      else
        match scan_digits l false [] with
        | Some (d :: digits, rest) =>
            if negb (forallb int_space rest) then Raise ValueError
            else if (int_max_str_digits <? length (d :: digits))%nat
                 then Raise ValueError
                 else
                   let n := Z.of_N (digits_value (rev (d :: digits))) in
                   Ok (if negative then - n else n)%Z
        | _ => Raise ValueError
        end
  end.

(** [str(n)] for an [int]. *)
Definition str_of_int (n : Z) : string := string_of_list_ascii (int_to_text false n).

(** [timedelta(seconds=n)] for an [int]. *)
Definition timedelta_of_int_seconds (n : Z) : outcome timedelta :=
  let us := (n * 1000000)%Z in
  if (min_timedelta_us <=? us)%Z && (us <=? max_timedelta_us)%Z
  then Ok (Timedelta us) else Raise OverflowError.

(** *** Ordering an [int] against a constraint value *)

(** The exact value of a number. *)
Inductive exact_number :=
| Fraction (num : Z) (den : positive)
| PlusInfinity | MinusInfinity | NotANumber.

Definition exact_value (v : pyobj) : option exact_number :=
  match v with
  | VBool b => Some (Fraction (if b then 1 else 0) 1)
  | VInt n => Some (Fraction n 1)
  | VFloat (S754_zero _) => Some (Fraction 0 1)
  | VFloat (S754_finite s m e) =>
      Some (if (0 <=? e)%Z
            then Fraction (cond_Zopp s (Zpos m * 2 ^ e)) 1
            else Fraction (cond_Zopp s (Zpos m)) (Z.to_pos (2 ^ (- e))))
  | VFloat (S754_infinity s) => Some (if s then MinusInfinity else PlusInfinity)
  | VFloat S754_nan => Some NotANumber
  | VDecimal d =>
      let c := cond_Zopp (dsign d) (Z.of_N (dcoeff d)) in
      Some (if (0 <=? dexp d)%Z
            then Fraction (c * 10 ^ dexp d) 1
            else Fraction c (Z.to_pos (10 ^ (- dexp d))))
  | _ => None
  end.

(** How the int [n] compares with [c]: [None] when [c] is a NaN, with which
    every comparison is false; [TypeError] when [c] is not a number (an
    enum member is taken to be one of a plain [Enum]). *)
Definition compare_int (n : Z) (c : pyobj) : outcome (option comparison) :=
  match exact_value c with
  | Some (Fraction a b) => Ok (Some (n * Zpos b ?= a)%Z)
  | Some PlusInfinity => Ok (Some Lt)
  | Some MinusInfinity => Ok (Some Gt)
  | Some NotANumber => Ok None
  | None => Raise TypeError
  end.

Definition int_lt (n : Z) (c : pyobj) : outcome bool :=
  r ← compare_int n c; Ok (match r with Some Lt => true | _ => false end).
Definition int_gt (n : Z) (c : pyobj) : outcome bool :=
  r ← compare_int n c; Ok (match r with Some Gt => true | _ => false end).
Definition int_le (n : Z) (c : pyobj) : outcome bool :=
  r ← compare_int n c; Ok (match r with Some Lt | Some Eq => true | _ => false end).
Definition int_ge (n : Z) (c : pyobj) : outcome bool :=
  r ← compare_int n c; Ok (match r with Some Gt | Some Eq => true | _ => false end).

(** *** get_type_display_name *)

(** [cls.__name__] *)
Definition class_name (c : pyclass) : string :=
  match c with
  | CBool => "bool"
  | CStr => "str"
  | CInt => "int"
  | CFloat => "float"
  | CDecimal => "Decimal"
  | CDatetime => "datetime"
  | CTime => "time"
  | CTimedelta => "timedelta"
  | CNoneType => "NoneType"
  | CEnum e => enum_name e
  | CModel n => n
  | CClass n => n
  end.

Section DisplayName.

(** [str(annotation)] for an annotation that is not a class, and
    [str(list(args))] for the arguments of a [Literal]. *)
Variable annotation_str : type_annotation -> string.
Variable args_str : list type_annotation -> string.

Fixpoint get_type_display_name (annotation : type_annotation) : string :=
  match annotation with
  | Generic OUnionType args =>
      String.concat " | " (map get_type_display_name args)
  | Generic OList args =>
      "list[" +:+ match args with
                  | a :: _ => get_type_display_name a
                  | [] => "Any"
                  end +:+ "]"
  | Generic OSet args =>
      "set[" +:+ match args with
                 | a :: _ => get_type_display_name a
                 | [] => "Any"
                 end +:+ "]"
  | Generic ODict args =>
      "dict[" +:+ match args with
                  | a :: _ => get_type_display_name a
                  | [] => "str"
                  end
      +:+ ", " +:+ match args with
                   | _ :: a :: _ => get_type_display_name a
                   | _ => "Any"
                   end +:+ "]"
  | Generic OLiteral args => "Literal" +:+ args_str args
  | Plain CNoneType => "None"
  | Plain c => class_name c
  | _ => annotation_str annotation
  end.

End DisplayName.

(** *** The operator at the handlers' prompts *)

Module Wizard.

(** A prompt as [questionary] shows it. *)
Inductive shown_prompt :=
| ConfirmPrompt (message : string) (default : bool)
| TextPrompt (message : string) (default : string).

Record console := Console {
  confirm_replies : list confirm_answer;      (* answers still to come *)
  text_replies : list text_answer;            (* texts still to be submitted *)
  shown : list shown_prompt }.                (* most recent last *)

(** A computation at the console is done, has failed with an exception,
    or is pending on the operator when the replies run out. *)
Inductive session (A : Type) :=
| Done (a : A) (c : console)
| Failed (e : pyexn) (c : console)
| Pending (c : console).
Arguments Done {A} a c.
Arguments Failed {A} e c.
Arguments Pending {A} c.

Definition W (A : Type) : Type := console -> session A.

#[global] Instance W_ret : MRet W := fun _ a c => Done a c.
#[global] Instance W_bind : MBind W := fun _ _ k m c =>
  match m c with
  | Done a c' => k a c'
  | Failed e c' => Failed e c'
  | Pending c' => Pending c'
  end.

Definition from_outcome {A} (x : outcome A) : W A := fun c =>
  match x with
  | Ok a => Done a c
  | Raise e => Failed e c
  end.

Definition show (p : shown_prompt) (c : console) : console :=
  {| confirm_replies := confirm_replies c;
     text_replies := text_replies c;
     shown := shown c ++ [p] |}.

(** What a [validate] callable returns: [True], or the message to show. *)
Inductive verdict := Accepted | Rejected (message : string).

(** The first submission the validator accepts.  A rejected text stays on
    the screen with the message and the operator submits again;
    [EnterText] submits the default as it stands. *)
Fixpoint first_accepted (validate : string -> outcome verdict) (default : string)
    (replies : list text_answer)
    : option (outcome (option string) * list text_answer) :=
  match replies with
  | [] => None
  | InterruptText :: rest => Some (Ok None, rest)
  | reply :: rest =>
      let submitted := match reply with Typed s => s | _ => default end in
      match validate submitted with
      | Ok Accepted => Some (Ok (Some submitted), rest)
      | Ok (Rejected _) => first_accepted validate default rest
      | Raise e => Some (Raise e, rest)
      end
  end.

(** [questionary.confirm(message, default=default).ask()] *)
Definition questionary_confirm (message : string) (default : bool)
    : W (option bool) := fun c =>
  let c := show (ConfirmPrompt message default) c in
  match confirm_replies c with
  | [] => Pending c
  | a :: rest =>
      Done
        match a with
        | SayYes => Some true
        | SayNo => Some false
        | EnterDefault => Some default
        | Interrupt => None
        end
        {| confirm_replies := rest; text_replies := text_replies c; shown := shown c |}
  end.

(** [questionary.text(message, default=default, validate=validate).ask()] *)
Definition questionary_text (message default : string)
    (validate : string -> outcome verdict) : W (option string) := fun c =>
  let c := show (TextPrompt message default) c in
  match first_accepted validate default (text_replies c) with
  | None =>
      Pending {| confirm_replies := confirm_replies c; text_replies := [];
                 shown := shown c |}
  | Some (r, rest) =>
      let c := {| confirm_replies := confirm_replies c; text_replies := rest;
                  shown := shown c |} in
      match r with
      | Ok result => Done result c
      | Raise e => Failed e c
      end
  end.

(** A text prompt without [validate]. *)
Definition no_validate (val : string) : outcome verdict := Ok Accepted.

(** The text [result] when the condition [result and result.strip()]
    holds. *)
Definition non_blank (result : option string) : option string :=
  match result with
  | Some s =>
      if negb (String.eqb s "") && negb (String.eqb (strip s) "")
      then Some s else None
  | None => None
  end.

(** [isinstance(tp, type) and issubclass(tp, base)] *)
Definition is_subclass_of (tp : option type_annotation) (base : base_class) : bool :=
  match tp with
  | Some tp =>
      isinstance_type tp &&
      match issubclass tp base with
      | Ok b => b
      | Raise _ => false
      end
  | None => false
  end.

Section Handlers.
Context `{PyRuntime}.

(** *** The scalar handlers *)

Definition BoolHandler_prompt (spec : FieldSpec) (default : pyobj) : W pyobj :=
  let default_val := match default with VBool b => b | _ => true end in
  r ← questionary_confirm ("  " +:+ name spec +:+ "?") default_val;
  mret match r with
       | Some b => VBool b
       | None => VNone
       end.

Definition StrHandler_prompt (spec : FieldSpec) (default : pyobj) : W pyobj :=
  let default_str := if is_None default then "" else py_str default in
  result ← questionary_text ("  " +:+ name spec +:+ ":") default_str
             (fun val =>
                Ok (if negb (String.eqb (strip val) "") || negb (is_required spec)
                    then Accepted else Rejected "Value is required"));
  mret (VStr match result with
             | Some s => if String.eqb s "" then "" else strip s
             | None => ""
             end).

(** One bound of [validate_int]: the message when the bound is set and
    broken. *)
Definition check_bound (constraints : gmap string pyobj) (attr : string)
    (broken : pyobj -> outcome bool) (sign : string) : outcome (option string) :=
  match constraints !! attr with
  | Some bound =>
      match broken bound with
      | Ok true => Ok (Some ("Must be " +:+ sign +:+ " " +:+ py_str bound))
      | Ok false => Ok None
      | Raise e => Raise e
      end
  | None => Ok None
  end.

Definition validate_int (spec : FieldSpec) (val : string) : outcome verdict :=
  let constraints := constraints spec in
  if String.eqb (strip val) "" then
    Ok (if negb (is_required spec) then Accepted else Rejected "Value is required")
  else
    match int_of_str val with
    | Raise ValueError => Ok (Rejected "Must be an integer")
    | Raise e => Raise e
    | Ok n =>
        r ← check_bound constraints "ge" (int_lt n) ">=";
        match r with
        | Some message => Ok (Rejected message)
        | None =>
            r ← check_bound constraints "le" (int_gt n) "<=";
            match r with
            | Some message => Ok (Rejected message)
            | None =>
                r ← check_bound constraints "gt" (int_le n) ">";
                match r with
                | Some message => Ok (Rejected message)
                | None =>
                    r ← check_bound constraints "lt" (int_ge n) "<";
                    match r with
                    | Some message => Ok (Rejected message)
                    | None => Ok Accepted
                    end
                end
            end
        end
    end.

Definition IntHandler_prompt (spec : FieldSpec) (default : pyobj) : W pyobj :=
  let default_str := if is_None default then "" else py_str default in
  result ← questionary_text ("  " +:+ name spec +:+ " (int):") default_str
             (validate_int spec);
  match non_blank result with
  | Some result =>
      n ← from_outcome (int_of_str result);
      mret (VInt n)
  | None => mret default
  end.

Definition TimedeltaHandler_prompt (spec : FieldSpec) (default : pyobj) : W pyobj :=
  default_seconds ←
    match default with
    | VTimedelta td =>
        n ← from_outcome (float_trunc (total_seconds td));
        mret (str_of_int n)
    | _ => mret ""
    end;
  result ← questionary_text ("  " +:+ name spec +:+ " (total seconds):")
             default_seconds
             (fun v =>
                Ok (if String.eqb (strip v) "" && negb (is_required spec)
                    then Accepted
                    else if isdigit (strip v) then Accepted
                         else Rejected "Must be a non-negative integer"));
  match non_blank result with
  | Some result =>
      n ← from_outcome (int_of_str result);
      td ← from_outcome (timedelta_of_int_seconds n);
      mret (VTimedelta td)
  | None => mret default
  end.

(** [prompt_model_fn(cls, defaults=..., path=...)] *)
Definition prompt_model_fn :=
  option type_annotation -> option pyobj -> string -> W pyobj.

Definition PydanticModelHandler_prompt (spec : FieldSpec) (default : pyobj)
    (registry : option TypeHandlerRegistry)
    (prompt_model_fn : option prompt_model_fn) : W pyobj :=
  match prompt_model_fn with
  | None => mret VNone
  | Some prompt_model_fn =>
      let default_dict :=
        match default with
        | VModel _ _ => Some (model_dump default)
        | VDict _ => Some default
        | _ => None
        end in
      prompt_model_fn (inner_type spec) default_dict (name spec)
  end.

(** *** The composite handlers *)

(** [str(annotation)], [str(list(args))] and [tp.__name__] (or [str(tp)])
    are the run time's; so is [type(default).__name__]. *)
Variable annotation_str : type_annotation -> string.
Variable args_str : list type_annotation -> string.
Variable type_name : type_annotation -> string.
Variable class_name_of : pyobj -> string.

(** [questionary.select(message, choices=choices, default=default).ask()] *)
Variable questionary_select : string -> list string -> option string -> W (option string).

(** The prompts that are not modelled here: those that go through
    [questionary.select] with [Choice] objects or [questionary.checkbox]
    (the literal handler, the enum handler on an enum class, the set
    handler on a set of enum members) and those that read the answer with
    the run time's parsers (float, decimal, date-time, time); and the
    prompt of a custom handler. *)
Variable other_prompt : Handler -> FieldSpec -> pyobj -> W pyobj.
Variable custom_prompt : custom_handler -> FieldSpec -> pyobj -> W pyobj.

Definition EnumHandler_prompt (spec : FieldSpec) (default : pyobj) : W pyobj :=
  if negb (is_subclass_of (inner_type spec) Enum)
  then StrHandler_prompt spec default
  else other_prompt EnumHandler spec default.

Section Composite.

(** [handler.prompt(spec, default)], the call the composite handlers make
    on the handler the registry returns. *)
Variable inner_prompt : Handler -> FieldSpec -> pyobj -> W pyobj.

Definition display_name_of (annotation : option type_annotation) : string :=
  match annotation with
  | Some a => get_type_display_name annotation_str args_str a
  | None => "None"
  end.

Definition OptionalHandler_prompt (spec : FieldSpec) (default : pyobj)
    (registry : option TypeHandlerRegistry) : W pyobj :=
  should_configure ←
    questionary_confirm
      ("  Configure " +:+ name spec +:+ "? ("
       +:+ display_name_of (annotation spec) +:+ ")")
      (negb (is_None default));
  match should_configure with
  | Some true =>
      let inner_spec := OptionalHandler_inner_spec spec in
      match registry with
      | Some registry =>
          match get_handler registry inner_spec with
          | Some handler => inner_prompt handler inner_spec default
          | None => mret VNone
          end
      | None => mret VNone
      end
  | _ => mret VNone
  end.

(** The validator of the count prompts. *)
Definition validate_count (v : string) : outcome verdict :=
  Ok (if isdigit (strip v) then Accepted
      else Rejected "Must be a non-negative integer").

(** [int(count_str) if count_str else 0] *)
Definition count_of (count_str : option string) : outcome Z :=
  match count_str with
  | Some s => if String.eqb s "" then Ok 0%Z else int_of_str s
  | None => Ok 0%Z
  end.

Definition ListHandler_inner_spec (spec : FieldSpec) (i : nat) : FieldSpec :=
  {| name := name spec +:+ "[" +:+ str_of_int (Z.of_nat i) +:+ "]";
     annotation := inner_type spec;
     origin := None; args := [];
     default := VUndefined; default_factory := None;
     description := None; constraints := ∅;
     is_required := true;
     is_optional := false;
     is_init := true;
     inner_type := inner_type spec;
     is_enum := is_subclass_of (inner_type spec) Enum;
     is_literal := false;
     is_pydantic_model := is_subclass_of (inner_type spec) BaseModel;
     is_union := false; union_types := [];
     is_list := false; is_set := false; is_dict := false;
     key_type := None; value_type := None |}.

(** The body of [for i in range(count)], from [i] on. *)
Fixpoint ListHandler_items (spec : FieldSpec) (default : pyobj)
    (registry : option TypeHandlerRegistry) (remaining i : nat)
    (items : list pyobj) : W (list pyobj) :=
  match remaining with
  | O => mret items
  | S remaining =>
      let item_default :=
        match default with
        | VList l => match l !! i with Some x => x | None => VNone end
        | _ => VNone
        end in
      let inner_spec := ListHandler_inner_spec spec i in
      items ←
        match registry with
        | Some registry =>
            match get_handler registry inner_spec with
            | Some handler =>
                item ← inner_prompt handler inner_spec item_default;
                mret (items ++ [item])
            | None => mret items
            end
        | None => mret items
        end;
      ListHandler_items spec default registry remaining (S i) items
  end.

Definition ListHandler_prompt (spec : FieldSpec) (default : pyobj)
    (registry : option TypeHandlerRegistry) : W pyobj :=
  let default_count :=
    match default with
    | VList l => str_of_int (Z.of_nat (length l))
    | _ => "1"
    end in
  count_str ← questionary_text ("  How many items for " +:+ name spec +:+ "?")
                default_count validate_count;
  count ← from_outcome (count_of count_str);
  items ← ListHandler_items spec default registry (Z.to_nat count) 0 [];
  mret (VList items).

Definition DictHandler_val_spec (spec : FieldSpec) (key : pyobj) : FieldSpec :=
  {| name := name spec +:+ "[" +:+ py_str key +:+ "]";
     annotation := value_type spec;
     origin := None; args := [];
     default := VUndefined; default_factory := None;
     description := None; constraints := ∅;
     is_required := true;
     is_optional := false;
     is_init := true;
     inner_type := value_type spec;
     is_enum := false; is_literal := false; is_pydantic_model := false;
     is_union := false; union_types := [];
     is_list := false; is_set := false; is_dict := false;
     key_type := None; value_type := None |}.

(** The result of a text prompt as an object. *)
Definition str_or_None (r : option string) : pyobj :=
  match r with
  | Some s => VStr s
  | None => VNone
  end.

Fixpoint DictHandler_entries (spec : FieldSpec)
    (default_items : list (pyobj * pyobj))
    (registry : option TypeHandlerRegistry) (remaining i : nat)
    (result : list (pyobj * pyobj)) : W (list (pyobj * pyobj)) :=
  match remaining with
  | O => mret result
  | S remaining =>
      let key_default :=
        match default_items !! i with
        | Some item => py_str (fst item)
        | None => ""
        end in
      let val_default :=
        match default_items !! i with
        | Some item => snd item
        | None => VNone
        end in
      key ← questionary_text ("  Key [" +:+ str_of_int (Z.of_nat i) +:+ "]:")
              key_default no_validate;
      let key := str_or_None key in
      let val_spec := DictHandler_val_spec spec key in
      result ←
        match registry with
        | Some registry =>
            match get_handler registry val_spec with
            | Some handler =>
                value ← inner_prompt handler val_spec val_default;
                mret (dict_set key value result)
            | None => mret result
            end
        | None =>
            value ← questionary_text ("  Value for '" +:+ py_str key +:+ "':")
                      "" no_validate;
            mret (dict_set key (str_or_None value) result)
        end;
      DictHandler_entries spec default_items registry remaining (S i) result
  end.

Definition DictHandler_prompt (spec : FieldSpec) (default : pyobj)
    (registry : option TypeHandlerRegistry) : W pyobj :=
  let default_count :=
    match default with
    | VDict kv => str_of_int (Z.of_nat (length kv))
    | _ => "0"
    end in
  count_str ← questionary_text ("  How many entries for " +:+ name spec +:+ "?")
                default_count validate_count;
  count ← from_outcome (count_of count_str);
  let default_items := match default with VDict kv => kv | _ => [] end in
  result ← DictHandler_entries spec default_items registry (Z.to_nat count) 0 [];
  mret (VDict result).

Definition UnionHandler_inner_spec (spec : FieldSpec) (chosen_type : type_annotation)
    : FieldSpec :=
  {| name := name spec;
     annotation := Some chosen_type;
     origin := None; args := [];
     default := VUndefined; default_factory := None;
     description := None; constraints := ∅;
     is_required := true;
     is_optional := false;
     is_init := true;
     inner_type := Some chosen_type;
     is_enum := is_subclass_of (Some chosen_type) Enum;
     is_literal := false;
     is_pydantic_model := is_subclass_of (Some chosen_type) BaseModel;
     is_union := false; union_types := [];
     is_list := false; is_set := false; is_dict := false;
     key_type := None; value_type := None |}.

Definition UnionHandler_prompt (spec : FieldSpec) (default : pyobj)
    (registry : option TypeHandlerRegistry) : W pyobj :=
  let type_names := map type_name (union_types spec) in
  let type_map : gmap string type_annotation :=
    foldl (fun type_map tp => <[type_name tp := tp]> type_map) ∅ (union_types spec) in
  let default_name :=
    if is_None default then None else Some (class_name_of default) in
  chosen_name ← questionary_select ("  " +:+ name spec +:+ " - which type?")
                  type_names default_name;
  match chosen_name ≫= (type_map !!.) with
  | None => from_outcome (Raise KeyError)
  | Some chosen_type =>
      let inner_spec := UnionHandler_inner_spec spec chosen_type in
      match registry with
      | Some registry =>
          match get_handler registry inner_spec with
          | Some handler => inner_prompt handler inner_spec default
          | None => mret VNone
          end
      | None => mret VNone
      end
  end.

Definition SetHandler_list_spec (spec : FieldSpec) : FieldSpec :=
  {| name := name spec;
     annotation := annotation spec;
     origin := None; args := [];
     default := VUndefined; default_factory := None;
     description := None; constraints := ∅;
     is_required := is_required spec;
     is_optional := false;
     is_init := true;
     inner_type := inner_type spec;
     is_enum := false; is_literal := false; is_pydantic_model := false;
     is_union := false; union_types := [];
     is_list := true; is_set := false; is_dict := false;
     key_type := None; value_type := None |}.

Definition SetHandler_prompt (spec : FieldSpec) (default : pyobj)
    (registry : option TypeHandlerRegistry) : W pyobj :=
  if is_subclass_of (inner_type spec) Enum
  then other_prompt SetHandler spec default
  else
    list_default ← from_outcome (if py_bool default then py_list default
                                 else Ok VNone);
    result ← ListHandler_prompt (SetHandler_list_spec spec) list_default registry;
    if py_bool result then from_outcome (py_set result) else mret (VSet []).

End Composite.

(** Without a registry a composite handler looks no handler up. *)
Definition no_handler : Handler -> FieldSpec -> pyobj -> W pyobj :=
  fun _ _ _ c => Pending c.

(** [handler.prompt(spec, default)] *)
Definition prompt (handler : Handler) (spec : FieldSpec) (default : pyobj)
    : W pyobj :=
  match handler with
  | BoolHandler => BoolHandler_prompt spec default
  | StrHandler => StrHandler_prompt spec default
  | IntHandler => IntHandler_prompt spec default
  | TimedeltaHandler => TimedeltaHandler_prompt spec default
  | EnumHandler => EnumHandler_prompt spec default
  | PydanticModelHandler => PydanticModelHandler_prompt spec default None None
  | OptionalHandler => OptionalHandler_prompt no_handler spec default None
  | ListHandler => ListHandler_prompt no_handler spec default None
  | SetHandler => SetHandler_prompt no_handler spec default None
  | DictHandler => DictHandler_prompt no_handler spec default None
  | UnionHandler => UnionHandler_prompt no_handler spec default None
  | LiteralHandler | FloatHandler | DecimalHandler | DatetimeHandler
  | TimeHandler => other_prompt handler spec default
  | CustomHandler h => custom_prompt h spec default
  end.

End Handlers.

End Wizard.

(** The handler the default registry has for the elements of a list, by
    the element type, and for the values of a dict, by the value type. *)
Definition element_handler (tp : option type_annotation) : option Handler :=
  match tp with
  | Some (Plain c) => handler_of_class c
  | _ => None
  end.

Definition value_handler (tp : option type_annotation) : option Handler :=
  match tp with
  | Some (Plain (CEnum _)) | Some (Plain (CModel _)) => None
  | Some (Plain c) => handler_of_class c
  | _ => None
  end.

(** ** Values and a run time used in the examples *)

(** A run time for the prompts: placeholders for the text of annotations,
    and no answer from the prompts that are left to the library. *)
Definition sample_annotation_str (a : type_annotation) : string := "<annotation>".
Definition sample_args_str (args : list type_annotation) : string := "[...]".
Definition sample_class_name_of (v : pyobj) : string := "object".
Definition sample_select (message : string) (choices : list string)
    (default : option string) : Wizard.W (option string) :=
  fun c => Wizard.Pending c.
Definition sample_custom_prompt (h : custom_handler) (spec : FieldSpec)
    (default : pyobj) : Wizard.W pyobj :=
  fun c => Wizard.Pending c.

(** [handler.prompt(spec, default)] with that run time. *)
Definition sample_prompt : Handler -> FieldSpec -> pyobj -> Wizard.W pyobj :=
  @Wizard.prompt plain_runtime sample_annotation_str sample_args_str
    sample_annotation_str sample_class_name_of sample_select
    Wizard.no_handler sample_custom_prompt.

(** [repr] as far as the examples need it. *)
Definition sample_repr (v : pyobj) : string :=
  match v with
  | VNone => "None"
  | _ => @py_str plain_runtime v
  end.

(** A job record: a duration, a set of tags, a price. *)
Definition job_instance : pyobj :=
  VModel "Job"
    [ ("ttl", VTimedelta (Timedelta 90000000));
      ("tags", VSet [VStr "b"; VStr "a"]);
      ("price", VDecimal (Decimal false 1999 (-2))) ].

(** An integer field [retries] with [ge=1] and [le=5]. *)
Definition retries_spec : FieldSpec :=
  set_constraints (<["ge" := VInt 1]> (<["le" := VInt 5]> ∅))
    (set_inner_type (Some (Plain CInt)) (FieldSpec_new "retries")).

(** The descriptors of [tags: list[list[str]]], of [jobs: list[Job]], of
    [ports: list[int]] and of [limits: dict[str, Job]]. *)
Definition nested_list_spec : FieldSpec :=
  set_inner_type (Some (Generic OList [Plain CStr]))
    (set_is_list true (FieldSpec_new "tags")).

Definition model_list_spec : FieldSpec :=
  set_inner_type (Some (Plain (CModel "Job")))
    (set_is_list true (FieldSpec_new "jobs")).

Definition int_list_spec : FieldSpec :=
  set_inner_type (Some (Plain CInt)) (set_is_list true (FieldSpec_new "ports")).

Definition model_dict_spec : FieldSpec :=
  set_value_type (Some (Plain (CModel "Job")))
    (set_key_type (Some (Plain CStr)) (set_is_dict true (FieldSpec_new "limits"))).

(** The descriptor of [ports: list[int] | None] as [_resolve_type] builds
    it. *)
Definition optional_list_spec : FieldSpec :=
  set_name "ports"
    (set_inner_type (Some (Plain CInt))
       (set_is_list true
          (set_is_optional true
             (set_args [Generic OList [Plain CInt]; Plain CNoneType]
                (set_origin (Some OUnionType) (FieldSpec_new "")))))).

(** A model class [myapp.config.Profile] and an import system that knows
    its module. *)
Definition Profile_class : class_object :=
  {| __module__ := "myapp.config"; __qualname__ := "Profile";
     as_model := Some Profile |}.

Definition sample_import_module (module_path : string)
    : gmap string module_attr + exception :=
  if String.eqb module_path "myapp.config"
  then inl {["Profile" := AttrClass Profile_class]}
  else inr ImportError.

(** An enumeration [Status], and a model with a field
    [status: Status | None]. *)
Definition Status : enum_def :=
  {| enum_name := "Status";
     enum_members := [("OPEN", VStr "open"); ("CLOSED", VStr "closed")] |}.

Definition Ticket : BaseModelClass :=
  {| __name__ := "Ticket";
     model_fields :=
       [("status",
         {| FieldInfo.annotation :=
              Some (Generic OUnionType [Plain (CEnum Status); Plain CNoneType]);
            FieldInfo.default := VUndefined;
            FieldInfo.default_factory := None;
            FieldInfo.description := None;
            FieldInfo.metadata := [];
            FieldInfo.init := None;
            FieldInfo.frozen := None |})] |}.

(** The descriptor of [status] as [introspect_model] builds it. *)
Definition status_spec : FieldSpec :=
  set_is_required false
    (set_default VNone
       (set_annotation (Some (Generic OUnionType [Plain (CEnum Status); Plain CNoneType]))
          (set_name "status"
             (set_inner_type (Some (Plain (CEnum Status)))
                (set_is_enum true
                   (set_is_optional true
                      (set_args [Plain (CEnum Status); Plain CNoneType]
                         (set_origin (Some OUnionType) (FieldSpec_new ""))))))))).

(** The descriptor of [limits: dict[str, int] | None] as [_resolve_type]
    builds it. *)
Definition optional_dict_spec : FieldSpec :=
  set_name "limits"
    (set_inner_type (Some (Generic ODict [Plain CStr; Plain CInt]))
    (set_value_type (Some (Plain CInt))
       (set_key_type (Some (Plain CStr))
          (set_is_dict true
             (set_is_optional true
                (set_args [Generic ODict [Plain CStr; Plain CInt]; Plain CNoneType]
                   (set_origin (Some OUnionType) (FieldSpec_new "")))))))).

(** A union of two classes that bear the same name, a model and a plain
    class, and of [int]; and a select prompt at which the operator picks
    the first entry. *)
Definition same_name_union_spec : FieldSpec :=
  set_union_types [Plain (CModel "Config"); Plain (CClass "Config"); Plain CInt]
    (set_is_union true (FieldSpec_new "source")).

Definition sample_type_name (tp : type_annotation) : string :=
  match tp with
  | Plain c => class_name c
  | _ => "<annotation>"
  end.

Definition select_first (message : string) (choices : list string)
    (default : option string) : Wizard.W (option string) :=
  fun c => Wizard.Done (head choices) c.

(* ===================================================================== *)
(** * Part II.  Properties                                                *)
(* ===================================================================== *)

(** ** Registry: selection order *)

Lemma get_handler_register_front (h : Handler) (r : TypeHandlerRegistry)
    (spec : FieldSpec) :
  get_handler (register h true r) spec =
  if can_handle h spec then Some h else get_handler r spec.
Proof. reflexivity. Qed.

Lemma first_handler_app (hs1 hs2 : list Handler) (spec : FieldSpec) :
  first_handler (hs1 ++ hs2) spec =
  match first_handler hs1 spec with
  | Some h => Some h
  | None => first_handler hs2 spec
  end.
Proof.
  induction hs1 as [|h hs1 IH]; simpl; [reflexivity|].
  destruct (can_handle h spec); [reflexivity|exact IH].
Qed.

(** [first_handler] is the first element, in list order, that accepts. *)
Lemma first_handler_Some (hs : list Handler) (spec : FieldSpec) (h : Handler) :
  first_handler hs spec = Some h <->
  exists pre post, hs = pre ++ h :: post /\
    Forall (fun h' => can_handle h' spec = false) pre /\
    can_handle h spec = true.
Proof.
  split.
  - induction hs as [|h0 hs IH]; simpl; [discriminate|].
    destruct (can_handle h0 spec) eqn:E.
    + intros [= ->]. exists [], hs. auto.
    + intros H. destruct (IH H) as (pre & post & -> & Hpre & Hh).
      exists (h0 :: pre), post. auto.
  - intros (pre & post & -> & Hpre & Hh).
    induction Hpre as [|h0 pre E _ IH]; simpl.
    + now rewrite Hh.
    + now rewrite E.
Qed.

Lemma first_handler_None (hs : list Handler) (spec : FieldSpec) :
  first_handler hs spec = None <->
  Forall (fun h => can_handle h spec = false) hs.
Proof.
  induction hs as [|h hs IH]; simpl.
  - split; auto.
  - destruct (can_handle h spec) eqn:E; split.
    + discriminate.
    + intros H. inversion H; congruence.
    + intros H. constructor; [exact E|now apply IH].
    + intros H. inversion H; now apply IH.
Qed.

Lemma resolve_bytes : _resolve_type (Plain (CClass "bytes")) = Ok bytes_spec.
Proof. reflexivity. Qed.

(** C1, as stated, fails: the string handler accepts a descriptor only when
    its inner type is [str], so the default registry has no handler for
    the descriptor of a [bytes] field. *)
Lemma C1_no_handler_for_bytes :
  can_handle StrHandler bytes_spec = false /\
  get_handler TypeHandlerRegistry_new bytes_spec = None.
Proof. split; reflexivity. Qed.

Ltac outcome_cases :=
  repeat (simpl in *; unfold mbind, outcome_bind, mret, outcome_ret in *;
          first [ progress simplify_eq | case_match ]).

Ltac case_if :=
  match goal with
  | |- context [if ?b then _ else _] => destruct b eqn:?; simpl
  end.

(** C1, amended: on the default registry [get_handler] finds a handler
    exactly for the descriptors that carry a shape flag or whose inner type
    is one of [bool], [Decimal], [int], [float], [datetime], [time],
    [timedelta], [str]; what it returns accepts the descriptor; for every
    other descriptor it returns [None], and [prompt_model] then falls back
    to the string handler itself. *)
Theorem C1_default_registry_coverage (spec : FieldSpec) :
  (get_handler TypeHandlerRegistry_new spec = None <-> recognized spec = false) /\
  (forall h, get_handler TypeHandlerRegistry_new spec = Some h ->
             can_handle h spec = true) /\
  (recognized spec = false <->
   get_handler TypeHandlerRegistry_new spec = None /\
   handler_for TypeHandlerRegistry_new spec = StrHandler) /\
  (recognized spec = true <->
   get_handler TypeHandlerRegistry_new spec
   = Some (handler_for TypeHandlerRegistry_new spec)).
Proof.
  assert (Hnone : get_handler TypeHandlerRegistry_new spec = None
                  <-> recognized spec = false).
  { unfold get_handler, recognized. rewrite first_handler_None. simpl. split.
    - intros HF. repeat (apply Forall_cons_1 in HF as [? HF]). simpl in *.
      destruct (is_optional spec); [discriminate|].
      destruct (is_union spec); [discriminate|]. simpl.
      repeat match goal with
             | E : ?b = false |- _ => rewrite E; clear E
             end.
      reflexivity.
    - intros Hr. repeat (apply orb_false_elim in Hr as [Hr ?]).
      repeat constructor; simpl; try assumption.
      destruct (is_union spec); [discriminate|reflexivity]. }
  split; [exact Hnone|]. split; [|split].
  - intros h Hh. unfold get_handler in Hh.
    apply first_handler_Some in Hh as (_ & _ & _ & _ & Hh). exact Hh.
  - rewrite <- Hnone. unfold handler_for. split.
    + intros ->. auto.
    + intros [? _]. assumption.
  - rewrite <- not_false_iff_true, <- Hnone. unfold handler_for.
    destruct (get_handler TypeHandlerRegistry_new spec); split; congruence.
Qed.

(** C4: [get_handler] returns the first handler, in the order of the
    registry's list, whose [can_handle] accepts the descriptor;
    [register] with [priority=True] puts the handler in front, with
    [priority=False] at the end; so a custom handler registered in front
    is selected for every descriptor it accepts, whatever built-in handler
    accepts it too, while one registered at the end is selected only when
    nothing before it accepts. *)
Theorem C4_registry_selection_order (custom : Handler) (r : TypeHandlerRegistry)
    (spec : FieldSpec) (Hcustom : can_handle custom spec = true) :
  (forall h, get_handler r spec = Some h <->
     exists pre post, _handlers r = pre ++ h :: post /\
       Forall (fun h' => can_handle h' spec = false) pre /\
       can_handle h spec = true) /\
  _handlers (register custom true r) = custom :: _handlers r /\
  _handlers (register custom false r) = _handlers r ++ [custom] /\
  get_handler (register custom true r) spec = Some custom /\
  get_handler (register custom false r) spec =
    match get_handler r spec with
    | Some builtin => Some builtin
    | None => Some custom
    end.
Proof.
  split; [intros h; apply first_handler_Some|].
  split; [reflexivity|]. split; [reflexivity|]. split.
  - rewrite get_handler_register_front, Hcustom. reflexivity.
  - unfold get_handler, register. simpl. rewrite first_handler_app. simpl.
    now rewrite Hcustom.
Qed.

Lemma C4_registry_selection_order_witness :
  can_handle upper_case_handler str_spec = true /\
  get_handler TypeHandlerRegistry_new str_spec = Some StrHandler /\
  get_handler (register upper_case_handler true TypeHandlerRegistry_new) str_spec
    = Some upper_case_handler.
Proof.
  split; [reflexivity|]. split; [reflexivity|].
  apply (C4_registry_selection_order upper_case_handler TypeHandlerRegistry_new
           str_spec).
  reflexivity.
Defined.

(** ** Type resolution *)

Lemma type_annotation_nested_ind (P : type_annotation -> Prop) :
  (forall c, P (Plain c)) ->
  (forall n, P (Special n)) ->
  (forall v, P (Const v)) ->
  (forall o args, Forall P args -> P (Generic o args)) ->
  forall a, P a.
Proof.
  intros HP HS HC HG. fix IH 1.
  intros [c|n|v|o args]; [apply HP|apply HS|apply HC|].
  apply HG. induction args as [|a args IHargs]; constructor.
  - apply IH.
  - exact IHargs.
Qed.

Lemma index_ok {A} (l : list A) (i : nat) :
  (i < length l)%nat -> exists x, index l i = Ok x.
Proof.
  intros Hi. unfold index. destruct (l !! i) eqn:E; [eauto|].
  apply lookup_ge_None in E. lia.
Qed.

Lemma on_first_non_none_ok {A} (rec : type_annotation -> outcome A)
    (l : list type_annotation) :
  Forall (fun a => exists s, rec a = Ok s) l ->
  List.filter (fun a => negb (_is_none_type a)) l <> [] ->
  exists s, on_first_non_none rec l = Ok s.
Proof.
  induction 1 as [|a l Ha _ IH]; simpl; [congruence|].
  destruct (_is_none_type a); simpl; auto.
Qed.

Lemma resolve_union_ok (spec : FieldSpec) (args : list type_annotation)
    (resolved : outcome FieldSpec) :
  (List.filter (fun a => negb (_is_none_type a)) args <> [] ->
   exists s, resolved = Ok s) ->
  exists s, resolve_union spec args resolved = Ok s.
Proof.
  intros Hres. unfold resolve_union.
  set (non_none := List.filter _ args) in *.
  destruct (length non_none =? 1)%nat eqn:E1.
  - apply Nat.eqb_eq in E1.
    destruct Hres as [inner ->]; [destruct non_none; simpl in *; congruence|].
    destruct (index_ok non_none 0) as [first ->]; [lia|].
    simpl. eauto.
  - destruct (1 <? length non_none)%nat; eauto.
Qed.

Lemma resolve_with_ok (resolved : outcome FieldSpec) (a : type_annotation) :
  (List.filter (fun a => negb (_is_none_type a)) (get_args a) <> [] ->
   exists s, resolved = Ok s) ->
  exists s, resolve_with resolved a = Ok s.
Proof.
  intros Hres. unfold resolve_with.
  destruct (is_union_type (get_origin a)); [now apply resolve_union_ok|].
  destruct (is_typing_union (get_origin a)); [now apply resolve_union_ok|].
  destruct (get_args a) as [|x [|y rest]] eqn:Eargs;
    repeat case_if; simpl; eauto.
Qed.

(** [_resolve_type] returns a descriptor for every annotation. *)
Lemma _resolve_type_total (a : type_annotation) :
  exists spec, _resolve_type a = Ok spec.
Proof.
  induction a as [c|n|v|o args IH] using type_annotation_nested_ind;
    simpl; apply resolve_with_ok; simpl; try congruence.
  intros Hne. now apply on_first_non_none_ok.
Qed.

(** C9: type resolution is total and deterministic: for every annotation
    [_resolve_type] returns a descriptor, never raises, and every call on
    that annotation returns that same descriptor (structurally equal
    field by field). *)
Theorem C9_resolve_type_total_deterministic (a : type_annotation) :
  exists spec, _resolve_type a = Ok spec /\
    (forall e, _resolve_type a <> Raise e) /\
    (forall spec', _resolve_type a = Ok spec' -> spec' = spec).
Proof.
  destruct (_resolve_type_total a) as [spec E]. exists spec.
  rewrite E. repeat split; congruence.
Qed.

Lemma on_first_non_none_prop {A} (rec : type_annotation -> outcome A)
    (P : A -> Prop) (l : list type_annotation) :
  Forall (fun a => forall s, rec a = Ok s -> P s) l ->
  forall s, on_first_non_none rec l = Ok s -> P s.
Proof.
  induction 1 as [|a l Ha _ IH]; simpl; intros s Hs; [discriminate|].
  destruct (_is_none_type a); auto.
Qed.

Lemma resolve_union_one_shape (spec : FieldSpec) (args : list type_annotation)
    (resolved : outcome FieldSpec) (out : FieldSpec) :
  count_true (shape_flags spec) = O ->
  (forall inner, resolved = Ok inner -> one_shape inner) ->
  resolve_union spec args resolved = Ok out -> one_shape out.
Proof.
  intros Hspec Hinner. unfold resolve_union.
  destruct (_ =? 1)%nat.
  - destruct resolved as [inner|e]; simpl; [|discriminate].
    specialize (Hinner inner eq_refl).
    destruct (index _ 0) as [first|e]; simpl; [|discriminate].
    intros [= <-]. unfold one_shape, shape_flags in *.
    destruct (inner_type inner); exact Hinner.
  - destruct (1 <? _)%nat; intros [= <-]; unfold one_shape, shape_flags in *;
      destruct spec; simpl in *; unfold count_true in *; simpl in *;
      repeat case_match; simpl in *; lia.
Qed.

Lemma resolve_with_one_shape (resolved : outcome FieldSpec)
    (a : type_annotation) (out : FieldSpec) :
  (forall inner, resolved = Ok inner -> one_shape inner) ->
  resolve_with resolved a = Ok out -> one_shape out.
Proof.
  intros Hinner. unfold resolve_with.
  destruct (is_union_type _);
    [apply resolve_union_one_shape; [reflexivity|exact Hinner]|].
  destruct (is_typing_union _);
    [apply resolve_union_one_shape; [reflexivity|exact Hinner]|].
  destruct (origin_is OList _).
  { destruct (if bool_decide _ then _ else _); simpl; intros [= <-].
    unfold one_shape, count_true; simpl; lia. }
  destruct (origin_is OSet _).
  { destruct (if bool_decide _ then _ else _); simpl; intros [= <-].
    unfold one_shape, count_true; simpl; lia. }
  destruct (origin_is ODict _).
  { destruct (if bool_decide _ then _ else _); simpl; [|discriminate].
    destruct (if (1 <? _)%nat then _ else _); simpl; intros [= <-].
    unfold one_shape, count_true; simpl; lia. }
  destruct (origin_is OLiteral _).
  { intros [= <-]. unfold one_shape, count_true; simpl; lia. }
  intros [= <-].
  destruct (_is_enum_type a); [|destruct (_is_pydantic_model a)];
    unfold one_shape, count_true; simpl; lia.
Qed.

(** A resolved descriptor carries at most one shape flag. *)
Lemma _resolve_type_one_shape (a : type_annotation) :
  forall spec, _resolve_type a = Ok spec -> one_shape spec.
Proof.
  induction a as [c|n|v|o args IH] using type_annotation_nested_ind;
    intros spec; simpl; apply resolve_with_one_shape;
    try discriminate.
  apply (on_first_non_none_prop _resolve_type one_shape args IH).
Qed.

(** ** Introspection *)


(** Resolution leaves the default attributes at their initial values. *)
Lemma _resolve_type_defaults (a : type_annotation) (spec : FieldSpec) :
  _resolve_type a = Ok spec ->
  is_required spec = true /\ default spec = VUndefined /\
  default_factory spec = None.
Proof.
  destruct a; simpl; unfold resolve_with, resolve_union; intros Hs;
    outcome_cases; auto.
Qed.

Lemma introspect_field_ok (name : string) (field_info : FieldInfo.t) :
  exists r, introspect_field name field_info = Ok r.
Proof.
  unfold introspect_field.
  destruct (FieldInfo.annotation field_info) as [a|]; [|eauto].
  destruct (_resolve_type_total a) as [resolved ->]. simpl. eauto.
Qed.

Lemma introspect_fields_elem (fields : list (string * FieldInfo.t))
    (name : string) (field_info : FieldInfo.t) (spec : FieldSpec) :
  (name, field_info) ∈ fields ->
  introspect_field name field_info = Ok (Some spec) ->
  exists specs, introspect_fields fields = Ok specs /\ spec ∈ specs.
Proof.
  induction fields as [|[n fi] rest IH]; intros Hin Hf.
  - inversion Hin.
  - simpl. apply elem_of_cons in Hin as [[= <- <-]|Hin].
    + rewrite Hf. simpl.
      assert (exists specs, introspect_fields rest = Ok specs) as [specs ->].
      { clear. induction rest as [|[n fi] rest [specs IH]]; simpl; [eauto|].
        destruct (introspect_field_ok n fi) as [r ->]. simpl.
        rewrite IH. simpl. eauto. }
      simpl. eexists. split; [reflexivity|]. apply elem_of_cons. auto.
    + destruct (IH Hin Hf) as (specs & -> & Hspec).
      destruct (introspect_field_ok n fi) as [r ->]. simpl.
      eexists. split; [reflexivity|].
      destruct r; [apply elem_of_cons|]; auto.
Qed.

(** C7: a model field whose annotation resolves to an optional shape and
    that has neither a default nor a default factory is introspected as
    not required, with default [None]. *)
Theorem C7_optional_without_default (model_class : BaseModelClass)
    (field_name : string) (field_info : FieldInfo.t)
    (field_annotation : type_annotation) (resolved : FieldSpec)
    (Hfield : (field_name, field_info) ∈ model_fields model_class)
    (Hannotation : FieldInfo.annotation field_info = Some field_annotation)
    (Hresolved : _resolve_type field_annotation = Ok resolved)
    (Hoptional : is_optional resolved = true)
    (Hdefault : FieldInfo.default field_info = VUndefined)
    (Hfactory : FieldInfo.default_factory field_info = None) :
  exists specs spec,
    introspect_model model_class = Ok specs /\ spec ∈ specs /\
    name spec = field_name /\
    annotation spec = Some field_annotation /\
    is_optional spec = true /\
    is_required spec = false /\
    default spec = VNone /\
    default_factory spec = None.
Proof.
  destruct (_resolve_type_defaults _ _ Hresolved) as (Hreq & _ & Hfac).
  assert (exists spec, introspect_field field_name field_info = Ok (Some spec) /\
            name spec = field_name /\ annotation spec = Some field_annotation /\
            is_optional spec = true /\ is_required spec = false /\
            default spec = VNone /\ default_factory spec = None)
    as (spec & Hspec & Hprops).
  { unfold introspect_field.
    rewrite Hannotation, Hresolved, Hdefault, Hfactory. simpl.
    rewrite Hoptional, Hreq. simpl.
    destruct (FieldInfo.init field_info) as [[|]|],
             (FieldInfo.frozen field_info) as [[|]|];
      (eexists; split; [reflexivity|]); simpl; repeat split; auto. }
  destruct (introspect_fields_elem _ _ _ _ Hfield Hspec) as (specs & Hspecs & Hin).
  exists specs, spec. split; [exact Hspecs|]. split; [exact Hin|]. exact Hprops.
Qed.

Lemma C7_optional_without_default_witness :
  exists specs spec,
    introspect_model Profile = Ok specs /\ spec ∈ specs /\
    name spec = "nickname" /\
    annotation spec = Some (Generic OUnionType [Plain CStr; Plain CNoneType]) /\
    is_optional spec = true /\
    is_required spec = false /\
    default spec = VNone /\
    default_factory spec = None.
Proof.
  eapply (C7_optional_without_default Profile "nickname").
  - apply list_elem_of_here.
  - reflexivity.
  - reflexivity.
  - reflexivity.
  - reflexivity.
  - reflexivity.
Defined.

(** ** The optional gate *)

Section OptionalGate.
Context `{PyRuntime}.
Variable handler_prompt :
  Handler -> FieldSpec -> pyobj -> option TypeHandlerRegistry -> M pyobj.



End OptionalGate.


(** ** The effective default of a field *)

Section EffectiveDefault.
Context `{PyRuntime}.

(** The effective default never raises, and it is the stated one unless
    the declared default is an object other than the sentinel whose text
    form is the sentinel's. *)
Lemma effective_default_of_stated (defaults : gmap string pyobj) (spec : FieldSpec) :
  default spec = VUndefined \/ py_str (default spec) <> "PydanticUndefined" ->
  effective_default_of defaults spec = Ok (stated_effective_default defaults spec).
Proof.
  intros Hd. unfold effective_default_of, stated_effective_default.
  assert (Hfield :
    (if negb (is_None (default spec))
        && negb (String.eqb (py_str (default spec)) "PydanticUndefined")
     then Ok (default spec)
     else match default_factory spec with
          | Some f => try_except (f tt) (fun _ => Ok VNone)
          | None => Ok VNone
          end)
    = Ok match default spec with
         | VUndefined | VNone =>
             match default_factory spec with
             | Some f => match f tt with Ok v => v | Raise _ => VNone end
             | None => VNone
             end
         | declared => declared
         end).
  { destruct Hd as [-> | Hne].
    - simpl. destruct (default_factory spec) as [f|]; [|reflexivity].
      destruct (f tt); reflexivity.
    - apply String.eqb_neq in Hne. rewrite Hne.
      destruct (default spec) eqn:Ed; simpl; try reflexivity.
      + destruct (default_factory spec) as [f|]; [|reflexivity].
        destruct (f tt); reflexivity.
      + simpl in Hne. discriminate. }
  destruct (defaults !! name spec) as [v|] eqn:Ev; simpl.
  - destruct v; simpl; try reflexivity. exact Hfield.
  - exact Hfield.
Qed.

Lemma effective_default_of_never_raises (defaults : gmap string pyobj)
    (spec : FieldSpec) :
  exists v, effective_default_of defaults spec = Ok v.
Proof.
  unfold effective_default_of, try_except.
  repeat (case_match; simpl); eauto.
Qed.

(** A factory that raises leaves the field without default. *)
Lemma effective_default_of_factory_raises (defaults : gmap string pyobj)
    (spec : FieldSpec) (f : factory) (e : pyexn) :
  defaults !! name spec = None ->
  default spec = VUndefined ->
  default_factory spec = Some f ->
  f tt = Raise e ->
  effective_default_of defaults spec = Ok VNone.
Proof.
  intros Hs Hd Hf He. unfold effective_default_of.
  rewrite Hs, Hd, Hf, He. reflexivity.
Qed.

Variable handler_prompt :
  Handler -> FieldSpec -> pyobj -> option TypeHandlerRegistry -> M pyobj.

(** Acquisition goes on after a factory raised: the handler of the field
    is prompted with no default and the remaining fields follow. *)
Lemma prompt_fields_factory_raises (spec : FieldSpec) (rest : list FieldSpec)
    (defaults : gmap string pyobj) (path : string)
    (registry : TypeHandlerRegistry) (result : gmap string pyobj)
    (f : factory) (e : pyexn) (t : terminal) :
  is_init spec = true ->
  defaults !! name spec = None ->
  default spec = VUndefined ->
  default_factory spec = Some f ->
  f tt = Raise e ->
  prompt_fields handler_prompt (spec :: rest) defaults path registry result t =
  (value ← _call_handler handler_prompt (handler_for registry spec) spec VNone
             registry path;
   prompt_fields handler_prompt rest defaults path registry
     (<[name spec := value]> result)) t.
Proof.
  intros Hi Hs Hd Hf He. simpl. rewrite Hi. simpl.
  rewrite (effective_default_of_factory_raises _ _ _ _ Hs Hd Hf He).
  reflexivity.
Qed.

End EffectiveDefault.

Lemma introspect_Sentinel : introspect_model Sentinel = Ok [sentinel_spec].
Proof. reflexivity. Qed.

(** C8 holds except at one input: the declared default is recognised by
    comparing its text form with ["PydanticUndefined"], so a field declared
    with the string default ["PydanticUndefined"] gets no default at all,
    where the stated rule gives its declared default. *)
Theorem C8_declared_default_dropped `{PyRuntime} :
  introspect_model Sentinel = Ok [sentinel_spec] /\
  default sentinel_spec = VStr "PydanticUndefined" /\
  effective_default_of ∅ sentinel_spec = Ok VNone /\
  stated_effective_default ∅ sentinel_spec = VStr "PydanticUndefined" /\
  prompt_model default_prompt Sentinel None "" None (Terminal [] [] [])
  = Returned {["label" := VNone]}
      (Terminal [] [] [CalledPrompt StrHandler sentinel_spec VNone None]).
Proof. repeat split. Qed.

(** ** The validation repair loop *)

Section RepairLoop.
Context `{PyRuntime}.
Variable model_validate : gmap string pyobj -> pyobj + list error_details.

Lemma M_bind_unfold {A B} (c : M A) (k : A -> M B) (t : terminal) :
  (x ← c; k x) t =
  match c t with
  | Returned a t' => k a t'
  | Raised e t' => Raised e t'
  | Waiting t' => Waiting t'
  end.
Proof. reflexivity. Qed.






End RepairLoop.





(** ** Sets: iteration order and sorted output *)

Lemma string_compare_refl (s : string) : String.compare s s = Eq.
Proof.
  induction s as [|c s IH]; simpl; [reflexivity|].
  unfold Ascii.compare. now rewrite N.compare_refl.
Qed.

Lemma string_compare_trans_le (s1 : string) :
  forall s2 s3,
  String.compare s1 s2 <> Gt -> String.compare s2 s3 <> Gt ->
  String.compare s1 s3 <> Gt.
Proof.
  induction s1 as [|c1 s1 IH]; intros [|c2 s2] [|c3 s3]; simpl;
    try congruence.
  unfold Ascii.compare.
  destruct (N.compare_spec (N_of_ascii c1) (N_of_ascii c2)) as [E12|L12|G12];
    destruct (N.compare_spec (N_of_ascii c2) (N_of_ascii c3)) as [E23|L23|G23];
    try congruence; intros H12 H23.
  - rewrite E12, E23, N.compare_refl. now apply (IH s2).
  - rewrite E12. now apply N.compare_lt_iff in L23 as ->.
  - rewrite <- E23. now apply N.compare_lt_iff in L12 as ->.
  - assert (N_of_ascii c1 < N_of_ascii c3)%N as L13 by lia.
    now apply N.compare_lt_iff in L13 as ->.
Qed.

Lemma string_leb_trans (s1 s2 s3 : string) :
  String.leb s1 s2 = true -> String.leb s2 s3 = true -> String.leb s1 s3 = true.
Proof.
  unfold String.leb. intros H12 H23.
  pose proof (string_compare_trans_le s1 s2 s3) as Ht.
  destruct (String.compare s1 s2), (String.compare s2 s3),
           (String.compare s1 s3); try reflexivity; try discriminate;
    exfalso; apply Ht; congruence.
Qed.

Lemma string_ltb_leb (s1 s2 : string) :
  String.ltb s1 s2 = true -> String.leb s1 s2 = true.
Proof. unfold String.ltb, String.leb. now destruct (String.compare s1 s2). Qed.

Lemma string_ltb_false_leb (s1 s2 : string) :
  String.ltb s1 s2 = false -> String.leb s2 s1 = true.
Proof.
  unfold String.ltb, String.leb. rewrite (String.compare_antisym s1 s2).
  now destruct (String.compare s2 s1).
Qed.

Section Sorted.
Context {A : Type} (key : A -> string).

Lemma key_le_trans : Transitive (key_le key).
Proof. intros x y z. apply string_leb_trans. Qed.

Lemma insert_sorted_Permutation (x : A) (l : list A) :
  insert_sorted key x l ≡ₚ x :: l.
Proof.
  induction l as [|y l IH]; simpl; [reflexivity|].
  destruct (String.ltb (key y) (key x)); [|reflexivity].
  rewrite IH. apply perm_swap.
Qed.

Lemma sorted_Permutation (l : list A) : sorted key l ≡ₚ l.
Proof.
  induction l as [|x l IH]; simpl; [reflexivity|].
  now rewrite insert_sorted_Permutation, IH.
Qed.

Lemma insert_sorted_Sorted (x : A) (l : list A) :
  Sorted (key_le key) l -> Sorted (key_le key) (insert_sorted key x l).
Proof.
  induction 1 as [|y l Hl IH Hy]; simpl.
  - repeat constructor.
  - destruct (String.ltb (key y) (key x)) eqn:E.
    + constructor; [exact IH|].
      destruct l as [|z l]; simpl.
      * constructor. now apply string_ltb_leb.
      * inversion Hy; subst.
        destruct (String.ltb (key z) (key x)); constructor;
          [assumption|now apply string_ltb_leb].
    + constructor; [now constructor|].
      constructor. now apply string_ltb_false_leb.
Qed.

(** [sorted] returns its argument rearranged in non-decreasing key order. *)
Lemma sorted_Sorted (l : list A) : Sorted (key_le key) (sorted key l).
Proof.
  induction l as [|x l IH]; simpl; [constructor|].
  now apply insert_sorted_Sorted.
Qed.

(** When the elements have pairwise different keys, the sorted sequence
    does not depend on the order the elements come in. *)
Lemma sorted_order_independent (l1 l2 : list A) :
  l1 ≡ₚ l2 ->
  (forall x y, x ∈ l1 -> y ∈ l1 -> key x = key y -> x = y) ->
  sorted key l1 = sorted key l2.
Proof.
  intros Hperm Hinj.
  apply (@Sorted_unique_strong _ (key_le key) key_le_trans).
  - intros x y Hx Hy Hxy Hyx.
    apply Hinj.
    + now rewrite <- (sorted_Permutation l1).
    + now rewrite Hperm, <- (sorted_Permutation l2).
    + unfold key_le in *. pose proof (String.leb_antisym _ _ Hxy Hyx). assumption.
  - apply sorted_Sorted.
  - apply sorted_Sorted.
  - now rewrite !sorted_Permutation.
Qed.

End Sorted.

(** [_prepare_value] turns a set of integers into the list sorted by text
    form. *)
Lemma _prepare_value_set_of_ints `{PyRuntime} (ns : list Z) :
  _prepare_value (VSet (VInt <$> ns)) = Some (VList (sorted py_str (VInt <$> ns))).
Proof.
  assert (Hs : forall l d, Forall (fun v => exists n, v = VInt n) l ->
             mapM (_prepare_value_upto (S d)) l = Some l).
  { intros l d Hl. apply mapM_Some.
    induction Hl as [|v l [n ->] _ IH]; constructor; [reflexivity|exact IH]. }
  assert (Hints : Forall (fun v => exists n, v = VInt n)
                    (sorted py_str (VInt <$> ns))).
  { rewrite sorted_Permutation. apply Forall_fmap, Forall_true. eauto. }
  unfold _prepare_value.
  destruct (depth_of (VSet (VInt <$> ns))) as [|d] eqn:Ed; [discriminate Ed|].
  remember (S d) as d' eqn:Ed'. simpl. subst d'.
  rewrite (Hs _ d Hints). reflexivity.
Qed.

(** C2 stands for the YAML path, but [SetHandler.serialize] returns the
    elements in the set's iteration order: the set [{9, 10}], which
    iterates as 9, 10, serializes to [[9, 10]], while the sequence sorted by
    text form - the one [_prepare_value] writes - is [[10, 9]]; and the
    equal sets [{0, 8}] and [{8, 0}], which iterate differently, serialize
    to different sequences. *)
Theorem C2_set_handler_not_sorted `{PyRuntime} :
  SetHandler_serialize (VSet [VInt 9; VInt 10]) = Ok (VList [VInt 9; VInt 10]) /\
  sorted py_str [VInt 9; VInt 10] = [VInt 10; VInt 9] /\
  _prepare_value (VSet [VInt 9; VInt 10]) = Some (VList [VInt 10; VInt 9]) /\
  [VInt 0; VInt 8] ≡ₚ [VInt 8; VInt 0] /\
  SetHandler_serialize (VSet [VInt 0; VInt 8])
    <> SetHandler_serialize (VSet [VInt 8; VInt 0]).
Proof.
  split; [reflexivity|]. split; [reflexivity|]. split; [reflexivity|].
  split; [apply perm_swap|]. discriminate.
Qed.

(** ** Digits *)

Lemma digit_val_char (d : N) : (d < 10)%N -> digit_val (digit_char d) = d.
Proof.
  intros Hd. unfold digit_val, digit_char.
  rewrite N_ascii_embedding by lia. lia.
Qed.

Lemma is_digit_char (d : N) : (d < 10)%N -> is_digit (digit_char d) = true.
Proof.
  intros Hd. unfold is_digit, digit_char.
  rewrite N_ascii_embedding by lia.
  apply andb_true_iff. split; apply N.leb_le; lia.
Qed.

Lemma digits_value_snoc (l : text) (c : ascii) :
  digits_value (l ++ [c]) = (10 * digits_value l + digit_val c)%N.
Proof. unfold digits_value. now rewrite fold_left_app. Qed.

Lemma digits_value_zeros (k : nat) (l : text) :
  digits_value (repeat "0"%char k ++ l) = digits_value l.
Proof.
  unfold digits_value. rewrite fold_left_app. f_equal.
  induction k as [|k IH]; simpl; [reflexivity|exact IH].
Qed.

Lemma size_nat_bound (n : N) : (n < 2 ^ N.of_nat (N.size_nat n))%N.
Proof.
  destruct n as [|p]; simpl; [lia|].
  induction p as [p IH|p IH|]; simpl Pos.size_nat;
    rewrite ?Nat2N.inj_succ, ?N.pow_succ_r'; simpl; lia.
Qed.

Lemma digits_fuel_spec (fuel : nat) :
  forall n, (n < 2 ^ N.of_nat fuel)%N ->
  digits_value (digits_fuel (S fuel) n) = n /\
  Forall (fun c => is_digit c = true) (digits_fuel (S fuel) n) /\
  digits_fuel (S fuel) n <> [].
Proof.
  assert (Hmod : forall n, (n mod 10 < 10)%N) by (intros; apply N.mod_lt; lia).
  induction fuel as [|fuel IH]; intros n Hn.
  - simpl in Hn. assert (n = 0%N) as -> by lia. simpl.
    repeat split; [repeat constructor|discriminate].
  - change (digits_fuel (S (S fuel)) n)
      with ((if (n / 10 =? 0)%N then [] else digits_fuel (S fuel) (n / 10)%N)
            ++ [digit_char (n mod 10)%N]).
    destruct (n / 10 =? 0)%N eqn:E.
    + apply N.eqb_eq in E. simpl. unfold digits_value. simpl.
      rewrite digit_val_char by apply Hmod.
      repeat split.
      * pose proof (N.div_mod n 10). lia.
      * repeat constructor. apply is_digit_char, Hmod.
      * discriminate.
    + assert (Hdiv : (n / 10 < 2 ^ N.of_nat fuel)%N).
      { apply N.Div0.div_lt_upper_bound.
        rewrite Nat2N.inj_succ, N.pow_succ_r' in Hn. lia. }
      destruct (IH _ Hdiv) as (Hv & Hd & Hne).
      rewrite digits_value_snoc, Hv, digit_val_char by apply Hmod.
      repeat split.
      * pose proof (N.div_mod n 10). lia.
      * apply Forall_app. split; [exact Hd|].
        repeat constructor. apply is_digit_char, Hmod.
      * intros Happ. apply app_eq_nil in Happ as [_ ?]. discriminate.
Qed.

Lemma digits_of_N_value (n : N) : digits_value (digits_of_N n) = n.
Proof. apply digits_fuel_spec, size_nat_bound. Qed.

Lemma digits_of_N_digits (n : N) :
  Forall (fun c => is_digit c = true) (digits_of_N n).
Proof. apply digits_fuel_spec, size_nat_bound. Qed.

Lemma digits_of_N_nonempty (n : N) : digits_of_N n <> [].
Proof. apply digits_fuel_spec, size_nat_bound. Qed.

Lemma span_digits_app (ds rest : text) :
  Forall (fun c => is_digit c = true) ds -> not_digit_first rest ->
  span_digits (ds ++ rest) = (ds, rest).
Proof.
  induction 1 as [|c ds Hc _ IH]; intros Hrest; simpl.
  - destruct rest as [|c r]; [reflexivity|]. simpl in *. now rewrite Hrest.
  - now rewrite Hc, IH.
Qed.

Lemma parse_sign_digit (l : text) :
  l <> [] -> Forall (fun c => is_digit c = true) l -> parse_sign l = (false, l).
Proof.
  destruct l as [|c l]; [congruence|]. intros _ Hl.
  apply Forall_cons_1 in Hl as [Hc _]. unfold parse_sign.
  destruct c as [[] [] [] [] [] [] [] []];
    vm_compute in Hc; try discriminate Hc; reflexivity.
Qed.

(** ["%+d"] and [str] of an integer read back. *)
Lemma parse_int_to_text (plus : bool) (z : Z) :
  parse_int (int_to_text plus z) = Some z.
Proof.
  unfold parse_int, int_to_text.
  pose proof (digits_of_N_digits (Z.abs_N z)) as Hd.
  pose proof (digits_of_N_nonempty (Z.abs_N z)) as Hne.
  pose proof (digits_of_N_value (Z.abs_N z)) as Hv.
  assert (Hspan : span_digits (digits_of_N (Z.abs_N z))
                  = (digits_of_N (Z.abs_N z), [])).
  { rewrite <- (app_nil_r (digits_of_N _)) at 1.
    now apply span_digits_app. }
  destruct (z <? 0)%Z eqn:Ez.
  - simpl. rewrite Hspan.
    destruct (digits_of_N (Z.abs_N z)); [congruence|].
    rewrite Hv. f_equal. apply Z.ltb_lt in Ez. lia.
  - apply Z.ltb_ge in Ez. destruct plus; simpl.
    + rewrite Hspan. destruct (digits_of_N (Z.abs_N z)); [congruence|].
      rewrite Hv. f_equal. lia.
    + rewrite parse_sign_digit by assumption. rewrite Hspan.
      destruct (digits_of_N (Z.abs_N z)); [congruence|].
      rewrite Hv. f_equal. lia.
Qed.

(** ** Decimals and their text form *)

Lemma parse_sign_first_digit (c : ascii) (l : text) :
  is_digit c = true -> parse_sign (c :: l) = (false, c :: l).
Proof.
  intros Hc. unfold parse_sign.
  destruct c as [[] [] [] [] [] [] [] []];
    vm_compute in Hc; try discriminate Hc; reflexivity.
Qed.

Lemma exponent_text_not_digit (ld dp : Z) : not_digit_first (exponent_text ld dp).
Proof. unfold exponent_text. destruct (ld =? dp)%Z; reflexivity. Qed.

Lemma exponent_text_not_dot (ld dp : Z) :
  match exponent_text ld dp with
  | "."%char :: _ => False
  | _ => True
  end.
Proof. unfold exponent_text. destruct (ld =? dp)%Z; exact I. Qed.

Lemma parse_exponent_text (ld dp : Z) :
  parse_exponent (exponent_text ld dp) = Some (ld - dp)%Z.
Proof.
  unfold exponent_text. destruct (ld =? dp)%Z eqn:E; simpl.
  - apply Z.eqb_eq in E. f_equal. lia.
  - apply parse_int_to_text.
Qed.

(** Reading [sign intpart . fracpart exponent]. *)
Lemma Decimal_of_text_with_point (neg : bool) (c : ascii) (ip fp : text)
    (ld dp : Z) :
  Forall (fun c => is_digit c = true) (c :: ip) ->
  Forall (fun c => is_digit c = true) fp ->
  Decimal_of_text ((if neg then ["-"%char] else [])
                   ++ (c :: ip) ++ ("."%char :: fp) ++ exponent_text ld dp)
  = Ok {| dsign := neg;
          dcoeff := digits_value ((c :: ip) ++ fp);
          dexp := (ld - dp - Z.of_nat (length fp))%Z |}.
Proof.
  intros Hip Hfp. unfold Decimal_of_text.
  assert (Hsign : parse_sign ((if neg then ["-"%char] else [])
                    ++ (c :: ip) ++ ("."%char :: fp) ++ exponent_text ld dp)
                  = (neg, (c :: ip) ++ ("."%char :: fp) ++ exponent_text ld dp)).
  { destruct neg; [reflexivity|]. simpl.
    apply parse_sign_first_digit. now apply Forall_cons_1 in Hip as [? _]. }
  rewrite Hsign.
  rewrite (span_digits_app (c :: ip)) by (auto; reflexivity).
  change (("."%char :: fp) ++ exponent_text ld dp)
    with ("."%char :: (fp ++ exponent_text ld dp)).
  cbv iota beta.
  rewrite (span_digits_app fp) by (auto using exponent_text_not_digit).
  simpl. rewrite parse_exponent_text. reflexivity.
Qed.

(** Reading [sign intpart exponent]. *)
Lemma Decimal_of_text_without_point (neg : bool) (c : ascii) (ip : text)
    (ld dp : Z) :
  Forall (fun c => is_digit c = true) (c :: ip) ->
  Decimal_of_text ((if neg then ["-"%char] else [])
                   ++ (c :: ip) ++ [] ++ exponent_text ld dp)
  = Ok {| dsign := neg;
          dcoeff := digits_value (c :: ip);
          dexp := (ld - dp)%Z |}.
Proof.
  intros Hip. unfold Decimal_of_text.
  assert (Hsign : parse_sign ((if neg then ["-"%char] else [])
                    ++ (c :: ip) ++ [] ++ exponent_text ld dp)
                  = (neg, (c :: ip) ++ exponent_text ld dp)).
  { destruct neg; [reflexivity|]. simpl.
    apply parse_sign_first_digit. now apply Forall_cons_1 in Hip as [? _]. }
  rewrite Hsign.
  rewrite (span_digits_app (c :: ip)) by (auto using exponent_text_not_digit).
  pose proof (exponent_text_not_dot ld dp) as Hdot.
  pose proof (parse_exponent_text ld dp) as Hexp.
  destruct (exponent_text ld dp) as [|e rest] eqn:Ee.
  - simpl. injection Hexp as <-. rewrite app_nil_r. reflexivity.
  - assert (Hfrac : match e :: rest with
                    | "."%char :: r' => span_digits r'
                    | _ => ([], e :: rest)
                    end = ([], e :: rest)).
    { destruct e as [[] [] [] [] [] [] [] []]; try reflexivity. destruct Hdot. }
    rewrite Hfrac. rewrite app_nil_r. simpl app.
    rewrite Hexp. simpl. now rewrite Z.sub_0_r.
Qed.

(** A decimal is read back from its text form exactly: sign, coefficient
    and exponent. *)
Lemma Decimal_of_text_to_text (d : decimal) :
  Decimal_of_text (Decimal_to_text d) = Ok d.
Proof.
  destruct d as [neg coeff e]. unfold Decimal_to_text. simpl.
  pose proof (digits_of_N_digits coeff) as Hd.
  pose proof (digits_of_N_nonempty coeff) as Hne.
  pose proof (digits_of_N_value coeff) as Hv.
  set (D := digits_of_N coeff) in *.
  set (len := Z.of_nat (length D)).
  assert (Hlen : (1 <= len)%Z).
  { subst len. destruct D; [congruence|]. simpl. lia. }
  set (ld := (e + len)%Z).
  set (dp := if (e <=? 0)%Z && (-6 <? ld)%Z then ld else 1%Z).
  assert (Hdp : dp = ld /\ (e <= 0)%Z \/ dp = 1%Z /\ ((0 < e)%Z \/ (ld <= -6)%Z)).
  { subst dp. destruct (e <=? 0)%Z eqn:E1; simpl.
    - destruct (-6 <? ld)%Z eqn:E2; [left|right]; split; auto; lia.
    - right. split; auto. lia. }
  destruct (dp <=? 0)%Z eqn:Ea.
  - (* 0.000ddd *)
    apply Z.leb_le in Ea.
    rewrite (Decimal_of_text_with_point neg "0" [] _ ld dp).
    + f_equal. simpl app. change ("0"%char :: ?l) with (repeat "0"%char 1 ++ l).
      rewrite !digits_value_zeros, Hv, length_app, repeat_length.
      f_equal. fold len. lia.
    + repeat constructor.
    + apply Forall_app. split; [|exact Hd].
      induction (Z.to_nat (- dp)); simpl; constructor; auto.
  - apply Z.leb_gt in Ea. destruct (len <=? dp)%Z eqn:Eb.
    + (* ddd, all digits before the point *)
      apply Z.leb_le in Eb.
      assert (dp = len) as Hdplen by lia.
      replace (Z.to_nat (dp - len)) with 0%nat by lia.
      simpl repeat. rewrite app_nil_r.
      destruct D as [|c D'] eqn:ED; [congruence|].
      rewrite (Decimal_of_text_without_point neg c D' ld dp Hd).
      rewrite Hv. f_equal. f_equal. lia.
    + (* dd.ddd *)
      apply Z.leb_gt in Eb.
      assert (Htake : take (Z.to_nat dp) D <> []).
      { intros Ht. apply (f_equal length) in Ht.
        rewrite length_take in Ht. simpl in Ht. subst len. lia. }
      destruct (take (Z.to_nat dp) D) as [|c ip] eqn:ET; [congruence|].
      rewrite (Decimal_of_text_with_point neg c ip (drop (Z.to_nat dp) D) ld dp).
      * rewrite <- ET, take_drop, Hv, length_drop. f_equal. f_equal.
        subst len. lia.
      * rewrite <- ET. now apply Forall_take.
      * now apply Forall_drop.
Qed.

Lemma Decimal_of_str_to_str (d : decimal) :
  Decimal_of_str (Decimal_to_str d) = Ok d.
Proof.
  unfold Decimal_of_str, Decimal_to_str.
  rewrite list_ascii_of_string_of_list_ascii. apply Decimal_of_text_to_text.
Qed.

(** ** ISO 8601 text of date-times and times *)

Lemma fixed_digits_spec (k : nat) :
  forall n acc,
  length (fixed_digits k n) = k /\
  Forall (fun c => is_digit c = true) (fixed_digits k n) /\
  fold_left (fun acc c => 10 * acc + digit_val c)%N (fixed_digits k n) acc
  = (acc * 10 ^ N.of_nat k + n mod 10 ^ N.of_nat k)%N.
Proof.
  assert (Hmod : forall n, (n mod 10 < 10)%N) by (intros; apply N.mod_lt; lia).
  induction k as [|k IH]; intros n acc.
  - simpl. repeat split; [constructor|]. rewrite N.mod_1_r. lia.
  - simpl fixed_digits. destruct (IH (n / 10)%N acc) as (Hl & Hd & Hv).
    repeat split.
    + rewrite length_app, Hl. simpl. lia.
    + apply Forall_app. split; [exact Hd|].
      repeat constructor. apply is_digit_char, Hmod.
    + rewrite fold_left_app, Hv. simpl.
      rewrite digit_val_char by apply Hmod.
      rewrite Nat2N.inj_succ, N.pow_succ_r', N.Div0.mod_mul_r. lia.
Qed.

Lemma read_digits_app (ds : text) :
  forall acc rest,
  Forall (fun c => is_digit c = true) ds ->
  read_digits (length ds) acc (ds ++ rest)
  = Some (fold_left (fun acc c => 10 * acc + digit_val c)%N ds acc, rest).
Proof.
  induction ds as [|c ds IH]; intros acc rest Hd; simpl; [reflexivity|].
  apply Forall_cons_1 in Hd as [Hc Hd]. rewrite Hc. now apply IH.
Qed.

(** A field written on [k] digits is read back when it fits. *)
Lemma read_fixed_digits (k : nat) (n : Z) (rest : text) :
  (0 <= n < 10 ^ Z.of_nat k)%Z ->
  read_digits k 0 (fixed_digits k (Z.to_N n) ++ rest) = Some (Z.to_N n, rest).
Proof.
  intros Hn. destruct (fixed_digits_spec k (Z.to_N n) 0%N) as (Hl & Hd & Hv).
  rewrite <- Hl at 1. rewrite read_digits_app by exact Hd. rewrite Hv.
  f_equal. f_equal. rewrite N.mul_0_l, N.add_0_l. apply N.mod_small.
  apply N2Z.inj_lt. rewrite Z2N.id by lia.
  rewrite N2Z.inj_pow, nat_N_Z. simpl. lia.
Qed.

Lemma valid_time_bounds (h m s us : Z) :
  valid_time h m s us = true ->
  (0 <= h < 24 /\ 0 <= m < 60 /\ 0 <= s < 60 /\ 0 <= us < 1000000)%Z.
Proof. unfold valid_time. intros Hv. repeat (apply andb_prop in Hv as [Hv ?]). lia. Qed.

Lemma expect_cons (c : ascii) (l : text) : expect c (c :: l) = Some l.
Proof. simpl. now rewrite Ascii.eqb_refl. Qed.

Lemma option_bind_Some {A B} (x : A) (f : A -> option B) : Some x ≫= f = f x.
Proof. reflexivity. Qed.

Ltac read_field :=
  rewrite read_fixed_digits by (simpl; lia);
  rewrite option_bind_Some; cbv beta iota.

Ltac read_char :=
  rewrite expect_cons, option_bind_Some; cbv beta.

Lemma time_of_text_to_text (h m s us : Z) :
  valid_time h m s us = true ->
  time_of_text (time_to_text h m s us) = Some (h, m, s, us).
Proof.
  intros Hv. apply valid_time_bounds in Hv as (Hh & Hm & Hs & Hus).
  unfold time_of_text, time_to_text.
  read_field. read_char. read_field. read_char. read_field.
  rewrite !Z2N.id by lia.
  destruct (us =? 0)%Z eqn:E.
  - apply Z.eqb_eq in E. now subst.
  - read_char. rewrite <- (app_nil_r (fixed_digits 6 _)).
    read_field. rewrite Z2N.id by lia. reflexivity.
Qed.

Lemma time_fromisoformat_isoformat (t : time_of_day) :
  valid_time_of_day t = true -> time_fromisoformat (time_isoformat t) = Ok t.
Proof.
  intros Hv. unfold time_fromisoformat, time_isoformat.
  rewrite list_ascii_of_string_of_list_ascii.
  rewrite time_of_text_to_text by exact Hv.
  destruct t as [h m s us]. simpl. now rewrite Hv.
Qed.

Lemma days_in_month_le (y m : Z) : (days_in_month y m <= 31)%Z.
Proof. unfold days_in_month. repeat case_match; lia. Qed.

Lemma datetime_fromisoformat_isoformat (dt : date_time) :
  valid_datetime dt = true ->
  datetime_fromisoformat (datetime_isoformat dt) = Ok dt.
Proof.
  intros Hv. unfold datetime_fromisoformat, datetime_isoformat.
  rewrite list_ascii_of_string_of_list_ascii.
  pose proof Hv as Hv'. unfold valid_datetime in Hv'.
  apply andb_prop in Hv' as [Hdate Htime].
  repeat (apply andb_prop in Hdate as [Hdate ?]).
  pose proof (days_in_month_le (year dt) (month dt)).
  read_field. read_char. read_field. read_char. read_field. read_char.
  rewrite time_of_text_to_text by exact Htime.
  rewrite option_bind_Some. cbv beta iota.
  rewrite !Z2N.id by lia.
  destruct dt. simpl in *. now rewrite Hv.
Qed.

(** ** Equality of values *)

Lemma pyobj_nested_ind (P : pyobj -> Prop) :
  P VNone -> P VUndefined ->
  (forall b, P (VBool b)) -> (forall n, P (VInt n)) ->
  (forall f, P (VFloat f)) -> (forall s, P (VStr s)) ->
  (forall d, P (VDecimal d)) ->
  (forall c m v, P v -> P (VEnum c m v)) ->
  (forall dt, P (VDatetime dt)) -> (forall t, P (VTime t)) ->
  (forall td, P (VTimedelta td)) ->
  (forall l, Forall P l -> P (VList l)) ->
  (forall l, Forall P l -> P (VTuple l)) ->
  (forall l, Forall P l -> P (VSet l)) ->
  (forall kv, Forall (fun e => P (fst e) /\ P (snd e)) kv -> P (VDict kv)) ->
  (forall c fs, Forall (fun e => P (snd e)) fs -> P (VModel c fs)) ->
  forall v, P v.
Proof.
  intros HNone HUndef HBool HInt HFloat HStr HDec HEnum HDt HT HTd
         HList HTuple HSet HDict HModel.
  fix IH 1. intros v.
  assert (Hl : forall l : list pyobj, Forall P l).
  { intros l. induction l as [|x l IHl]; constructor; [apply IH|exact IHl]. }
  destruct v as [| |b|n|f|s|d|c m v|dt|t|td|l|l|l|kv|c fs].
  - exact HNone.
  - exact HUndef.
  - apply HBool.
  - apply HInt.
  - apply HFloat.
  - apply HStr.
  - apply HDec.
  - apply HEnum, IH.
  - apply HDt.
  - apply HT.
  - apply HTd.
  - apply HList, Hl.
  - apply HTuple, Hl.
  - apply HSet, Hl.
  - apply HDict. induction kv as [|[k x] kv IHkv]; constructor.
    + split; apply IH.
    + exact IHkv.
  - apply HModel. induction fs as [|[k x] fs IHfs]; constructor.
    + apply IH.
    + exact IHfs.
Qed.

Lemma value_eqb_refl (v : pyobj) : value_eqb v v = true.
Proof.
  induction v as [| |b|n|f|s|d|c m v IHv|dt|t|td|l IHl|l IHl|l IHl|kv IHkv|c fs IHfs]
    using pyobj_nested_ind; simpl;
    rewrite ?Z.eqb_refl, ?N.eqb_refl, ?Pos.eqb_refl, ?String.eqb_refl,
            ?Bool.eqb_reflx; try reflexivity.
  - destruct f as [[]|[]| |[] m e]; simpl;
      rewrite ?Pos.eqb_refl, ?Z.eqb_refl; reflexivity.
  - exact IHv.
  - induction IHl as [|x l Hx _ IH]; [reflexivity|]. now rewrite Hx.
  - induction IHl as [|x l Hx _ IH]; [reflexivity|]. now rewrite Hx.
  - induction IHl as [|x l Hx _ IH]; [reflexivity|]. now rewrite Hx.
  - induction IHkv as [|[k x] kv [Hk Hx] _ IH]; [reflexivity|].
    simpl in *. now rewrite Hk, Hx.
  - simpl. induction IHfs as [|[k x] fs Hx _ IH]; [reflexivity|].
    simpl in *. now rewrite String.eqb_refl, Hx.
Qed.

Lemma dedup_values_from (l : list pyobj) :
  forall acc,
  forallb (fun y => negb (value_in y acc)) l = true ->
  distinct_values l = true ->
  fold_left (fun acc x => if value_in x acc then acc else acc ++ [x]) l acc
  = acc ++ l.
Proof.
  induction l as [|x l IH]; intros acc Hacc Hd; simpl.
  - now rewrite app_nil_r.
  - simpl in Hacc, Hd.
    apply andb_prop in Hacc as [Hx Hacc]. apply andb_prop in Hd as [Hxl Hd].
    apply negb_true_iff in Hx. rewrite Hx.
    rewrite IH, <- app_assoc; [reflexivity| |exact Hd].
    apply forallb_forall. intros y Hy.
    rewrite forallb_forall in Hacc, Hxl.
    specialize (Hacc y Hy). specialize (Hxl y Hy).
    unfold value_in in *. rewrite existsb_app. simpl.
    apply negb_true_iff in Hacc, Hxl. now rewrite Hacc, Hxl.
Qed.

(** Building a set from elements that are already pairwise different
    keeps them all. *)
Lemma dedup_values_distinct (l : list pyobj) :
  distinct_values l = true -> dedup_values l = l.
Proof.
  intros Hd. unfold dedup_values. rewrite dedup_values_from; auto.
  apply forallb_forall. reflexivity.
Qed.

Lemma enum_call_canonical (e : enum_def) (member : string) (payload : pyobj) :
  canonical_member e member payload ->
  enum_call e payload = Ok (VEnum (enum_name e) member payload).
Proof.
  intros (Hin & Hnot & Huniq). unfold enum_call. rewrite Hnot.
  destruct (find _ (enum_members e)) as [[m v]|] eqn:Ef.
  - apply find_some in Ef as [Hm Hv]. simpl in Hv.
    apply list_elem_of_In in Hm.
    now injection (Huniq m v Hm Hv) as -> ->.
  - exfalso. apply list_elem_of_In in Hin.
    pose proof (find_none _ _ Ef _ Hin) as Hf. simpl in Hf.
    now rewrite value_eqb_refl in Hf.
Qed.

(** ** Durations and binary floats *)

Section WholeSeconds.
Local Open Scope Z_scope.

Lemma digits2_bounds (p : positive) :
  2 ^ (Zpos (digits2_pos p) - 1) <= Zpos p < 2 ^ Zpos (digits2_pos p).
Proof.
  induction p as [p IH|p IH|]; simpl digits2_pos.
  - rewrite Pos2Z.inj_succ, (Pos2Z.inj_xI p).
    replace (Z.succ (Zpos (digits2_pos p)) - 1)
      with (Z.succ (Zpos (digits2_pos p) - 1)) by lia.
    rewrite !Z.pow_succ_r by lia. lia.
  - rewrite Pos2Z.inj_succ, (Pos2Z.inj_xO p).
    replace (Z.succ (Zpos (digits2_pos p)) - 1)
      with (Z.succ (Zpos (digits2_pos p) - 1)) by lia.
    rewrite !Z.pow_succ_r by lia. lia.
  - split; [apply Z.leb_le|apply Z.ltb_lt]; reflexivity.
Qed.

Lemma digits2_unique (q : positive) (d : Z) :
  2 ^ (d - 1) <= Zpos q < 2 ^ d -> Zpos (digits2_pos q) = d.
Proof.
  intros [Hlo Hhi]. destruct (digits2_bounds q) as [Hlo' Hhi'].
  set (d' := Zpos (digits2_pos q)) in *.
  assert (0 < d') by (subst d'; lia).
  assert (0 < d).
  { destruct (Z_lt_le_dec 0 d) as [|Hd]; [assumption|].
    assert (2 ^ d <= 2 ^ 0) by (apply Z.pow_le_mono_r; lia).
    change (2 ^ 0) with 1 in *. lia. }
  destruct (Z.lt_trichotomy d d') as [Hlt|[Heq|Hgt]]; [|exact (eq_sym Heq)|].
  - assert (2 ^ d <= 2 ^ (d' - 1)) by (apply Z.pow_le_mono_r; lia). lia.
  - assert (2 ^ d' <= 2 ^ (d - 1)) by (apply Z.pow_le_mono_r; lia). lia.
Qed.

Lemma digits2_mul_pow2 (p q : positive) (k : Z) :
  0 <= k -> Zpos q = Zpos p * 2 ^ k ->
  Zpos (digits2_pos q) = Zpos (digits2_pos p) + k.
Proof.
  intros Hk Hq. apply digits2_unique. rewrite Hq.
  destruct (digits2_bounds p) as [Hlo Hhi].
  replace (Zpos (digits2_pos p) + k - 1) with (Zpos (digits2_pos p) - 1 + k) by lia.
  rewrite !Z.pow_add_r by lia.
  assert (0 < 2 ^ k) by (apply Z.pow_pos_nonneg; lia).
  split; [apply Z.mul_le_mono_nonneg_r|apply Z.mul_lt_mono_pos_r]; lia.
Qed.

(** The digits of a number of seconds times [10**6]. *)
Lemma digits2_micro (p : positive) :
  Zpos (digits2_pos p) + 19 <= Zpos (digits2_pos (p * 1000000))
  <= Zpos (digits2_pos p) + 20.
Proof.
  destruct (digits2_bounds p) as [Hlo Hhi].
  destruct (digits2_bounds (p * 1000000)) as [Hlo' Hhi'].
  rewrite Pos2Z.inj_mul in Hlo', Hhi'.
  set (d := Zpos (digits2_pos p)) in *.
  set (d' := Zpos (digits2_pos (p * 1000000))) in *.
  assert (0 < d) by (subst d; lia). assert (0 < d') by (subst d'; lia).
  split.
  - destruct (Z_lt_le_dec d' (d + 19)) as [Hlt|]; [exfalso|assumption].
    assert (2 ^ d' <= 2 ^ (d + 18)) by (apply Z.pow_le_mono_r; lia).
    replace (d + 18) with (d - 1 + 19) in * by lia.
    rewrite Z.pow_add_r in * by lia.
    change (2 ^ 19) with 524288 in *. lia.
  - destruct (Z_lt_le_dec (d + 20) d') as [Hlt|]; [exfalso|assumption].
    assert (2 ^ (d + 20) <= 2 ^ (d' - 1)) by (apply Z.pow_le_mono_r; lia).
    rewrite Z.pow_add_r in * by lia.
    change (2 ^ 20) with 1048576 in *. lia.
Qed.

Lemma fexp_eq (e : Z) : fexp prec emax e = Z.max (e - 53) (-1074).
Proof. reflexivity. Qed.

Lemma div_eucl_multiple (a b : Z) : 0 < b -> Z.div_eucl (a * b) b = (a, 0).
Proof.
  intros Hb. pose proof (Z_div_mod (a * b) b ltac:(lia)) as Hdm.
  destruct (Z.div_eucl (a * b) b) as [q r]. destruct Hdm as [Heq Hr].
  assert (q = a) by nia. subst q. f_equal. lia.
Qed.

(** Dividing a whole number of seconds, in microseconds, by [10**6]: the
    quotient is exact. *)
Lemma SFdiv_core_whole (p : positive) :
  Zpos (digits2_pos p) <= 47 ->
  let d1 := Zpos (digits2_pos (p * 1000000)) in
  SFdiv_core_binary prec emax (Zpos (p * 1000000)) 0 1000000 0
  = (Zpos p * 2 ^ (73 - d1), d1 - 73, loc_Exact).
Proof.
  intros Hp d1. pose proof (digits2_micro p) as Hd1. fold d1 in Hd1.
  unfold SFdiv_core_binary. cbv zeta.
  change (Zdigits2 (Zpos (p * 1000000))) with d1.
  change (Zdigits2 1000000) with 20.
  rewrite fexp_eq.
  replace (Z.min (Z.max (d1 + 0 - (20 + 0) - 53) (-1074)) (0 - 0))
    with (d1 - 73) by lia.
  replace (0 - 0 - (d1 - 73)) with (73 - d1) by lia.
  destruct (73 - d1) as [|s|s] eqn:Es; try lia.
  rewrite Z.shiftl_mul_pow2 by lia.
  rewrite Pos2Z.inj_mul.
  replace (Zpos p * 1000000 * 2 ^ Zpos s) with (Zpos p * 2 ^ Zpos s * 1000000) by lia.
  rewrite div_eucl_multiple by lia. reflexivity.
Qed.

Lemma pos_mul_pow2 (p : positive) (k : Z) :
  0 <= k -> exists q, Zpos q = Zpos p * 2 ^ k.
Proof.
  intros Hk. assert (0 < Zpos p * 2 ^ k).
  { apply Z.mul_pos_pos; [lia|]. apply Z.pow_pos_nonneg; lia. }
  destruct (Zpos p * 2 ^ k) as [|q|q]; try lia. now exists q.
Qed.

(** Rounding an exact quotient that fits the precision keeps it. *)
Lemma binary_round_aux_whole (sx : bool) (p : positive) (s : Z) :
  let dS := Zpos (digits2_pos p) in
  dS <= 53 -> 1 <= s -> dS - 53 + s = 0 \/ dS - 53 + s = 1 ->
  exists q, Zpos q = Zpos p * 2 ^ (53 - dS) /\
    binary_round_aux prec emax sx (Zpos p * 2 ^ s) (- s) loc_Exact
    = S754_finite sx q (dS - 53).
Proof.
  intros dS HdS Hs Hshift.
  destruct (pos_mul_pow2 p s ltac:(lia)) as [qM HqM].
  destruct (pos_mul_pow2 p (53 - dS) ltac:(lia)) as [q Hq].
  exists q. split; [exact Hq|].
  pose proof (digits2_mul_pow2 p qM s ltac:(lia) HqM) as HdM. fold dS in HdM.
  pose proof (digits2_mul_pow2 p q (53 - dS) ltac:(lia) Hq) as Hdq. fold dS in Hdq.
  rewrite <- HqM. unfold binary_round_aux, shr_fexp.
  simpl Zdigits2. rewrite HdM, fexp_eq.
  replace (Z.max (dS + s + - s - 53) (-1074) - - s) with (dS - 53 + s) by lia.
  destruct Hshift as [H0|H1].
  - rewrite H0. simpl shr. cbv iota beta. simpl shr_m. simpl loc_of_shr_record.
    simpl round_nearest_even. simpl Zdigits2. rewrite HdM, fexp_eq.
    replace (Z.max (dS + s + - s - 53) (-1074) - - s) with 0 by lia.
    simpl shr. cbv iota beta. simpl shr_m.
    assert (qM = q) as ->
      by (apply Pos2Z.inj; rewrite HqM, Hq; replace s with (53 - dS) by lia;
          reflexivity).
    replace (- s) with (dS - 53) by lia.
    assert (Hle : (dS - 53 <=? emax - prec) = true) by (apply Z.leb_le; unfold emax, prec; lia).
    now rewrite Hle.
  - rewrite H1.
    assert (HqM2 : Zpos qM = 2 * Zpos q).
    { rewrite HqM, Hq. replace s with (Z.succ (53 - dS)) by lia.
      rewrite Z.pow_succ_r by lia. lia. }
    destruct qM as [qM'|qM'|]; try lia.
    assert (qM' = q) as -> by lia.
    simpl shr. cbv iota beta. simpl shr_m. simpl loc_of_shr_record.
    simpl round_nearest_even. simpl Zdigits2. rewrite Hdq, fexp_eq.
    replace (Z.max (dS + (53 - dS) + (- s + 1) - 53) (-1074) - (- s + 1)) with 0 by lia.
    simpl shr. cbv iota beta. simpl shr_m.
    replace (- s + 1) with (dS - 53) by lia.
    assert (Hle : (dS - 53 <=? emax - prec) = true) by (apply Z.leb_le; unfold emax, prec; lia).
    now rewrite Hle.
Qed.

Lemma digits2_le_47 (p : positive) :
  Zpos p * 1000000 <= max_timedelta_us -> Zpos (digits2_pos p) <= 47.
Proof.
  intros Hp. unfold max_timedelta_us in Hp.
  destruct (digits2_bounds p) as [Hlo _].
  destruct (Z_lt_le_dec 47 (Zpos (digits2_pos p))) as [Hgt|]; [exfalso|assumption].
  assert (2 ^ 47 <= 2 ^ (Zpos (digits2_pos p) - 1)) by (apply Z.pow_le_mono_r; lia).
  change (2 ^ 47) with 140737488355328 in *. lia.
Qed.

(** The float of a whole, non-zero number of seconds. *)
Lemma float_of_whole_seconds (neg : bool) (p : positive) :
  Zpos (digits2_pos p) <= 47 ->
  exists q, Zpos q = Zpos p * 2 ^ (53 - Zpos (digits2_pos p)) /\
    SFdiv prec emax (S754_finite neg (p * 1000000) 0) (S754_finite false 1000000 0)
    = S754_finite neg q (Zpos (digits2_pos p) - 53).
Proof.
  intros Hp. pose proof (digits2_micro p) as Hd1.
  set (d1 := Zpos (digits2_pos (p * 1000000))) in *.
  destruct (binary_round_aux_whole neg p (73 - d1)) as (q & Hq & Hround); try lia.
  exists q. split; [exact Hq|].
  unfold SFdiv. rewrite (SFdiv_core_whole p Hp). fold d1.
  replace (d1 - 73) with (- (73 - d1)) by lia.
  rewrite xorb_false_r. exact Hround.
Qed.

(** Reading a float that holds a whole number of seconds. *)
Lemma timedelta_of_whole_float (neg : bool) (p q : positive) (k : Z) :
  0 < k -> Zpos q = Zpos p * 2 ^ k ->
  let us := (if neg then - Zpos p else Zpos p) * 1000000 in
  min_timedelta_us <= us <= max_timedelta_us ->
  timedelta_of_seconds (S754_finite neg q (- k)) = Ok (Timedelta us).
Proof.
  intros Hk Hq us Hrange. unfold timedelta_of_seconds, float_trunc, float_frac.
  assert (Hneg : (0 <=? - k) = false) by (apply Z.leb_gt; lia).
  rewrite Hneg, Z.opp_involutive.
  assert (Hpow : 0 < 2 ^ k) by (apply Z.pow_pos_nonneg; lia).
  assert (Hshr : Z.shiftr (Zpos q) k = Zpos p).
  { rewrite Z.shiftr_div_pow2, Hq by lia. apply Z.div_mul. lia. }
  assert (Hland : Z.land (Zpos q) (Z.ones k) = 0).
  { rewrite Z.land_ones, Hq by lia. apply Z.mod_mul. lia. }
  rewrite Hshr, Hland.
  assert (Hzero : cond_Zopp neg 0 = 0) by (destruct neg; reflexivity).
  rewrite Hzero. simpl binary_normalize.
  change (SFmul prec emax (S754_zero neg) (float_of_Z 1000000))
    with (S754_zero (xorb neg false)).
  simpl. fold us. rewrite Z.add_0_r.
  destruct Hrange as [Hlo Hhi].
  apply Z.leb_le in Hlo, Hhi. rewrite Hlo, Hhi. reflexivity.
Qed.

(** A duration of a whole number of seconds is read back exactly from the
    float of its total seconds. *)
Lemma timedelta_whole_seconds (seconds : Z) :
  min_timedelta_us <= seconds * 1000000 <= max_timedelta_us ->
  timedelta_of_seconds (total_seconds (Timedelta (seconds * 1000000)))
  = Ok (Timedelta (seconds * 1000000)).
Proof.
  intros Hrange. unfold total_seconds. simpl total_us.
  destruct seconds as [|p|p].
  - reflexivity.
  - assert (Hp : Zpos (digits2_pos p) <= 47) by (apply digits2_le_47; lia).
    change (Zpos p * 1000000) with (Zpos (p * 1000000)) in *.
    unfold float_of_ratio; cbv iota.
    destruct (float_of_whole_seconds false p Hp) as (q & Hq & ->).
    replace (Zpos (digits2_pos p) - 53) with (- (53 - Zpos (digits2_pos p))) by lia.
    rewrite (timedelta_of_whole_float false p q (53 - Zpos (digits2_pos p))
               ltac:(lia) Hq); [reflexivity|].
    simpl. change (Zpos p * 1000000) with (Zpos (p * 1000000)). exact Hrange.
  - assert (Hp : Zpos (digits2_pos p) <= 47).
    { apply digits2_le_47. unfold min_timedelta_us, max_timedelta_us in *. lia. }
    change (Zneg p * 1000000) with (Zneg (p * 1000000)) in *.
    unfold float_of_ratio; cbv iota.
    destruct (float_of_whole_seconds true p Hp) as (q & Hq & ->).
    replace (Zpos (digits2_pos p) - 53) with (- (53 - Zpos (digits2_pos p))) by lia.
    rewrite (timedelta_of_whole_float true p q (53 - Zpos (digits2_pos p))
               ltac:(lia) Hq); [reflexivity|].
    simpl. change (Zneg p * 1000000) with (Zneg (p * 1000000)). exact Hrange.
Qed.

(** *** Durations to the microsecond: rounding to nearest *)

Lemma shr_1_nonneg (m : Z) (r s : bool) :
  0 <= m ->
  shr_1 {| shr_m := m; shr_r := r; shr_s := s |}
  = {| shr_m := m / 2; shr_r := Z.odd m; shr_s := r || s |}.
Proof.
  intros Hm. rewrite <- Z.div2_div.
  destruct m as [|[p|p|]|]; try lia; reflexivity.
Qed.

Lemma locates_shr_1 (mrs : shr_record) (A B : Z) :
  0 <= A -> 0 < B -> locates mrs A B -> locates (shr_1 mrs) A (2 * B).
Proof.
  intros HA HB (Hm & Hr & Hs). destruct mrs as [m r s]. simpl in Hm, Hr, Hs.
  assert (Hm0 : 0 <= m) by (subst m; apply Z.div_pos; lia).
  rewrite (shr_1_nonneg m r s Hm0). unfold locates. simpl.
  pose proof (Z.mod_pos_bound A B HB) as Hrho.
  assert (Hdiv : A / (2 * B) = m / 2).
  { subst m. rewrite (Z.mul_comm 2 B), Z.div_div by lia. reflexivity. }
  assert (Hmod : A mod (2 * B) = A mod B + B * (m mod 2)).
  { subst m. rewrite (Z.mul_comm 2 B). apply Z.rem_mul_r; lia. }
  rewrite Hdiv, Hmod. split; [reflexivity|].
  rewrite (Zmod_odd m). subst r s.
  set (rho := A mod B) in *.
  destruct (Z.odd m).
  - replace (rho + B * 1) with (rho + B) by lia. split.
    + symmetry. apply Z.leb_le. lia.
    + destruct (Z.leb_spec B (2 * rho)), (Z.eqb_spec rho 0),
        (Z.eqb_spec (2 * rho) B), (Z.eqb_spec (rho + B) 0),
        (Z.eqb_spec (2 * (rho + B)) (2 * B)); simpl; lia.
  - replace (rho + B * 0) with rho by lia. split.
    + symmetry. apply Z.leb_gt. lia.
    + destruct (Z.leb_spec B (2 * rho)), (Z.eqb_spec rho 0),
        (Z.eqb_spec (2 * rho) B), (Z.eqb_spec (2 * rho) (2 * B)); simpl; lia.
Qed.

Lemma locates_iter_pos (p : positive) :
  forall (mrs : shr_record) (A B : Z),
    0 <= A -> 0 < B -> locates mrs A B ->
    locates (SpecFloat.iter_pos shr_1 p mrs) A (B * 2 ^ Zpos p).
Proof.
  induction p as [p IH|p IH|]; intros mrs A B HA HB Hloc; simpl SpecFloat.iter_pos.
  - assert (Hpow : 0 < 2 ^ Zpos p) by (apply Z.pow_pos_nonneg; lia).
    replace (B * 2 ^ Zpos p~1) with (2 * B * 2 ^ Zpos p * 2 ^ Zpos p).
    + apply IH; [lia|nia|]. apply IH; [lia|lia|]. now apply locates_shr_1.
    + assert (Hdouble : 2 ^ Zpos p~1 = 2 * (2 ^ Zpos p * 2 ^ Zpos p)).
      { rewrite <- Z.pow_add_r, <- Z.pow_succ_r by lia. f_equal. lia. }
      rewrite Hdouble. ring.
  - assert (Hpow : 0 < 2 ^ Zpos p) by (apply Z.pow_pos_nonneg; lia).
    replace (B * 2 ^ Zpos p~0) with (B * 2 ^ Zpos p * 2 ^ Zpos p).
    + apply IH; [lia|nia|]. now apply IH.
    + assert (Hdouble : 2 ^ Zpos p~0 = 2 ^ Zpos p * 2 ^ Zpos p).
      { rewrite <- Z.pow_add_r by lia. f_equal. lia. }
      rewrite Hdouble. ring.
  - change (2 ^ 1) with 2. rewrite Z.mul_comm. now apply locates_shr_1.
Qed.

Lemma locates_exact (m : Z) :
  0 <= m -> locates (shr_record_of_loc m loc_Exact) m 1.
Proof.
  intros Hm. unfold locates. simpl.
  rewrite Z.div_1_r, Z.mod_1_r. repeat split.
Qed.

Lemma locates_quotient (A B : Z) :
  0 <= A -> 0 < B -> Z.even B = true ->
  locates (shr_record_of_loc (A / B) (new_location B (A mod B))) A B.
Proof.
  intros HA HB Heven. unfold new_location. rewrite Heven.
  unfold new_location_even, locates.
  pose proof (Z.mod_pos_bound A B HB) as Hrho.
  set (rho := A mod B) in *.
  destruct (Z.eqb_spec rho 0) as [H0|H0].
  - simpl. rewrite H0. simpl. repeat split. symmetry. apply Z.leb_gt. lia.
  - destruct (Z.compare_spec (2 * rho) B) as [Hc|Hc|Hc]; simpl;
      (split; [reflexivity|]); split;
      destruct (Z.leb_spec B (2 * rho)), (Z.eqb_spec (2 * rho) B);
      simpl; lia.
Qed.

(** Rounding to nearest: the integer chosen is within one half. *)
Lemma round_nearest_even_locates (mrs : shr_record) (A B : Z) :
  0 <= A -> 0 < B -> locates mrs A B ->
  let N := round_nearest_even (shr_m mrs) (loc_of_shr_record mrs) in
  2 * Z.abs (N * B - A) <= B /\ A / B <= N <= A / B + 1 /\
  (A mod B = 0 -> N = A / B).
Proof.
  intros HA HB (Hm & Hr & Hs). destruct mrs as [m r s]. simpl in Hm, Hr, Hs.
  pose proof (Z.mod_pos_bound A B HB) as Hrho.
  pose proof (Z.div_mod A B ltac:(lia)) as Hdm.
  rewrite <- Hm in *. set (rho := A mod B) in *.
  simpl. subst r s.
  destruct (Z.leb_spec B (2 * rho)), (Z.eqb_spec rho 0),
    (Z.eqb_spec (2 * rho) B); simpl; try lia;
    try destruct (Z.even m); nia.
Qed.

Lemma Zdigits2_unique (N d : Z) :
  0 < N -> 2 ^ (d - 1) <= N < 2 ^ d -> Zdigits2 N = d.
Proof.
  intros HN Hd. destruct N as [|p|p]; try lia. simpl. now apply digits2_unique.
Qed.

Lemma Zdigits2_bounds (N : Z) :
  0 < N -> 2 ^ (Zdigits2 N - 1) <= N < 2 ^ Zdigits2 N.
Proof.
  intros HN. destruct N as [|p|p]; try lia. simpl. apply digits2_bounds.
Qed.

Lemma shr_locates (mrs : shr_record) (e n A B : Z) :
  0 <= A -> 0 < B -> 0 <= n -> locates mrs A B ->
  locates (fst (shr mrs e n)) A (B * 2 ^ n) /\ snd (shr mrs e n) = e + n.
Proof.
  intros HA HB Hn Hloc. destruct n as [|p|p]; try lia; simpl.
  - rewrite Z.mul_1_r, Z.add_0_r. auto.
  - split; [|reflexivity]. now apply locates_iter_pos.
Qed.

(** What [binary_round_aux] returns for a mantissa of at least 53 bits,
    in the normal range: the nearest multiple of the unit in the last
    place, renormalised when the rounding carries into a 54th bit. *)
Lemma binary_round_aux_nearest (sx : bool) (mx ex : Z) (lx : location)
    (A B n : Z) :
  0 <= A -> 0 < B -> locates (shr_record_of_loc mx lx) A B ->
  Zdigits2 mx = 53 + n -> 0 <= n ->
  -1074 <= ex + n -> ex + n + 1 <= 971 ->
  exists N,
    2 ^ 52 <= N <= 2 ^ 53 /\
    2 * Z.abs (N * (B * 2 ^ n) - A) <= B * 2 ^ n /\
    (A mod (B * 2 ^ n) = 0 -> N = A / (B * 2 ^ n)) /\
    binary_round_aux prec emax sx mx ex lx
    = if N <? 2 ^ 53 then S754_finite sx (Z.to_pos N) (ex + n)
      else S754_finite sx (Z.to_pos (2 ^ 52)) (ex + n + 1).
Proof.
  intros HA HB Hloc Hdigits Hn Hlo Hhi.
  assert (Hmx : mx = A / B).
  { destruct Hloc as [Hm _]. destruct lx as [|[]]; exact Hm. }
  assert (Hmx0 : 0 < mx).
  { destruct mx as [|p|p]; simpl in Hdigits; try lia.
    assert (0 <= Zneg p) by (rewrite Hmx; apply Z.div_pos; lia). lia. }
  pose proof (Zdigits2_bounds mx Hmx0) as Hbounds. rewrite Hdigits in Hbounds.
  replace (53 + n - 1) with (52 + n) in Hbounds by lia.
  rewrite !Z.pow_add_r in Hbounds by lia.
  assert (Hpow : 0 < 2 ^ n) by (apply Z.pow_pos_nonneg; lia).
  unfold binary_round_aux, shr_fexp. rewrite Hdigits, fexp_eq.
  replace (Z.max (53 + n + ex - 53) (-1074) - ex) with n by lia.
  destruct (shr_locates (shr_record_of_loc mx lx) ex n A B HA HB Hn Hloc)
    as [Hloc' He'].
  destruct (shr (shr_record_of_loc mx lx) ex n) as [mrs' e'].
  simpl in Hloc', He'. subst e'.
  assert (HB' : 0 < B * 2 ^ n) by nia.
  pose proof (round_nearest_even_locates mrs' A (B * 2 ^ n) HA HB' Hloc')
    as (Herr & HN & Hexact).
  cbv zeta in Herr, HN, Hexact.
  set (N := round_nearest_even (shr_m mrs') (loc_of_shr_record mrs')) in *.
  assert (Hq : 2 ^ 52 <= A / (B * 2 ^ n) < 2 ^ 53).
  { rewrite <- Z.div_div, <- Hmx by lia. split.
    - apply Z.div_le_lower_bound; lia.
    - apply Z.div_lt_upper_bound; lia. }
  exists N. split; [lia|]. split; [exact Herr|]. split; [exact Hexact|].
  destruct (Z.ltb_spec N (2 ^ 53)) as [Hlt|Hge].
  - rewrite (Zdigits2_unique N 53) by (change (2 ^ (53 - 1)) with (2 ^ 52); lia).
    rewrite fexp_eq.
    replace (Z.max (53 + (ex + n) - 53) (-1074) - (ex + n)) with 0 by lia.
    simpl shr. cbv iota beta. simpl shr_m.
    destruct N as [|pN|pN]; try lia.
    assert (Hle : (ex + n <=? emax - prec) = true)
      by (apply Z.leb_le; unfold emax, prec; lia).
    rewrite Hle. reflexivity.
  - assert (HN53 : N = 2 ^ 53) by lia. rewrite HN53.
    change (Zdigits2 (2 ^ 53)) with 54. rewrite fexp_eq.
    replace (Z.max (54 + (ex + n) - 53) (-1074) - (ex + n)) with 1 by lia.
    simpl shr. cbv iota beta. simpl shr_m.
    assert (Hle : (ex + n + 1 <=? emax - prec) = true)
      by (apply Z.leb_le; unfold emax, prec; lia).
    rewrite Hle. reflexivity.
Qed.

Lemma div_eucl_div_mod (a b : Z) : Z.div_eucl a b = (a / b, a mod b).
Proof. unfold Z.div, Z.modulo. now destruct (Z.div_eucl a b). Qed.

(** A number of microseconds divided by [10**6]: the quotient of the
    shifted dividend, rounded to nearest at 53 bits. *)
Lemma SFdiv_million (s : bool) (p : positive) :
  Zpos p < 2 ^ 72 ->
  let S := 73 - Zpos (digits2_pos p) in
  (1 <= S <= 72) /\
  exists n N,
    (n = 0 \/ n = 1) /\ 2 ^ 52 <= N <= 2 ^ 53 /\
    2 * Z.abs (N * (1000000 * 2 ^ n) - Zpos p * 2 ^ S) <= 1000000 * 2 ^ n /\
    SFdiv prec emax (S754_finite s p 0) (S754_finite false 1000000 0)
    = if N <? 2 ^ 53 then S754_finite s (Z.to_pos N) (- S + n)
      else S754_finite s (Z.to_pos (2 ^ 52)) (- S + n + 1).
Proof.
  intros Hu S.
  pose proof (digits2_bounds p) as Hd1.
  set (d1 := Zpos (digits2_pos p)) in *.
  assert (Hd1pos : 1 <= d1) by (subst d1; lia).
  assert (Hd1le : d1 <= 72).
  { destruct (Z_lt_le_dec 72 d1) as [Hgt|]; [exfalso|assumption].
    assert (2 ^ 72 <= 2 ^ (d1 - 1)) by (apply Z.pow_le_mono_r; lia). lia. }
  split; [subst S; lia|].
  assert (HS : 2 ^ S * 2 ^ (d1 - 1) = 2 ^ 72 /\ 2 ^ S * 2 ^ d1 = 2 ^ 73).
  { subst S. rewrite <- !Z.pow_add_r by lia. split; f_equal; lia. }
  assert (HpowS : 0 < 2 ^ S) by (apply Z.pow_pos_nonneg; subst S; lia).
  set (A := Zpos p * 2 ^ S).
  assert (HA : 2 ^ 72 <= A < 2 ^ 73).
  { destruct HS as [<- <-]. subst A. nia. }
  assert (Hcore : SFdiv_core_binary prec emax (Zpos p) 0 1000000 0
                  = (A / 1000000, - S, new_location 1000000 (A mod 1000000))).
  { unfold SFdiv_core_binary. cbv zeta.
    change (Zdigits2 (Zpos p)) with d1. change (Zdigits2 1000000) with 20.
    rewrite fexp_eq.
    replace (Z.min (Z.max (d1 + 0 - (20 + 0) - 53) (-1074)) (0 - 0))
      with (- S) by (subst S; lia).
    replace (0 - 0 - - S) with S by lia.
    subst A. destruct S as [|pS|pS] eqn:ES; try lia.
    rewrite Z.shiftl_mul_pow2 by lia.
    now rewrite div_eucl_div_mod. }
  unfold SFdiv. rewrite Hcore, xorb_false_r.
  change (2 ^ 72) with 4722366482869645213696 in HA.
  change (2 ^ 73) with 9444732965739290427392 in HA.
  assert (Hq : 2 ^ 52 <= A / 1000000 < 2 ^ 54).
  { change (2 ^ 52) with 4503599627370496. change (2 ^ 54) with 18014398509481984.
    split; [apply Z.div_le_lower_bound|apply Z.div_lt_upper_bound]; lia. }
  assert (Hn : exists n, (n = 0 \/ n = 1) /\ Zdigits2 (A / 1000000) = 53 + n).
  { destruct (Z_lt_le_dec (A / 1000000) (2 ^ 53)) as [Hlt|Hge].
    - exists 0. split; [auto|]. apply Zdigits2_unique; [lia|].
      change (53 + 0 - 1) with 52. change (53 + 0) with 53. lia.
    - exists 1. split; [auto|]. apply Zdigits2_unique; [lia|].
      change (53 + 1 - 1) with 53. change (53 + 1) with 54. lia. }
  destruct Hn as (n & Hn01 & Hdigits).
  destruct (binary_round_aux_nearest s (A / 1000000) (- S)
              (new_location 1000000 (A mod 1000000)) A 1000000 n)
    as (N & HN & Herr & _ & ->);
    [lia|lia|apply locates_quotient; [lia|lia|reflexivity]|exact Hdigits
    |lia|subst S; lia|subst S; lia|].
  exists n, N. auto.
Qed.

(** The float of a number of microseconds below [2**33] seconds, divided
    by [10**6]: a 53-bit mantissa [M] at an exponent [-t] of at most
    [-20], within half a unit in the last place of the quotient. *)
Lemma float_of_microseconds (s : bool) (p : positive) :
  Zpos p < 2 ^ 33 * 1000000 ->
  exists (M : positive) (t : Z),
    SFdiv prec emax (S754_finite s p 0) (S754_finite false 1000000 0)
    = S754_finite s M (- t) /\
    20 <= t <= 73 /\ 2 ^ 52 <= Zpos M < 2 ^ 53 /\
    2 * Z.abs (Zpos M * 1000000 - Zpos p * 2 ^ t) <= 1000000.
Proof.
  intros Hu.
  assert (Hu72 : Zpos p < 2 ^ 72).
  { change (2 ^ 33) with 8589934592 in Hu.
    change (2 ^ 72) with 4722366482869645213696. lia. }
  destruct (SFdiv_million s p Hu72) as (HS72 & n & N & Hn01 & HN & Herr & ->).
  pose proof (digits2_bounds p) as Hd1.
  set (d1 := Zpos (digits2_pos p)) in *.
  assert (Hd1le : d1 <= 53).
  { destruct (Z_lt_le_dec 53 d1) as [Hgt|]; [exfalso|assumption].
    assert (2 ^ 53 <= 2 ^ (d1 - 1)) by (apply Z.pow_le_mono_r; lia).
    change (2 ^ 33) with 8589934592 in Hu.
    change (2 ^ 53) with 9007199254740992 in *. lia. }
  set (S := 73 - d1) in *.
  assert (Hsplit : forall t, 0 <= t -> t <= S -> 2 ^ S = 2 ^ t * 2 ^ (S - t)).
  { intros t Ht0 Ht. rewrite <- Z.pow_add_r by lia. f_equal. lia. }
  assert (Hresult : exists (M : positive) (t : Z),
            (if N <? 2 ^ 53 then S754_finite s (Z.to_pos N) (- S + n)
             else S754_finite s (Z.to_pos (2 ^ 52)) (- S + n + 1))
            = S754_finite s M (- t) /\
            S - 2 <= t <= S /\ 2 ^ 52 <= Zpos M < 2 ^ 53 /\
            2 * Z.abs (Zpos M * 1000000 - Zpos p * 2 ^ t) <= 1000000).
  { destruct (Z.ltb_spec N (2 ^ 53)) as [Hlt|Hge].
    - exists (Z.to_pos N), (S - n).
      rewrite Z2Pos.id by lia.
      split; [f_equal; lia|]. split; [lia|]. split; [lia|].
      rewrite (Hsplit (S - n)) in Herr by lia.
      replace (S - (S - n)) with n in Herr by lia.
      set (T := 2 ^ (S - n)) in *.
      destruct Hn01 as [-> | ->].
      + change (2 ^ 0) with 1 in Herr. rewrite !Z.mul_1_r in Herr. exact Herr.
      + change (2 ^ 1) with 2 in Herr.
        replace (N * (1000000 * 2) - Zpos p * (T * 2))
          with (2 * (N * 1000000 - Zpos p * T)) in Herr by ring.
        rewrite Z.abs_mul in Herr. simpl Z.abs in Herr. lia.
    - assert (HN53 : N = 2 ^ 53) by lia.
      exists (Z.to_pos (2 ^ 52)), (S - n - 1).
      split; [f_equal; lia|]. split; [lia|].
      split; [split; [apply Z.leb_le|apply Z.ltb_lt]; reflexivity|].
      change (Zpos (Z.to_pos (2 ^ 52))) with (2 ^ 52).
      rewrite (Hsplit (S - n - 1)) in Herr by lia.
      replace (S - (S - n - 1)) with (n + 1) in Herr by lia.
      set (T := 2 ^ (S - n - 1)) in *.
      rewrite HN53 in Herr.
      destruct Hn01 as [-> | ->].
      + change (2 ^ 0) with 1 in Herr. change (2 ^ (0 + 1)) with 2 in Herr.
        change (2 ^ 53) with (2 * 2 ^ 52) in Herr.
        replace (2 * 2 ^ 52 * (1000000 * 1) - Zpos p * (T * 2))
          with (2 * (2 ^ 52 * 1000000 - Zpos p * T)) in Herr by ring.
        rewrite Z.abs_mul in Herr. simpl Z.abs in Herr. lia.
      + change (2 ^ 1) with 2 in Herr. change (2 ^ (1 + 1)) with 4 in Herr.
        change (2 ^ 53) with (2 * 2 ^ 52) in Herr.
        replace (2 * 2 ^ 52 * (1000000 * 2) - Zpos p * (T * 4))
          with (4 * (2 ^ 52 * 1000000 - Zpos p * T)) in Herr by ring.
        rewrite Z.abs_mul in Herr. simpl Z.abs in Herr. lia. }
  destruct Hresult as (M & t & -> & Ht & HM & Hbound).
  exists M, t. split; [reflexivity|]. split; [|split; [exact HM|exact Hbound]].
  split; [|lia].
  destruct (Z_lt_le_dec t 20) as [Hsmall|]; [exfalso|assumption].
  assert (Ht18 : t = 18 \/ t = 19) by lia.
  change (2 ^ 33) with 8589934592 in Hu.
  change (2 ^ 52) with 4503599627370496 in HM.
  destruct Ht18 as [-> | ->].
  - change (2 ^ 18) with 262144 in Hbound. lia.
  - change (2 ^ 19) with 524288 in Hbound. lia.
Qed.

Lemma Pos_iter_xO (d r : positive) :
  Zpos (Pos.iter xO r d) = Zpos r * 2 ^ Zpos d.
Proof.
  induction d as [|d IH] using Pos.peano_ind.
  - simpl. lia.
  - rewrite Pos.iter_succ, Pos2Z.inj_xO, IH, Pos2Z.inj_succ, Z.pow_succ_r by lia.
    ring.
Qed.

(** An integer of at most 53 bits is normalised without rounding. *)
Lemma binary_normalize_exact (s : bool) (R e : Z) :
  0 < R < 2 ^ 53 -> -1000 <= e <= 900 ->
  let dR := Zdigits2 R in
  binary_normalize prec emax (cond_Zopp s R) e s
  = S754_finite s (Z.to_pos (R * 2 ^ (53 - dR))) (e - (53 - dR)).
Proof.
  intros HR He dR.
  pose proof (Zdigits2_bounds R ltac:(lia)) as Hd. fold dR in Hd.
  assert (HdR : 1 <= dR <= 53).
  { split.
    - destruct R as [|r|r]; try lia. subst dR. simpl. lia.
    - destruct (Z_lt_le_dec 53 dR) as [Hgt|]; [exfalso|assumption].
      assert (2 ^ 53 <= 2 ^ (dR - 1)) by (apply Z.pow_le_mono_r; lia). lia. }
  destruct R as [|r|r]; try lia.
  assert (Hround : binary_normalize prec emax (cond_Zopp s (Zpos r)) e s
                   = binary_round prec emax s r e) by (destruct s; reflexivity).
  rewrite Hround. unfold binary_round.
  change (Zpos (digits2_pos r)) with dR. rewrite fexp_eq.
  replace (Z.max (dR + e - 53) (-1074)) with (e - (53 - dR)) by lia.
  set (m2 := Zpos r * 2 ^ (53 - dR)).
  assert (Hpow : 0 < 2 ^ (53 - dR)) by (apply Z.pow_pos_nonneg; lia).
  assert (Hm2 : 2 ^ 52 <= m2 < 2 ^ 53).
  { replace (2 ^ 52) with (2 ^ (dR - 1) * 2 ^ (53 - dR))
      by (rewrite <- Z.pow_add_r by lia; f_equal; lia).
    replace (2 ^ 53) with (2 ^ dR * 2 ^ (53 - dR))
      by (rewrite <- Z.pow_add_r by lia; f_equal; lia).
    subst m2. nia. }
  assert (Halign : shl_align r e (e - (53 - dR))
                   = (Z.to_pos m2, e - (53 - dR))).
  { unfold shl_align.
    replace (e - (53 - dR) - e) with (dR - 53) by lia.
    destruct (dR - 53) as [|d|d] eqn:Ed; try lia.
    - subst m2. replace (53 - dR) with 0 by lia.
      rewrite Z.pow_0_r, Z.mul_1_r, Z.sub_0_r. reflexivity.
    - f_equal. apply Pos2Z.inj. rewrite Pos_iter_xO, Z2Pos.id by lia.
      subst m2. f_equal. f_equal. lia. }
  rewrite Halign.
  destruct (binary_round_aux_nearest s (Zpos (Z.to_pos m2)) (e - (53 - dR))
              loc_Exact m2 1 0)
    as (N & HN & _ & Hexact & ->); try lia.
  - rewrite Z2Pos.id by lia. apply locates_exact. lia.
  - rewrite Z2Pos.id by lia. apply Zdigits2_unique; [lia|].
    change (53 + 0 - 1) with 52. change (53 + 0) with 53. exact Hm2.
  - change (1 * 2 ^ 0) with 1 in Hexact.
    rewrite Z.mod_1_r, Z.div_1_r in Hexact. rewrite (Hexact eq_refl).
    destruct (Z.ltb_spec m2 (2 ^ 53)); [|lia].
    f_equal. lia.
Qed.

(** [round] on a float that is within less than one half of an
    integer. *)
Lemma float_round_nearest (s : bool) (M : positive) (w m : Z) :
  0 < w -> 2 * Z.abs (m * 2 ^ w - Zpos M) < 2 ^ w ->
  float_round (S754_finite s M (- w)) = Ok (cond_Zopp s m).
Proof.
  intros Hw Hnear. unfold float_round.
  assert (Hneg : (0 <=? - w) = false) by (apply Z.leb_gt; lia).
  rewrite Hneg, Z.opp_involutive.
  rewrite Z.shiftr_div_pow2, Z.land_ones, Z.shiftl_mul_pow2, Z.mul_1_l by lia.
  assert (HW : 0 < 2 ^ w) by (apply Z.pow_pos_nonneg; lia).
  set (W := 2 ^ w) in *.
  pose proof (Z.div_mod (Zpos M) W ltac:(lia)) as Hdm.
  pose proof (Z.mod_pos_bound (Zpos M) W HW) as Hr.
  set (q := Zpos M / W) in *. set (r := Zpos M mod W) in *.
  assert (Hm : (2 * r < W /\ m = q) \/ (W < 2 * r /\ m = q + 1)).
  { destruct (Z.lt_trichotomy (2 * r) W) as [Hlt|[Heq|Hgt]].
    - left. split; [exact Hlt|].
      destruct (Z.lt_trichotomy m q) as [Hmq|[Hmq|Hmq]]; [exfalso|exact Hmq|exfalso].
      + assert (m * W <= (q - 1) * W) by (apply Z.mul_le_mono_nonneg_r; lia). lia.
      + assert ((q + 1) * W <= m * W) by (apply Z.mul_le_mono_nonneg_r; lia). lia.
    - exfalso.
      destruct (Z_lt_le_dec q m) as [Hmq|Hmq].
      + assert ((q + 1) * W <= m * W) by (apply Z.mul_le_mono_nonneg_r; lia). lia.
      + assert (m * W <= q * W) by (apply Z.mul_le_mono_nonneg_r; lia). lia.
    - right. split; [exact Hgt|].
      destruct (Z.lt_trichotomy m (q + 1)) as [Hmq|[Hmq|Hmq]];
        [exfalso|exact Hmq|exfalso].
      + assert (m * W <= q * W) by (apply Z.mul_le_mono_nonneg_r; lia). lia.
      + assert ((q + 2) * W <= m * W) by (apply Z.mul_le_mono_nonneg_r; lia). lia. }
  destruct Hm as [[Hlt ->]|[Hgt ->]].
  - apply Z.compare_lt_iff in Hlt. rewrite Hlt. destruct s; reflexivity.
  - apply Z.compare_gt_iff in Hgt. rewrite Hgt. destruct s; reflexivity.
Qed.

Lemma float_of_million :
  float_of_Z 1000000 = S754_finite false 8589934592000000 (-33).
Proof. reflexivity. Qed.

(** The microseconds read from the fractional part [R / 2**t] of a float:
    when [R / 2**t * 10**6] is within [10**6 / 2**(t+1)], less than one
    half, of the integer [m0], scaling in float arithmetic and rounding
    gives [m0]. *)
Lemma microseconds_of_fraction (s : bool) (R t m0 : Z) :
  20 <= t <= 73 -> 0 <= R < 2 ^ t -> R < 2 ^ 53 -> 0 <= m0 ->
  2 * Z.abs (R * 1000000 - m0 * 2 ^ t) <= 1000000 ->
  float_round
    (SFmul prec emax (binary_normalize prec emax (cond_Zopp s R) (- t) s)
       (float_of_Z 1000000))
  = Ok (cond_Zopp s m0).
Proof.
  intros Ht HR HR53 Hm0 Hnear.
  assert (HT : 2 ^ 20 <= 2 ^ t) by (apply Z.pow_le_mono_r; lia).
  change (2 ^ 20) with 1048576 in HT.
  set (T := 2 ^ t) in *.
  destruct (Z.eq_dec R 0) as [->|HRpos].
  - assert (m0 = 0) by nia. subst m0.
    destruct s; reflexivity.
  - set (dR := Zdigits2 R).
    pose proof (Zdigits2_bounds R ltac:(lia)) as Hd. fold dR in Hd.
    assert (HdR : 1 <= dR <= 53 /\ dR <= t).
    { split; [split|].
      - destruct R as [|r|r]; try lia. subst dR. simpl. lia.
      - destruct (Z_lt_le_dec 53 dR) as [Hgt|]; [exfalso|assumption].
        assert (2 ^ 53 <= 2 ^ (dR - 1)) by (apply Z.pow_le_mono_r; lia). lia.
      - destruct (Z_lt_le_dec t dR) as [Hgt|]; [exfalso|assumption].
        assert (2 ^ t <= 2 ^ (dR - 1)) by (apply Z.pow_le_mono_r; lia).
        subst T. lia. }
    rewrite (binary_normalize_exact s R (- t)) by lia. fold dR.
    rewrite float_of_million.
    set (m2 := R * 2 ^ (53 - dR)).
    assert (Hpow : 0 < 2 ^ (53 - dR)) by (apply Z.pow_pos_nonneg; lia).
    assert (Hm2 : 2 ^ 52 <= m2 < 2 ^ 53).
    { replace (2 ^ 52) with (2 ^ (dR - 1) * 2 ^ (53 - dR))
        by (rewrite <- Z.pow_add_r by lia; f_equal; lia).
      replace (2 ^ 53) with (2 ^ dR * 2 ^ (53 - dR))
        by (rewrite <- Z.pow_add_r by lia; f_equal; lia).
      subst m2. nia. }
    unfold SFmul. rewrite xorb_false_r, Pos2Z.inj_mul, Z2Pos.id by lia.
    set (c := 8589934592000000).
    set (A := m2 * c).
    assert (HA : 2 ^ 104 <= A < 2 ^ 106).
    { change (2 ^ 52) with 4503599627370496 in Hm2.
      change (2 ^ 53) with 9007199254740992 in Hm2.
      change (2 ^ 104) with 20282409603651670423947251286016.
      change (2 ^ 106) with 81129638414606681695789005144064.
      subst A c. lia. }
    assert (Hn : exists n, (n = 52 \/ n = 53) /\ Zdigits2 A = 53 + n).
    { destruct (Z_lt_le_dec A (2 ^ 105)) as [Hlt|Hge].
      - exists 52. split; [auto|]. apply Zdigits2_unique; [lia|].
        change (53 + 52 - 1) with 104. change (53 + 52) with 105. lia.
      - exists 53. split; [auto|]. apply Zdigits2_unique; [lia|].
        change (53 + 53 - 1) with 105. change (53 + 53) with 106. lia. }
    destruct Hn as (n & Hn & Hdigits).
    destruct (binary_round_aux_nearest s A (- t - (53 - dR) + -33) loc_Exact
                A 1 n)
      as (N & HN & Herr & _ & ->);
      [lia|lia|apply locates_exact; lia|exact Hdigits|lia|lia|lia|].
    rewrite Z.mul_1_l in Herr.
    (* the exponent of the product, and the scale of the comparison *)
    set (w := t + 86 - dR - n).
    assert (Hw : 33 <= w) by lia.
    set (G := 2 ^ (86 - dR)).
    assert (HG : 0 < G) by (apply Z.pow_pos_nonneg; lia).
    assert (HP : 0 < 2 ^ n) by (apply Z.pow_pos_nonneg; lia).
    assert (HAG : A = R * 1000000 * G).
    { subst A m2 c G.
      replace (86 - dR) with (53 - dR + 33) by lia.
      rewrite Z.pow_add_r by lia. change (2 ^ 33) with 8589934592. ring. }
    assert (HWP : 2 ^ w * 2 ^ n = T * G).
    { subst T G. rewrite <- !Z.pow_add_r by lia. f_equal. lia. }
    assert (HTG : 2 ^ 86 <= T * G).
    { subst T G. rewrite <- Z.pow_add_r by lia. apply Z.pow_le_mono_r; lia. }
    assert (Hn53 : 2 ^ n <= 2 ^ 53) by (apply Z.pow_le_mono_r; lia).
    change (2 ^ 86) with 77371252455336267181195264 in HTG.
    change (2 ^ 53) with 9007199254740992 in Hn53.
    assert (Hclose : 2 * Z.abs (m0 * 2 ^ w - N) < 2 ^ w).
    { assert (Hscaled : 2 * Z.abs (m0 * 2 ^ w - N) * 2 ^ n < 2 ^ w * 2 ^ n).
      { rewrite HWP.
        replace (2 * Z.abs (m0 * 2 ^ w - N) * 2 ^ n)
          with (2 * Z.abs (m0 * (2 ^ w * 2 ^ n) - N * 2 ^ n))
          by (rewrite <- (Z.abs_eq (2 ^ n)) at 3 by lia;
              rewrite <- Z.mul_assoc, <- Z.abs_mul; f_equal; f_equal; ring).
        rewrite HWP.
        assert (Hfrac : 2 * Z.abs (R * 1000000 * G - m0 * (T * G))
                        <= 1000000 * G).
        { replace (R * 1000000 * G - m0 * (T * G))
            with ((R * 1000000 - m0 * T) * G) by ring.
          rewrite Z.abs_mul, (Z.abs_eq G) by lia. nia. }
        rewrite HAG in Herr.
        assert (Hroom : 32 * (T * G - 1000000 * G) >= T * G) by nia.
        lia. }
      apply Z.mul_lt_mono_pos_r in Hscaled; [exact Hscaled|exact HP]. }
    destruct (Z.ltb_spec N (2 ^ 53)) as [Hlt|Hge].
    + replace (- t - (53 - dR) + -33 + n) with (- w) by lia.
      apply float_round_nearest; [lia|].
      rewrite Z2Pos.id by lia. exact Hclose.
    + assert (HN53 : N = 2 ^ 53) by lia.
      replace (- t - (53 - dR) + -33 + n + 1) with (- (w - 1)) by lia.
      apply float_round_nearest; [lia|].
      change (Zpos (Z.to_pos (2 ^ 52))) with (2 ^ 52).
      rewrite HN53 in Hclose.
      replace (2 ^ w) with (2 * 2 ^ (w - 1)) in Hclose
        by (rewrite <- Z.pow_succ_r by lia; f_equal; lia).
      change (2 ^ 53) with (2 * 2 ^ 52) in Hclose.
      replace (m0 * (2 * 2 ^ (w - 1)) - 2 * 2 ^ 52)
        with (2 * (m0 * 2 ^ (w - 1) - 2 ^ 52)) in Hclose by ring.
      rewrite Z.abs_mul in Hclose. simpl Z.abs in Hclose. lia.
Qed.

(** Reading back a float that is within half a unit in the last place of
    [u / 10**6] seconds, for [u] microseconds below [2**33] seconds. *)
Lemma timedelta_of_near_float (s : bool) (M : positive) (t u : Z) :
  20 <= t <= 73 -> 2 ^ 52 <= Zpos M < 2 ^ 53 ->
  0 < u < 2 ^ 33 * 1000000 ->
  2 * Z.abs (Zpos M * 1000000 - u * 2 ^ t) <= 1000000 ->
  timedelta_of_seconds (S754_finite s M (- t)) = Ok (Timedelta (cond_Zopp s u)).
Proof.
  intros Ht HM Hu Hnear.
  assert (HT : 2 ^ 20 <= 2 ^ t) by (apply Z.pow_le_mono_r; lia).
  change (2 ^ 20) with 1048576 in HT.
  unfold timedelta_of_seconds, float_trunc, float_frac.
  assert (Hneg : (0 <=? - t) = false) by (apply Z.leb_gt; lia).
  rewrite Hneg, Z.opp_involutive.
  rewrite Z.shiftr_div_pow2, Z.land_ones by lia.
  set (T := 2 ^ t) in *.
  pose proof (Z.div_mod (Zpos M) T ltac:(lia)) as HdmM.
  pose proof (Z.mod_pos_bound (Zpos M) T ltac:(lia)) as HR.
  pose proof (Z.div_mod u 1000000 ltac:(lia)) as Hdmu.
  pose proof (Z.mod_pos_bound u 1000000 ltac:(lia)) as Hm0.
  set (k := Zpos M / T) in *. set (R := Zpos M mod T) in *.
  set (k0 := u / 1000000) in *. set (m0 := u mod 1000000) in *.
  assert (Hk0 : 0 <= k0) by (subst k0; apply Z.div_pos; lia).
  assert (Hk : k = k0).
  { destruct (Z.lt_trichotomy k k0) as [Hlt|[Heq|Hgt]]; [exfalso|exact Heq|exfalso].
    - assert (T * k <= T * (k0 - 1)) by (apply Z.mul_le_mono_nonneg_l; lia).
      assert (k0 * T <= m0 * T + k0 * T) by nia.
      nia.
    - assert (T * (k0 + 1) <= T * k) by (apply Z.mul_le_mono_nonneg_l; lia).
      assert (m0 * T <= 999999 * T) by (apply Z.mul_le_mono_nonneg_r; lia).
      nia. }
  assert (Hfrac : 2 * Z.abs (R * 1000000 - m0 * T) <= 1000000).
  { replace (R * 1000000 - m0 * T) with (Zpos M * 1000000 - u * T); [exact Hnear|].
    rewrite HdmM, Hdmu, Hk. ring. }
  unfold mbind, outcome_bind.
  assert (Hseconds : (if s then - k else k) = cond_Zopp s k) by reflexivity.
  rewrite (microseconds_of_fraction s R t m0); [|lia|exact HR|lia|lia|exact Hfrac].
  assert (Hus : (if s then - k else k) * 1000000 + cond_Zopp s m0 = cond_Zopp s u).
  { rewrite Hdmu, Hk. destruct s; simpl; lia. }
  rewrite Hus.
  assert (Hrange : (min_timedelta_us <=? cond_Zopp s u)
                   && (cond_Zopp s u <=? max_timedelta_us) = true).
  { apply andb_true_intro. change (2 ^ 33) with 8589934592 in Hu.
    unfold min_timedelta_us, max_timedelta_us.
    split; apply Z.leb_le; destruct s; simpl; lia. }
  rewrite Hrange. reflexivity.
Qed.

(** A duration shorter than [2**33] seconds is read back exactly, to the
    microsecond, from the float of its total seconds. *)
Lemma timedelta_short_duration (us : Z) :
  Z.abs us < 2 ^ 33 * 1000000 ->
  timedelta_of_seconds (total_seconds (Timedelta us)) = Ok (Timedelta us).
Proof.
  intros Hus. unfold total_seconds. simpl total_us.
  destruct us as [|p|p].
  - reflexivity.
  - unfold float_of_ratio; cbv iota.
    destruct (float_of_microseconds false p ltac:(lia)) as (M & t & -> & Ht & HM & Hnear).
    apply (timedelta_of_near_float false M t (Zpos p)); [exact Ht|exact HM|lia|exact Hnear].
  - unfold float_of_ratio; cbv iota.
    destruct (float_of_microseconds true p ltac:(lia)) as (M & t & -> & Ht & HM & Hnear).
    apply (timedelta_of_near_float true M t (Zpos p)); [exact Ht|exact HM|lia|exact Hnear].
Qed.

(** The total of seconds of a duration in the range of [timedelta] is a
    finite float, so its integral part is an integer. *)
Lemma float_trunc_total_seconds (td : timedelta) :
  min_timedelta_us <= total_us td <= max_timedelta_us ->
  exists n, float_trunc (total_seconds td) = Ok n.
Proof.
  intros Hrange. unfold total_seconds.
  unfold min_timedelta_us, max_timedelta_us in Hrange.
  destruct (total_us td) as [|p|p]; [now exists 0|..];
    unfold float_of_ratio; cbv iota.
  - destruct (SFdiv_million false p) as (_ & n & N & _ & _ & _ & ->).
    { change (2 ^ 72) with 4722366482869645213696. lia. }
    destruct (N <? 2 ^ 53); simpl float_trunc; eauto.
  - destruct (SFdiv_million true p) as (_ & n & N & _ & _ & _ & ->).
    { change (2 ^ 72) with 4722366482869645213696. lia. }
    destruct (N <? 2 ^ 53); simpl float_trunc; eauto.
Qed.

(** The durations a float carries exactly. *)
Lemma timedelta_exact_duration (td : timedelta) :
  exact_duration td = true ->
  timedelta_of_seconds (total_seconds td) = Ok td.
Proof.
  destruct td as [us]. unfold exact_duration. simpl total_us.
  intros Hexact. apply orb_prop in Hexact as [Hshort|Hwhole].
  - apply timedelta_short_duration. now apply Z.ltb_lt.
  - apply andb_prop in Hwhole as [Hwhole Hhi].
    apply andb_prop in Hwhole as [Hmod Hlo].
    apply Z.eqb_eq in Hmod. apply Z.leb_le in Hlo, Hhi.
    pose proof (Z.div_mod us 1000000 ltac:(lia)) as Hdm. rewrite Hmod in Hdm.
    replace us with (us / 1000000 * 1000000) by lia.
    apply timedelta_whole_seconds. lia.
Qed.

End WholeSeconds.

(** ** Round trips through the handlers *)

Lemma py_equal_refl (v : pyobj) : py_equal v v.
Proof. destruct v; simpl; reflexivity. Qed.

(** C3, as stated, fails for nested structures: the model handler
    serializes an instance to its dumped value map, and deserializing
    returns that map, which is not the instance. *)
Lemma C3_model_instance_not_restored :
  get_handler TypeHandlerRegistry_new inner_model_spec = Some PydanticModelHandler /\
  PydanticModelHandler_serialize inner_instance
    = Ok (VDict [(VStr "name", VStr "n"); (VStr "value", VInt 1)]) /\
  PydanticModelHandler_deserialize
      (VDict [(VStr "name", VStr "n"); (VStr "value", VInt 1)]) inner_model_spec
    = Ok (VDict [(VStr "name", VStr "n"); (VStr "value", VInt 1)]) /\
  ~ py_equal (VDict [(VStr "name", VStr "n"); (VStr "value", VInt 1)]) inner_instance.
Proof. repeat split. simpl. discriminate. Qed.

(** Durations beyond the precision of a float are not restored either:
    200000 days and one microsecond come back as 200000 days, and the
    largest duration overflows on the way back. *)
Lemma long_duration_loses_microseconds `{PyRuntime} :
  let td := Timedelta (200000 * 86400 * 1000000 + 1) in
  (raw ← TimedeltaHandler_serialize (VTimedelta td);
   TimedeltaHandler_deserialize raw (FieldSpec_new "ttl"))
  = Ok (VTimedelta (Timedelta (200000 * 86400 * 1000000))) /\
  (raw ← TimedeltaHandler_serialize (VTimedelta (Timedelta max_timedelta_us));
   TimedeltaHandler_deserialize raw (FieldSpec_new "ttl"))
  = Raise OverflowError.
Proof. split; vm_compute; reflexivity. Qed.

(** The bound of [2**33] seconds is the first at which microseconds are
    lost: one microsecond past it is read back as two. *)
Lemma duration_past_bound_not_restored `{PyRuntime} :
  exact_duration (Timedelta (2 ^ 33 * 1000000 - 1)) = true /\
  exact_duration (Timedelta (2 ^ 33 * 1000000 + 1)) = false /\
  (raw ← TimedeltaHandler_serialize (VTimedelta (Timedelta (2 ^ 33 * 1000000 + 1)));
   TimedeltaHandler_deserialize raw (FieldSpec_new "ttl"))
  = Ok (VTimedelta (Timedelta (2 ^ 33 * 1000000 + 2))).
Proof. repeat split; vm_compute; reflexivity. Qed.

(** C3, amended: for every handler and every value of its shape - a
    bool, string, integer, non-NaN float, finite decimal, canonical enum
    member, literal, valid naive date-time or time, list, set of distinct
    hashable elements, dict, optional or union value, a nested structure
    in value-map form, and a duration shorter than [2**33] seconds (to
    the microsecond) or of a whole number of seconds in the range of
    [timedelta] - serializing and then deserializing succeeds and returns
    an equal
    value.  Decimals travel as their exact decimal string, date-times and
    times as ISO 8601 text, enum members as their value, sets as the list
    of their elements, durations as the float of their total seconds.  A
    model instance is not restored: it travels, and comes back, as its
    dumped value map. *)
Theorem C3_round_trip `{PyRuntime} (handler : Handler) (spec : FieldSpec)
    (v : pyobj) (Hv : representable handler spec v) :
  (exists raw v',
     serialize handler v = Ok raw /\
     deserialize handler raw spec = Ok v' /\
     py_equal v' v /\
     stated_transport handler v raw) /\
  (forall cls fields,
     serialize PydanticModelHandler (VModel cls fields)
       = Ok (model_dump (VModel cls fields)) /\
     deserialize PydanticModelHandler (model_dump (VModel cls fields)) spec
       = Ok (model_dump (VModel cls fields))).
Proof.
  split; [|intros cls fields; split; reflexivity].
  destruct Hv as [spec b|spec s|spec n|spec f Hf|spec d|spec e member payload He Hm
                 |spec v Hv|spec dt Hdt|spec t Ht|spec td Htd
                 |spec v Hv|spec v Hv|spec l|spec l Hh Hd|spec kv|spec kv]; simpl.
  - exists (VBool b), (VBool b). repeat split.
  - exists (VStr s), (VStr s). repeat split.
  - exists (VInt n), (VInt n). repeat split.
  - exists (VFloat f), (VFloat f). repeat split.
  - exists (VStr (Decimal_to_str d)), (VDecimal d).
    unfold DecimalHandler_serialize, DecimalHandler_deserialize. simpl.
    rewrite Decimal_of_str_to_str. repeat split.
  - exists payload, (VEnum (enum_name e) member payload).
    unfold EnumHandler_deserialize. rewrite He, (enum_call_canonical _ _ _ Hm).
    repeat split.
  - exists v, v. repeat split. apply py_equal_refl.
  - exists (VStr (datetime_isoformat dt)), (VDatetime dt).
    unfold DatetimeHandler_deserialize.
    rewrite (datetime_fromisoformat_isoformat _ Hdt). repeat split.
  - exists (VStr (time_isoformat t)), (VTime t).
    unfold TimeHandler_deserialize.
    rewrite (time_fromisoformat_isoformat _ Ht). repeat split.
  - exists (VFloat (total_seconds td)), (VTimedelta td).
    unfold TimedeltaHandler_deserialize. simpl py_float.
    change (x ← Ok ?f; ?k) with (let x := f in k). cbv zeta.
    unfold mbind, outcome_bind. rewrite (timedelta_exact_duration _ Htd).
    repeat split.
  - exists v, v. repeat split. apply py_equal_refl.
  - exists v, v. repeat split. apply py_equal_refl.
  - exists (VList l), (VList l). unfold ListHandler_deserialize.
    destruct l; repeat split.
  - exists (VList l), (VSet l). unfold SetHandler_deserialize.
    destruct l as [|x l]; [repeat split; apply (py_equal_refl (VSet []))|].
    change (py_bool (VList (x :: l))) with true. cbv iota.
    unfold py_set. simpl py_iter.
    unfold mbind, outcome_bind. rewrite Hh, (dedup_values_distinct _ Hd).
    repeat split. apply (py_equal_refl (VSet (x :: l))).
  - exists (VDict kv), (VDict kv).
    unfold DictHandler_serialize, DictHandler_deserialize.
    destruct kv; repeat split.
  - exists (VDict kv), (VDict kv). repeat split.
Qed.

Lemma C3_round_trip_witness :
  (exists v',
     @serialize plain_runtime DecimalHandler (VDecimal (Decimal false 1 (-5)))
       = Ok (VStr "0.00001") /\
     @deserialize plain_runtime DecimalHandler (VStr "0.00001") amount_spec = Ok v' /\
     py_equal v' (VDecimal (Decimal false 1 (-5)))) /\
  (exists v',
     @serialize plain_runtime TimedeltaHandler (VTimedelta (Timedelta (5400 * 1000000)))
       = Ok (VFloat (float_of_Z 5400)) /\
     @deserialize plain_runtime TimedeltaHandler (VFloat (float_of_Z 5400)) ttl_spec
       = Ok v' /\
     py_equal v' (VTimedelta (Timedelta (5400 * 1000000)))) /\
  (exists v',
     @serialize plain_runtime TimedeltaHandler (VTimedelta (Timedelta 1500000))
       = Ok (VFloat (S754_finite false 6755399441055744 (-52))) /\
     @deserialize plain_runtime TimedeltaHandler
       (VFloat (S754_finite false 6755399441055744 (-52))) ttl_spec
       = Ok v' /\
     py_equal v' (VTimedelta (Timedelta 1500000))).
Proof.
  split; [|split].
  - destruct (@C3_round_trip plain_runtime DecimalHandler amount_spec _
                (rep_decimal amount_spec (Decimal false 1 (-5))))
      as [(raw & v' & Hser & Hde & Heq & Hraw) _].
    simpl in Hraw. subst raw. exists v'.
    split; [exact Hser|]. split; [exact Hde|exact Heq].
  - destruct (@C3_round_trip plain_runtime TimedeltaHandler ttl_spec _
                (rep_timedelta ttl_spec (Timedelta (5400 * 1000000)) eq_refl))
      as [(raw & v' & Hser & Hde & Heq & Hraw) _].
    simpl in Hraw. subst raw. exists v'.
    split; [exact Hser|]. split; [exact Hde|exact Heq].
  - destruct (@C3_round_trip plain_runtime TimedeltaHandler ttl_spec _
                (rep_timedelta ttl_spec (Timedelta 1500000) eq_refl))
      as [(raw & v' & Hser & Hde & Heq & Hraw) _].
    simpl in Hraw. subst raw. exists v'.
    split; [exact Hser|]. split; [exact Hde|exact Heq].
Defined.

(** ** [_prepare_value] always returns *)

Section PrepareValue.
Context `{PyRuntime}.

Lemma depth_le_max {A} (f : A -> nat) (l : list A) (x : A) :
  x ∈ l -> (f x <= foldr Nat.max O (map f l))%nat.
Proof.
  induction 1 as [x l|x y l _ IH]; simpl; lia.
Qed.

Lemma depth_of_dump (v : pyobj) : depth_of (dump v) = depth_of v.
Proof.
  induction v as [| |b|n|f|s|d|c m v IHv|dt|t|td|l IHl|l IHl|l IHl|kv IHkv|c fs IHfs]
    using pyobj_nested_ind; simpl; try reflexivity; f_equal.
  - induction IHl as [|x l Hx _ IH]; simpl; [reflexivity|]. now rewrite Hx, IH.
  - induction IHl as [|x l Hx _ IH]; simpl; [reflexivity|]. now rewrite Hx, IH.
  - induction IHl as [|x l Hx _ IH]; simpl; [reflexivity|]. now rewrite Hx, IH.
  - induction IHkv as [|[k x] kv [_ Hx] _ IH]; simpl in *; [reflexivity|].
    now rewrite Hx, IH.
  - induction IHfs as [|[k x] fs Hx _ IH]; simpl in *; [reflexivity|].
    now rewrite Hx, IH.
Qed.

(** A bound above the nesting depth is enough. *)
Lemma _prepare_value_upto_total (depth : nat) :
  forall v, (depth_of v < depth)%nat -> is_Some (_prepare_value_upto depth v).
Proof.
  induction depth as [|depth IH]; intros v Hv; [lia|].
  assert (Hlist : forall l : list pyobj,
            (foldr Nat.max O (map depth_of l) < depth)%nat ->
            is_Some (mapM (_prepare_value_upto depth) l)).
  { intros l Hl. apply mapM_is_Some, Forall_forall. intros x Hx.
    apply IH. pose proof (depth_le_max depth_of l x Hx). lia. }
  assert (Hdict : forall kv : list (pyobj * pyobj),
            (foldr Nat.max O (map (fun e => depth_of (snd e)) kv) < depth)%nat ->
            is_Some (mapM (fun e => v ← _prepare_value_upto depth (snd e);
                                    Some (fst e, v)) kv)).
  { intros kv Hkv. apply mapM_is_Some, Forall_forall. intros e He. simpl.
    destruct (IH (snd e)) as [r Hr].
    - pose proof (depth_le_max (fun e => depth_of (snd e)) kv e He). simpl in *. lia.
    - rewrite Hr. simpl. eauto. }
  destruct v as [| |b|n|f|s|d|c m v|dt|t|td|l|l|l|kv|c fs]; simpl in *; eauto.
  - destruct (Hlist l) as [r ->]; [lia|]. simpl. eauto.
  - destruct (Hlist l) as [r ->]; [lia|]. simpl. eauto.
  - destruct (Hlist (sorted py_str l)) as [r ->]; [|simpl; eauto].
    assert (Hmax : forall l1 l2 : list pyobj, l1 ≡ₚ l2 ->
              foldr Nat.max O (map depth_of l1) = foldr Nat.max O (map depth_of l2)).
    { induction 1; simpl; lia. }
    rewrite (Hmax _ _ (sorted_Permutation py_str l)). lia.
  - destruct (Hdict kv) as [r ->]; [lia|]. simpl. eauto.
  - destruct (Hdict (map (fun kv => (VStr (fst kv), model_dump (snd kv))) fs))
      as [r ->]; [|simpl; eauto].
    rewrite map_map. simpl.
    erewrite map_ext; [|intros e; apply depth_of_dump]. lia.
Qed.

Lemma _prepare_value_total (v : pyobj) : is_Some (_prepare_value v).
Proof. apply _prepare_value_upto_total. lia. Qed.

End PrepareValue.

(* ===================================================================== *)
(** * Part III.  Further properties of the code                           *)
(* ===================================================================== *)

#[local] Set Warnings "-clear-no-such-hyp".

(** ** Constraints extracted from field metadata *)

Lemma constraint_attr_step (meta : gmap string pyobj) (attrs : list string)
    (acc : gmap string pyobj) (attr : string) :
  foldl (fun constraints a =>
           match meta !! a with
           | Some VNone | None => constraints
           | Some val => <[a := val]> constraints
           end) acc attrs !! attr
  = if bool_decide (attr ∈ attrs)
    then match constraint_of meta attr with
         | Some val => Some val
         | None => acc !! attr
         end
    else acc !! attr.
Proof.
  revert acc. induction attrs as [|a attrs IH]; intros acc; [reflexivity|].
  cbn [foldl]. rewrite IH. unfold constraint_of.
  destruct (decide (attr = a)) as [->|Hne].
  - rewrite (bool_decide_eq_true_2 (a ∈ a :: attrs)) by apply list_elem_of_here.
    destruct (meta !! a) as [v|] eqn:E.
    + assert (Hv : forall T (x y : T),
                match v with VNone => x | _ => y end
                = if is_None v then x else y) by (intros; now destruct v).
      rewrite !Hv. destruct (is_None v); [now destruct (bool_decide _)|].
      rewrite lookup_insert_eq. now destruct (bool_decide _).
    + now destruct (bool_decide _).
  - assert (Hin : bool_decide (attr ∈ a :: attrs) = bool_decide (attr ∈ attrs)).
    { apply bool_decide_ext. rewrite elem_of_cons.
      split; [intros [?|?]; [contradiction|assumption]|auto]. }
    rewrite Hin.
    assert (Hacc : match meta !! a with
                   | Some VNone | None => acc
                   | Some val => <[a := val]> acc
                   end !! attr = acc !! attr).
    { destruct (meta !! a) as [v|]; [|reflexivity].
      destruct v; try reflexivity; now rewrite lookup_insert_ne by congruence. }
    rewrite Hacc. reflexivity.
Qed.

(** Folding a step under which the last object that carries a value wins. *)
Lemma foldl_last_wins {K V O} `{Countable K} (step : gmap K V -> O -> gmap K V)
    (carried : O -> option V) (k : K)
    (Hstep : forall acc o, step acc o !! k
                           = match carried o with
                             | Some v => Some v
                             | None => acc !! k
                             end)
    (objects : list O) (acc : gmap K V) (v : V) :
  foldl step acc objects !! k = Some v <->
  (exists before o after,
     objects = before ++ o :: after /\ carried o = Some v /\
     Forall (fun o' => carried o' = None) after) \/
  (acc !! k = Some v /\ Forall (fun o' => carried o' = None) objects).
Proof.
  revert acc. induction objects as [|o objects IH]; intros acc; cbn [foldl].
  - split.
    + intros Hacc. right. auto.
    + intros [(before & o & after & Heq & _)|[Hacc _]]; [|exact Hacc].
      destruct before; discriminate Heq.
  - rewrite IH, Hstep. split.
    + intros [(before & o' & after & -> & Ho & Hafter)|[Hacc Hall]].
      * left. exists (o :: before), o', after. auto.
      * destruct (carried o) as [v'|] eqn:E.
        -- left. exists [], o, objects. split; [reflexivity|]. split; [congruence|auto].
        -- right. auto.
    + intros [(before & o' & after & Heq & Ho & Hafter)|[Hacc Hall]].
      * destruct before as [|o0 before]; cbn [app] in Heq;
          injection Heq as -> ->.
        -- right. now rewrite Ho.
        -- left. exists before, o', after. auto.
      * apply Forall_cons_1 in Hall as [Ho Hall]. right. now rewrite Ho.
Qed.

(** X1: The constraints recorded for a field: an attribute outside the seven
    constraint names is never recorded; for one of the seven, the value
    recorded is the one of the last metadata object that carries the
    attribute with a value other than [None]; [None] is never recorded. *)
Theorem extract_constraints_last_wins (field_info : FieldInfo.t) (attr : string) :
  (forall val,
     _extract_constraints field_info !! attr = Some val <->
     attr ∈ constraint_attrs /\
     exists before meta after,
       FieldInfo.metadata field_info = before ++ meta :: after /\
       constraint_of meta attr = Some val /\
       Forall (fun m => constraint_of m attr = None) after) /\
  _extract_constraints field_info !! attr <> Some VNone.
Proof.
  assert (Hiff : forall val,
     _extract_constraints field_info !! attr = Some val <->
     attr ∈ constraint_attrs /\
     exists before meta after,
       FieldInfo.metadata field_info = before ++ meta :: after /\
       constraint_of meta attr = Some val /\
       Forall (fun m => constraint_of m attr = None) after).
  { intros val. unfold _extract_constraints.
    destruct (decide (attr ∈ constraint_attrs)) as [Hattr|Hattr].
    - rewrite (foldl_last_wins _ (fun meta => constraint_of meta attr) attr).
      + rewrite lookup_empty. split.
        * intros [Hex|[Hacc _]]; [auto|discriminate Hacc].
        * intros [_ Hex]. left. exact Hex.
      + intros acc meta. rewrite constraint_attr_step.
        now rewrite (bool_decide_eq_true_2 _ Hattr).
    - rewrite (foldl_last_wins _ (fun _ => None) attr).
      + rewrite lookup_empty. split.
        * intros [(_ & _ & _ & _ & Hno & _)|[Hacc _]]; discriminate.
        * intros [Hin _]. contradiction.
      + intros acc meta. rewrite constraint_attr_step.
        now rewrite (bool_decide_eq_false_2 _ Hattr). }
  split; [exact Hiff|].
  intros Hnone. apply Hiff in Hnone as (_ & _ & meta & _ & _ & Hmeta & _).
  unfold constraint_of in Hmeta.
  destruct (meta !! attr) as [v|]; [destruct v|]; discriminate.
Qed.

(** ** Type resolution and dispatch *)

(** X2: [_resolve_type] returns a descriptor for every annotation, and the
    descriptor carries at most one of the seven shape flags (list, set,
    dict, literal, enum, nested model, union): an optional wrapper copies
    the flag of its member and adds none of its own. *)
Theorem resolve_type_single_shape (a : type_annotation) :
  exists spec, _resolve_type a = Ok spec /\ one_shape spec.
Proof.
  destruct (_resolve_type_total a) as [spec Hspec].
  exists spec. split; [exact Hspec|]. exact (_resolve_type_one_shape a spec Hspec).
Qed.

Lemma filter_shorter {A} (p : A -> bool) (l : list A) :
  (length (List.filter p l) <? length l)%nat = true <->
  Exists (fun x => p x = false) l.
Proof.
  rewrite Nat.ltb_lt. induction l as [|x l IH]; simpl.
  - split; [lia|]. intros HE. inversion HE.
  - assert (Hle' : (length (List.filter p l) <= length l)%nat).
    { clear. induction l as [|y l IH]; simpl; [lia|]. destruct (p y); simpl; lia. }
    rewrite Exists_cons. destruct (p x) eqn:E; simpl.
    + rewrite <- IH. split; [lia|]. intros [?|?]; [congruence|lia].
    + split; [auto|lia].
Qed.

Lemma resolve_with_is_optional (resolved : outcome FieldSpec)
    (a : type_annotation) (spec : FieldSpec) :
  resolve_with resolved a = Ok spec ->
  is_optional spec
  = union_origin (get_origin a)
    && (length (non_none (get_args a)) <? length (get_args a))%nat.
Proof.
  unfold resolve_with, union_origin.
  assert (Hunion : forall s0,
    is_optional s0 = false ->
    resolve_union s0 (get_args a) resolved = Ok spec ->
    is_optional spec
    = (length (non_none (get_args a)) <? length (get_args a))%nat).
  { intros s0 Hs0. unfold resolve_union, non_none.
    destruct (_ =? 1)%nat.
    - destruct resolved as [inner|e]; simpl; [|discriminate].
      destruct (index _ 0) as [first|e]; simpl; [|discriminate].
      intros [= <-]. destruct (inner_type inner); reflexivity.
    - destruct (1 <? _)%nat; intros [= <-]; reflexivity. }
  destruct (is_union_type _); simpl; [now apply Hunion|].
  destruct (is_typing_union _); simpl; [now apply Hunion|].
  destruct (origin_is OList _).
  { destruct (if bool_decide _ then _ else _); simpl; intros [= <-]. reflexivity. }
  destruct (origin_is OSet _).
  { destruct (if bool_decide _ then _ else _); simpl; intros [= <-]. reflexivity. }
  destruct (origin_is ODict _).
  { destruct (if bool_decide _ then _ else _); simpl; [|discriminate].
    destruct (if (1 <? _)%nat then _ else _); simpl; intros [= <-]. reflexivity. }
  destruct (origin_is OLiteral _); [intros [= <-]; reflexivity|].
  intros [= <-].
  destruct (_is_enum_type a); [|destruct (_is_pydantic_model a)]; reflexivity.
Qed.

Lemma _resolve_type_unfold (a : type_annotation) :
  _resolve_type a
  = resolve_with match a with
                 | Generic _ args => on_first_non_none _resolve_type args
                 | _ => Raise IndexError
                 end a.
Proof. destruct a; reflexivity. Qed.

(** X3: A descriptor is flagged optional exactly when the annotation is a
    union, in either spelling, with [NoneType] among its arguments. *)
Theorem resolve_type_optional_iff (a : type_annotation) :
  exists spec, _resolve_type a = Ok spec /\
    (is_optional spec = true <->
     union_origin (get_origin a) = true /\
     Exists (fun arg => _is_none_type arg = true) (get_args a)).
Proof.
  destruct (_resolve_type_total a) as [spec Hspec].
  exists spec. split; [exact Hspec|].
  rewrite _resolve_type_unfold in Hspec.
  rewrite (resolve_with_is_optional _ _ _ Hspec), andb_true_iff.
  unfold non_none. rewrite filter_shorter.
  split; intros [Hu He]; (split; [exact Hu|]);
    (eapply Exists_impl; [exact He|]); intros x; simpl;
    destruct (_is_none_type x); simpl; congruence.
Qed.

Lemma non_none_all (args : list type_annotation) :
  Forall (fun arg => _is_none_type arg = false) args -> non_none args = args.
Proof.
  unfold non_none. induction 1 as [|x l Hx _ IH]; simpl; [reflexivity|].
  rewrite Hx. simpl. now rewrite IH.
Qed.

Lemma get_handler_optional (spec : FieldSpec) :
  is_optional spec = true ->
  get_handler TypeHandlerRegistry_new spec = Some OptionalHandler.
Proof. intros Hopt. unfold get_handler. simpl. now rewrite Hopt. Qed.

(** X4: Which handler the default registry selects for an annotation, through
    introspection: the handler of the class for a plain class (none for
    [NoneType] and for a class without handler), the list, set, dict and
    literal handlers for the parameterised forms, whatever their
    arguments; the optional handler for a union with [NoneType] among its
    arguments; the union handler for a union of two or more arguments
    without [NoneType]; none for a special form or a plain value. *)
Theorem default_registry_dispatch :
  (forall c, exists spec,
     _resolve_type (Plain c) = Ok spec /\
     get_handler TypeHandlerRegistry_new spec = handler_of_class c) /\
  (forall args, exists spec,
     _resolve_type (Generic OList args) = Ok spec /\
     get_handler TypeHandlerRegistry_new spec = Some ListHandler) /\
  (forall args, exists spec,
     _resolve_type (Generic OSet args) = Ok spec /\
     get_handler TypeHandlerRegistry_new spec = Some SetHandler) /\
  (forall args, exists spec,
     _resolve_type (Generic ODict args) = Ok spec /\
     get_handler TypeHandlerRegistry_new spec = Some DictHandler) /\
  (forall args, exists spec,
     _resolve_type (Generic OLiteral args) = Ok spec /\
     get_handler TypeHandlerRegistry_new spec = Some LiteralHandler) /\
  (forall o args,
     union_origin (Some o) = true ->
     Exists (fun arg => _is_none_type arg = true) args ->
     exists spec,
       _resolve_type (Generic o args) = Ok spec /\
       get_handler TypeHandlerRegistry_new spec = Some OptionalHandler) /\
  (forall o args,
     union_origin (Some o) = true ->
     Forall (fun arg => _is_none_type arg = false) args ->
     (2 <= length args)%nat ->
     exists spec,
       _resolve_type (Generic o args) = Ok spec /\
       union_types spec = args /\
       get_handler TypeHandlerRegistry_new spec = Some UnionHandler) /\
  (forall n, exists spec,
     _resolve_type (Special n) = Ok spec /\
     get_handler TypeHandlerRegistry_new spec = None) /\
  (forall v, exists spec,
     _resolve_type (Const v) = Ok spec /\
     get_handler TypeHandlerRegistry_new spec = None).
Proof.
  repeat split.
  - intros c. destruct c; eexists; split; reflexivity.
  - intros [|a args]; eexists; split; reflexivity.
  - intros [|a args]; eexists; split; reflexivity.
  - intros [|k [|v args]]; eexists; split; reflexivity.
  - intros args. eexists; split; reflexivity.
  - intros o args Hu Hnone.
    destruct (resolve_type_optional_iff (Generic o args)) as (spec & Hspec & Hopt).
    exists spec. split; [exact Hspec|].
    apply get_handler_optional, Hopt. split; assumption.
  - intros o args Hu Hall Hlen.
    assert (Hres : resolve_union
                     (set_args args (set_origin (Some o) (FieldSpec_new "")))
                     args (on_first_non_none _resolve_type args)
                   = Ok (set_union_types args
                           (set_is_union true
                              (set_is_optional false
                                 (set_args args
                                    (set_origin (Some o) (FieldSpec_new ""))))))).
    { unfold resolve_union. fold (non_none args). rewrite (non_none_all _ Hall).
      rewrite Nat.ltb_irrefl.
      destruct (length args =? 1)%nat eqn:E1; [apply Nat.eqb_eq in E1; lia|].
      destruct (1 <? length args)%nat eqn:E2; [reflexivity|].
      apply Nat.ltb_ge in E2. lia. }
    eexists. split; [|split].
    + cbn [_resolve_type]. unfold resolve_with. cbn [get_origin get_args].
      unfold union_origin in Hu.
      destruct (is_union_type (Some o)); [exact Hres|].
      cbn [orb] in Hu. rewrite Hu. exact Hres.
    + reflexivity.
    + reflexivity.
  - intros n. eexists; split; reflexivity.
  - intros v. eexists; split; reflexivity.
Qed.

Lemma default_registry_dispatch_witness :
  (exists spec,
     _resolve_type (Generic OUnionType [Plain CInt; Plain CNoneType]) = Ok spec /\
     get_handler TypeHandlerRegistry_new spec = Some OptionalHandler) /\
  (exists spec,
     _resolve_type (Generic OTypingUnion [Plain CInt; Plain CStr]) = Ok spec /\
     union_types spec = [Plain CInt; Plain CStr] /\
     get_handler TypeHandlerRegistry_new spec = Some UnionHandler).
Proof.
  destruct default_registry_dispatch
    as (_ & _ & _ & _ & _ & Hoptional & Hunion & _).
  split.
  - apply Hoptional; [reflexivity|].
    apply Exists_cons_tl, Exists_cons_hd. reflexivity.
  - apply Hunion; [reflexivity| |simpl; lia].
    repeat constructor.
Defined.

Lemma on_first_non_none_member {A} (rec : type_annotation -> outcome A)
    (args : list type_annotation) :
  on_first_non_none rec args
  = match non_none args with
    | member :: _ => rec member
    | [] => Raise IndexError
    end.
Proof.
  unfold non_none. induction args as [|a args IH]; simpl; [reflexivity|].
  destruct (_is_none_type a); simpl; [exact IH|reflexivity].
Qed.

Lemma resolve_type_without_inner_type (a : type_annotation) (spec : FieldSpec) :
  _resolve_type a = Ok spec -> inner_type spec = None ->
  exists o args, a = Generic o args.
Proof.
  destruct a as [c|n|v|o args]; [destruct c|..]; simpl;
    try (intros [= <-]; discriminate).
  eauto.
Qed.

(** On the default registry the selection looks at the shape flags and
    at the class of the inner type only. *)
Lemma get_handler_default_ext (s1 s2 : FieldSpec) :
  is_optional s1 = is_optional s2 -> is_union s1 = is_union s2 ->
  is_list s1 = is_list s2 -> is_set s1 = is_set s2 -> is_dict s1 = is_dict s2 ->
  is_enum s1 = is_enum s2 -> is_literal s1 = is_literal s2 ->
  is_pydantic_model s1 = is_pydantic_model s2 ->
  (forall c, inner_type_is c s1 = inner_type_is c s2) ->
  get_handler TypeHandlerRegistry_new s1 = get_handler TypeHandlerRegistry_new s2.
Proof.
  intros Hopt Hunion Hlist Hset Hdict Henum Hlit Hmodel Hinner.
  unfold get_handler, TypeHandlerRegistry_new, _handlers, first_handler, can_handle.
  rewrite Hopt, Hunion, Hlist, Hset, Hdict, Henum, Hlit, Hmodel, !Hinner.
  reflexivity.
Qed.

Lemma resolve_union_member (s0 : FieldSpec) (args : list type_annotation)
    (member : type_annotation) (resolved : FieldSpec) :
  non_none args = [member] ->
  resolve_union s0 args (Ok resolved)
  = Ok (let spec := set_is_optional (length [member] <? length args)%nat s0 in
        let spec := set_inner_type (Some member) spec in
        let spec := set_is_enum (is_enum resolved) spec in
        let spec := set_is_literal (is_literal resolved) spec in
        let spec := set_is_pydantic_model (is_pydantic_model resolved) spec in
        let spec := set_is_list (is_list resolved) spec in
        let spec := set_is_set (is_set resolved) spec in
        let spec := set_is_dict (is_dict resolved) spec in
        let spec := set_union_types (union_types resolved) spec in
        let spec := set_is_union (is_union resolved) spec in
        let spec := set_key_type (key_type resolved) spec in
        let spec := set_value_type (value_type resolved) spec in
        match inner_type resolved with
        | Some t => set_inner_type (Some t) spec
        | None => spec
        end).
Proof.
  intros Hmember. unfold resolve_union. fold (non_none args). rewrite Hmember.
  reflexivity.
Qed.

(** X5: For a union with a single argument that is not [NoneType] - the
    optional form [X | None] - the handler the optional gate delegates
    to, on the default registry, is the handler of [X] itself. *)
Theorem optional_gate_delegates_to_member (o : type_origin)
    (args : list type_annotation) (member : type_annotation)
    (resolved : FieldSpec)
    (Hunion : union_origin (Some o) = true)
    (Hmember : non_none args = [member])
    (Hresolved : _resolve_type member = Ok resolved)
    (Hplain : is_optional resolved = false) :
  exists spec,
    _resolve_type (Generic o args) = Ok spec /\
    get_handler TypeHandlerRegistry_new (OptionalHandler_inner_spec spec)
    = get_handler TypeHandlerRegistry_new resolved.
Proof.
  assert (Hres : forall s0,
            exists spec,
              resolve_union s0 args (on_first_non_none _resolve_type args) = Ok spec /\
              get_handler TypeHandlerRegistry_new (OptionalHandler_inner_spec spec)
              = get_handler TypeHandlerRegistry_new resolved).
  { intros s0. rewrite on_first_non_none_member, Hmember, Hresolved.
    rewrite (resolve_union_member _ _ _ _ Hmember).
    eexists. split; [reflexivity|].
    apply get_handler_default_ext;
      try (destruct (inner_type resolved); reflexivity).
    - destruct (inner_type resolved); symmetry; exact Hplain.
    - intros c. unfold inner_type_is.
      destruct (inner_type resolved) as [t|] eqn:Et; cbn; [reflexivity|].
      destruct (resolve_type_without_inner_type _ _ Hresolved Et) as (o' & args' & ->).
      reflexivity. }
  cbn [_resolve_type]. unfold resolve_with. cbn [get_origin get_args].
  unfold union_origin in Hunion.
  destruct (is_union_type (Some o)); [apply Hres|].
  cbn [orb] in Hunion. rewrite Hunion. apply Hres.
Qed.

Lemma optional_gate_delegates_to_member_witness :
  exists spec,
    _resolve_type (Generic OUnionType [Plain CInt; Plain CNoneType]) = Ok spec /\
    get_handler TypeHandlerRegistry_new (OptionalHandler_inner_spec spec)
    = Some IntHandler.
Proof.
  apply (optional_gate_delegates_to_member OUnionType
           [Plain CInt; Plain CNoneType] (Plain CInt)
           (set_inner_type (Some (Plain CInt)) (FieldSpec_new "")));
    reflexivity.
Defined.

(** ** Introspection of a model class *)

Lemma introspect_field_annotated (field_name : string) (field_info : FieldInfo.t)
    (a : type_annotation) :
  FieldInfo.annotation field_info = Some a ->
  exists spec, introspect_field field_name field_info = Ok (Some spec) /\
    name spec = field_name /\ annotation spec = Some a.
Proof.
  intros Ha. unfold introspect_field. rewrite Ha.
  destruct (_resolve_type_total a) as [resolved ->]. simpl.
  eexists. split; [reflexivity|].
  destruct (FieldInfo.default field_info), (FieldInfo.default_factory field_info),
    (FieldInfo.init field_info) as [[|]|], (FieldInfo.frozen field_info) as [[|]|];
    cbn; destruct (is_optional resolved), (is_required resolved);
    split; reflexivity.
Qed.

(** X6: [introspect_model] never raises; it returns one descriptor for every
    field that carries an annotation, in the order of [model_fields], each
    with the name and the annotation of its field; a field without
    annotation is skipped. *)
Theorem introspect_model_fields (model_class : BaseModelClass) :
  exists specs,
    introspect_model model_class = Ok specs /\
    map name specs = map fst (annotated_fields model_class) /\
    map annotation specs
    = map (fun f => FieldInfo.annotation (snd f)) (annotated_fields model_class).
Proof.
  unfold introspect_model, annotated_fields.
  induction (model_fields model_class) as [|[n fi] fields (specs & Hspecs & Hn & Ha)].
  - exists []. repeat split.
  - cbn [introspect_fields List.filter snd]. rewrite Hspecs.
    destruct (FieldInfo.annotation fi) as [a|] eqn:Efi.
    + destruct (introspect_field_annotated n fi a Efi) as (spec & -> & Hname & Hann).
      exists (spec :: specs). split; [reflexivity|].
      rewrite bool_decide_eq_true_2 by eauto.
      cbn [map fst snd]. rewrite Hn, Ha, Hname, Hann, Efi. split; reflexivity.
    + assert (Hf : introspect_field n fi = Ok None)
        by (unfold introspect_field; now rewrite Efi).
      rewrite Hf. exists specs. split; [reflexivity|].
      rewrite bool_decide_eq_false_2 by (intros [? ?]; discriminate).
      split; assumption.
Qed.

Lemma introspect_field_defaults (field_name : string) (field_info : FieldInfo.t)
    (a : type_annotation) (resolved : FieldSpec) :
  FieldInfo.annotation field_info = Some a ->
  _resolve_type a = Ok resolved ->
  exists spec, introspect_field field_name field_info = Ok (Some spec) /\
    name spec = field_name /\
    is_optional spec = is_optional resolved /\
    (is_required spec = true <->
     FieldInfo.default field_info = VUndefined /\
     FieldInfo.default_factory field_info = None /\
     is_optional resolved = false) /\
    default spec
    = match FieldInfo.default field_info with
      | VUndefined =>
          match FieldInfo.default_factory field_info with
          | Some _ => VUndefined
          | None => if is_optional resolved then VNone else VUndefined
          end
      | declared => declared
      end /\
    default_factory spec
    = match FieldInfo.default field_info with
      | VUndefined => FieldInfo.default_factory field_info
      | _ => None
      end /\
    (is_init spec = false <->
     FieldInfo.init field_info = Some false \/
     FieldInfo.frozen field_info = Some true) /\
    constraints spec = _extract_constraints field_info /\
    description spec = FieldInfo.description field_info.
Proof.
  intros Ha Hres. unfold introspect_field. rewrite Ha, Hres.
  destruct (_resolve_type_defaults _ _ Hres) as (Hreq & Hdef & Hfac).
  assert (Hinit : is_init resolved = true).
  { clear -Hres. destruct a; simpl in Hres; unfold resolve_with, resolve_union in Hres;
      outcome_cases; reflexivity. }
  simpl. eexists. split; [reflexivity|].
  destruct (FieldInfo.default field_info) eqn:Ed,
    (FieldInfo.default_factory field_info) eqn:Ef,
    (FieldInfo.init field_info) as [[|]|] eqn:Ei,
    (FieldInfo.frozen field_info) as [[|]|] eqn:Efr;
    cbn; rewrite ?Hreq, ?Hdef, ?Hfac, ?Hinit;
    destruct (is_optional resolved) eqn:Eo; cbn;
    rewrite ?Hreq, ?Hdef, ?Hfac, ?Hinit, ?Eo; cbn;
    repeat split; try reflexivity; try assumption;
    try discriminate; try (intros (? & ? & ?); discriminate);
    try (intros [?|?]; discriminate); auto;
    try (intros _; right; reflexivity); try (intros _; left; reflexivity).
Qed.

(** X7: How [introspect_model] fills in the defaults of an annotated field:
    the field is required exactly when it declares neither a default nor
    a default factory and its type is not optional; a declared default is
    kept (and then the factory is not recorded); without default and
    factory an optional field gets the default [None]; the field is
    excluded from initialisation exactly when it is declared with
    [init=False] or frozen. *)
Theorem introspect_model_defaults (model_class : BaseModelClass)
    (field_name : string) (field_info : FieldInfo.t) (a : type_annotation)
    (Hfield : (field_name, field_info) ∈ model_fields model_class)
    (Hannotation : FieldInfo.annotation field_info = Some a) :
  exists specs spec resolved,
    introspect_model model_class = Ok specs /\ spec ∈ specs /\
    name spec = field_name /\
    _resolve_type a = Ok resolved /\
    is_optional spec = is_optional resolved /\
    (is_required spec = true <->
     FieldInfo.default field_info = VUndefined /\
     FieldInfo.default_factory field_info = None /\
     is_optional resolved = false) /\
    default spec
    = match FieldInfo.default field_info with
      | VUndefined =>
          match FieldInfo.default_factory field_info with
          | Some _ => VUndefined
          | None => if is_optional resolved then VNone else VUndefined
          end
      | declared => declared
      end /\
    default_factory spec
    = match FieldInfo.default field_info with
      | VUndefined => FieldInfo.default_factory field_info
      | _ => None
      end /\
    (is_init spec = false <->
     FieldInfo.init field_info = Some false \/
     FieldInfo.frozen field_info = Some true) /\
    constraints spec = _extract_constraints field_info /\
    description spec = FieldInfo.description field_info.
Proof.
  destruct (_resolve_type_total a) as [resolved Hres].
  destruct (introspect_field_defaults field_name field_info a resolved
              Hannotation Hres) as (spec & Hspec & Hprops).
  destruct (introspect_fields_elem _ _ _ _ Hfield Hspec) as (specs & Hspecs & Hin).
  exists specs, spec, resolved.
  split; [exact Hspecs|]. split; [exact Hin|].
  destruct Hprops as (Hname & Hrest).
  split; [exact Hname|]. split; [exact Hres|]. exact Hrest.
Qed.

Lemma introspect_model_defaults_witness :
  exists specs spec,
    introspect_model Profile = Ok specs /\ spec ∈ specs /\
    name spec = "nickname" /\ is_required spec = false /\ default spec = VNone.
Proof.
  destruct (introspect_model_defaults Profile "nickname"
              {| FieldInfo.annotation :=
                   Some (Generic OUnionType [Plain CStr; Plain CNoneType]);
                 FieldInfo.default := VUndefined;
                 FieldInfo.default_factory := None;
                 FieldInfo.description := None;
                 FieldInfo.metadata := [];
                 FieldInfo.init := None;
                 FieldInfo.frozen := None |}
              (Generic OUnionType [Plain CStr; Plain CNoneType]))
    as (specs & spec & resolved & Hspecs & Hin & Hname & Hres & Hopt & Hreq
        & Hdef & _).
  - apply list_elem_of_here.
  - reflexivity.
  - exists specs, spec. split; [exact Hspecs|]. split; [exact Hin|].
    split; [exact Hname|].
    injection Hres as <-. simpl in *. split; [|exact Hdef].
    destruct (is_required spec); [|reflexivity].
    destruct Hreq as [Hreq _]. destruct (Hreq eq_refl) as (_ & _ & Habs).
    discriminate Habs.
Defined.

(** ** The keys of the map [prompt_model] returns *)

Section PromptModelKeys.
Context `{PyRuntime}.
Variable handler_prompt :
  Handler -> FieldSpec -> pyobj -> option TypeHandlerRegistry -> M pyobj.

Lemma prompt_fields_keys (specs : list FieldSpec) (defaults : gmap string pyobj)
    (path : string) (registry : TypeHandlerRegistry) :
  forall (result result' : gmap string pyobj) (t t' : terminal),
    prompt_fields handler_prompt specs defaults path registry result t
    = Returned result' t' ->
    dom result' = dom result ∪ list_to_set (init_names specs).
Proof.
  unfold init_names.
  induction specs as [|spec specs IH]; intros result result' t t'; simpl.
  - intros [= <- _]. set_solver.
  - destruct (is_init spec); simpl.
    + unfold mbind at 1, M_bind.
      destruct (lift (effective_default_of defaults spec) t)
        as [effective_default t1|e t1|t1]; try discriminate.
      unfold mbind at 1, M_bind.
      destruct (_call_handler handler_prompt (handler_for registry spec) spec
                  effective_default registry path t1)
        as [value t2|e t2|t2]; try discriminate.
      intros Hrest. rewrite (IH _ _ _ _ Hrest), dom_insert_L. set_solver.
    + apply IH.
Qed.

(** X8: When [prompt_model] returns, the map it returns has an entry exactly
    for the descriptors of the model that take part in initialisation: a
    field declared with [init=False] or frozen gets no entry, every other
    annotated field gets one. *)
Theorem prompt_model_keys (model_class : BaseModelClass)
    (defaults : option (gmap string pyobj)) (path : string)
    (registry : option TypeHandlerRegistry) (t t' : terminal)
    (result : gmap string pyobj)
    (Hreturned : prompt_model handler_prompt model_class defaults path registry t
                 = Returned result t') :
  exists specs,
    introspect_model model_class = Ok specs /\
    dom result = list_to_set (init_names specs).
Proof.
  unfold prompt_model in Hreturned. unfold mbind at 1, M_bind in Hreturned.
  destruct (introspect_model model_class) as [specs|e]; simpl in Hreturned;
    [|discriminate].
  exists specs. split; [reflexivity|].
  rewrite (prompt_fields_keys _ _ _ _ _ _ _ _ Hreturned). set_solver.
Qed.

End PromptModelKeys.

Lemma prompt_model_keys_witness :
  exists specs,
    introspect_model Sentinel = Ok specs /\
    dom ({["label" := VNone]} : gmap string pyobj) = list_to_set (init_names specs).
Proof.
  apply (@prompt_model_keys plain_runtime default_prompt Sentinel None "" None
           (Terminal [] [] [])
           (Terminal [] [] [CalledPrompt StrHandler sentinel_spec VNone None])).
  reflexivity.
Defined.

(** ** What [_prepare_value] returns *)

Section Prepared.
Context `{PyRuntime}.

Lemma forallb_Permutation {A} (p : A -> bool) (l1 l2 : list A) :
  l1 ≡ₚ l2 -> forallb p l1 = forallb p l2.
Proof.
  induction 1 as [|x l1 l2 _ IH|x y l|l1 l2 l3 _ IH1 _ IH2]; simpl.
  - reflexivity.
  - now rewrite IH.
  - destruct (p x), (p y); reflexivity.
  - now rewrite IH1.
Qed.

Lemma enum_values_prepared_dump (v : pyobj) :
  enum_values_prepared (dump v) = enum_values_prepared v.
Proof.
  induction v as [| |b|n|f|s|d|c m v IHv|dt|t|td|l IHl|l IHl|l IHl|kv IHkv|c fs IHfs]
    using pyobj_nested_ind; simpl; try reflexivity.
  - induction IHl as [|x l Hx _ IH]; simpl; [reflexivity|]. now rewrite Hx, IH.
  - induction IHl as [|x l Hx _ IH]; simpl; [reflexivity|]. now rewrite Hx, IH.
  - induction IHl as [|x l Hx _ IH]; simpl; [reflexivity|]. now rewrite Hx, IH.
  - induction IHkv as [|[k x] kv [_ Hx] _ IH]; simpl in *; [reflexivity|].
    now rewrite Hx, IH.
  - induction IHfs as [|[k x] fs Hx _ IH]; simpl in *; [reflexivity|].
    now rewrite Hx, IH.
Qed.

Lemma _prepare_value_upto_prepared (depth : nat) :
  forall v r, _prepare_value_upto depth v = Some r ->
              enum_values_prepared v = true -> prepared r = true.
Proof.
  induction depth as [|depth IH]; intros v r Hr Hv; [discriminate Hr|].
  assert (Hlist : forall l l' : list pyobj,
            mapM (_prepare_value_upto depth) l = Some l' ->
            forallb enum_values_prepared l = true -> forallb prepared l' = true).
  { intros l l' Hl. apply mapM_Some in Hl.
    induction Hl as [|x y l l' Hxy _ IHl]; simpl; [reflexivity|].
    rewrite !andb_true_iff. intros [Hx Hrest]. split; [|now apply IHl].
    exact (IH _ _ Hxy Hx). }
  assert (Hdict : forall (kv kv' : list (pyobj * pyobj)),
            mapM (fun e => v ← _prepare_value_upto depth (snd e); Some (fst e, v)) kv
            = Some kv' ->
            forallb (fun e => enum_values_prepared (snd e)) kv = true ->
            forallb (fun e => prepared (snd e)) kv' = true).
  { intros kv kv' Hkv. apply mapM_Some in Hkv.
    induction Hkv as [|[k x] [k' y] kv kv' Hxy _ IHkv]; simpl; [reflexivity|].
    rewrite !andb_true_iff. intros [Hx Hrest]. split; [|now apply IHkv].
    simpl in Hxy. destruct (_prepare_value_upto depth x) as [y'|] eqn:Ey;
      simpl in Hxy; [|discriminate]. injection Hxy as _ <-.
    exact (IH _ _ Ey Hx). }
  destruct v as [| |b|n|f|s|d|c m v|dt|t|td|l|l|l|kv|c fs]; simpl in Hr, Hv;
    try (injection Hr as <-; first [reflexivity | exact Hv]).
  - destruct (mapM _ l) as [l'|] eqn:El; simpl in Hr; [|discriminate].
    injection Hr as <-. simpl. exact (Hlist _ _ El Hv).
  - destruct (mapM _ l) as [l'|] eqn:El; simpl in Hr; [|discriminate].
    injection Hr as <-. simpl. exact (Hlist _ _ El Hv).
  - destruct (mapM _ (sorted py_str l)) as [l'|] eqn:El; simpl in Hr; [|discriminate].
    injection Hr as <-. simpl. apply (Hlist _ _ El).
    now rewrite (forallb_Permutation _ _ _ (sorted_Permutation py_str l)).
  - destruct (mapM _ kv) as [kv'|] eqn:Ekv; simpl in Hr; [|discriminate].
    injection Hr as <-. simpl. exact (Hdict _ _ Ekv Hv).
  - destruct (mapM _ _) as [kv'|] eqn:Ekv; simpl in Hr; [|discriminate].
    injection Hr as <-. simpl. apply (Hdict _ _ Ekv).
    rewrite <- Hv. clear. induction fs as [|[k x] fs IHfs]; simpl; [reflexivity|].
    rewrite IHfs. f_equal. apply enum_values_prepared_dump.
Qed.

(** X9: [_prepare_value] leaves no model instance, tuple, set, decimal, enum
    member, date-time, time or duration in what it returns, provided the
    value of every enum member in its argument is itself free of them
    (the function returns [member.value] without going into it). *)
Theorem prepare_value_prepared (v : pyobj)
    (Henums : enum_values_prepared v = true) :
  exists r, _prepare_value v = Some r /\ prepared r = true.
Proof.
  destruct (_prepare_value_total v) as [r Hr]. exists r. split; [exact Hr|].
  exact (_prepare_value_upto_prepared _ _ _ Hr Henums).
Qed.

Lemma _prepare_value_upto_fixed (depth : nat) :
  forall v, prepared v = true -> (depth_of v < depth)%nat ->
            _prepare_value_upto depth v = Some v.
Proof.
  induction depth as [|depth IH]; intros v Hv Hd; [lia|].
  destruct v as [| |b|n|f|s|d|c m v|dt|t|td|l|l|l|kv|c fs]; simpl in Hv, Hd |- *;
    try reflexivity; try discriminate Hv.
  - assert (Hl : mapM (_prepare_value_upto depth) l = Some l).
    { apply mapM_Some. apply Forall2_same_length_lookup_2; [reflexivity|].
      intros i x y Hx Hy. rewrite Hx in Hy. injection Hy as <-.
      apply IH.
      - rewrite forallb_forall in Hv. apply Hv.
        apply list_elem_of_In, (list_elem_of_lookup_2 _ _ _ Hx).
      - pose proof (depth_le_max depth_of l x (list_elem_of_lookup_2 _ _ _ Hx)). lia. }
    rewrite Hl. reflexivity.
  - assert (Hkv : mapM (fun e => v ← _prepare_value_upto depth (snd e);
                                 Some (fst e, v)) kv = Some kv).
    { apply mapM_Some. apply Forall2_same_length_lookup_2; [reflexivity|].
      intros i [k x] y Hx Hy. rewrite Hx in Hy. injection Hy as <-. simpl.
      rewrite IH; [reflexivity| |].
      - rewrite forallb_forall in Hv.
        apply (Hv (k, x)), list_elem_of_In, (list_elem_of_lookup_2 _ _ _ Hx).
      - pose proof (depth_le_max (fun e => depth_of (snd e)) kv (k, x)
                      (list_elem_of_lookup_2 _ _ _ Hx)). simpl in *. lia. }
    rewrite Hkv. reflexivity.
Qed.

(** X10: On a value that holds none of those objects [_prepare_value] changes
    nothing; so preparing twice is the same as preparing once. *)
Theorem prepare_value_idempotent (v : pyobj)
    (Henums : enum_values_prepared v = true) :
  exists r, _prepare_value v = Some r /\ _prepare_value r = Some r.
Proof.
  destruct (prepare_value_prepared v Henums) as (r & Hr & Hprepared).
  exists r. split; [exact Hr|].
  apply _prepare_value_upto_fixed; [exact Hprepared|]. lia.
Qed.

Lemma depth_of_Permutation (l1 l2 : list pyobj) :
  l1 ≡ₚ l2 ->
  foldr Nat.max O (map depth_of l1) = foldr Nat.max O (map depth_of l2).
Proof. induction 1; simpl; lia. Qed.

(** X11: The sequence [_prepare_value] writes for a set does not depend on the
    order in which the set hands out its elements, provided no two
    elements have the same text form. *)
Theorem prepare_value_set_order_independent (l1 l2 : list pyobj)
    (Hsame : l1 ≡ₚ l2)
    (Hkeys : forall x y, x ∈ l1 -> y ∈ l1 -> py_str x = py_str y -> x = y) :
  _prepare_value (VSet l1) = _prepare_value (VSet l2) /\
  exists items, _prepare_value (VSet l1) = Some (VList items) /\
                length items = length l1.
Proof.
  assert (Heq : _prepare_value (VSet l1) = _prepare_value (VSet l2)).
  { unfold _prepare_value. cbn [depth_of].
    rewrite (depth_of_Permutation _ _ Hsame).
    cbn [_prepare_value_upto].
    now rewrite (sorted_order_independent py_str l1 l2 Hsame Hkeys). }
  split; [exact Heq|].
  destruct (_prepare_value_total (VSet l1)) as [r Hr]. rewrite Hr.
  unfold _prepare_value in Hr. cbn [depth_of _prepare_value_upto] in Hr.
  destruct (mapM _ (sorted py_str l1)) as [items|] eqn:Ei; simpl in Hr; [|discriminate].
  injection Hr as <-. exists items. split; [reflexivity|].
  apply length_mapM in Ei. rewrite <- Ei.
  apply Permutation_length. apply sorted_Permutation.
Qed.

(** X12: For a scalar of a handler's own type, what the handler's [serialize]
    returns is what [_prepare_value] writes. *)
Theorem serialize_agrees_with_prepare_value (handler : Handler) (v : pyobj)
    (Hscalar : scalar_of handler v = true) :
  exists raw, serialize handler v = Ok raw /\ _prepare_value v = Some raw.
Proof.
  destruct handler, v; try discriminate Hscalar; eexists; split; reflexivity.
Qed.

End Prepared.

(** ** display.py: truncation and the default shown *)

Lemma length_append (s1 s2 : string) :
  String.length (s1 +:+ s2) = (String.length s1 + String.length s2)%nat.
Proof. induction s1 as [|c s1 IH]; simpl; [reflexivity|]. now rewrite IH. Qed.

Lemma length_substring_0 (n : nat) (s : string) :
  String.length (substring 0 n s) = Nat.min n (String.length s).
Proof.
  revert n. induction s as [|c s IH]; intros [|n]; simpl; try reflexivity.
  now rewrite IH.
Qed.

(** X13: [_truncate] returns a string of at most [max_len] characters whenever
    [max_len] is at least 3, as it is at both call sites (80 and 50): the
    string itself when it fits, otherwise its first [max_len - 3]
    characters followed by three dots. *)
Theorem truncate_fits (s : string) (max_len : Z) (Hmax : (3 <= max_len)%Z) :
  (Z.of_nat (String.length (_truncate s max_len)) <= max_len)%Z /\
  ((Z.of_nat (String.length s) <= max_len)%Z -> _truncate s max_len = s) /\
  ((max_len < Z.of_nat (String.length s))%Z ->
   _truncate s max_len = substring 0 (Z.to_nat (max_len - 3)) s +:+ "..." /\
   Z.of_nat (String.length (_truncate s max_len)) = max_len).
Proof.
  unfold _truncate.
  destruct (Z.leb_spec (Z.of_nat (String.length s)) max_len) as [Hfit|Hlong].
  - split; [exact Hfit|]. split; [reflexivity|]. lia.
  - assert (Hslice : slice_to s (max_len - 3)
                     = substring 0 (Z.to_nat (max_len - 3)) s).
    { unfold slice_to.
      destruct (Z.ltb_spec (max_len - 3) 0) as [?|_]; [lia|].
      now rewrite Z.min_l by lia. }
    rewrite Hslice, length_append, length_substring_0. simpl.
    split; [lia|]. split; [lia|]. intros _. split; [reflexivity|]. lia.
Qed.

Lemma truncate_fits_witness :
  _truncate "a description that is too long" 10 = "a descr...".
Proof.
  destruct (truncate_fits "a description that is too long" 10) as (_ & _ & Hlong);
    [lia|].
  destruct Hlong as [Heq _]; [simpl; lia|]. exact Heq.
Defined.

Section FormatDefault.
Context `{PyRuntime}.
Variable repr : pyobj -> string.

(** X14: For a field without default factory and without supplied default,
    [prompt_model] offers an effective default, and the default that the
    schema and the field header display is its text: the declared default
    when the field has one that both functions take as defined, [None]
    otherwise ([repr(None)] being ["None"]).  Neither function calls
    anything of the field here; with a default factory each of them makes
    a call of its own, which the statement leaves out. *)
Theorem format_default_shows_effective_default (spec : FieldSpec)
    (Hnone : repr VNone = "None")
    (Hfactory : default_factory spec = None) :
  exists v,
    effective_default_of ∅ spec = Ok v /\
    _format_default repr spec = repr v /\
    (v = default spec \/ v = VNone).
Proof.
  unfold effective_default_of, _format_default.
  rewrite lookup_empty, Hfactory. simpl.
  destruct (negb (is_None (default spec))
            && negb (String.eqb (py_str (default spec)) "PydanticUndefined")).
  - exists (default spec). auto.
  - exists VNone. rewrite Hnone. auto.
Qed.

End FormatDefault.

(** ** serialization.py: the class a document names *)

Lemma rsplit_dot_None (l : text) : "."%char ∉ l -> rsplit_dot l = None.
Proof.
  induction l as [|c l IH]; intros Hdot; simpl; [reflexivity|].
  rewrite IH by (intros Hin; apply Hdot; now apply list_elem_of_further).
  destruct (Ascii.eqb_spec c "."%char) as [->|_]; [|reflexivity].
  destruct Hdot. apply list_elem_of_here.
Qed.

Lemma rsplit_dot_app (head tail : text) :
  "."%char ∉ tail -> rsplit_dot (head ++ "."%char :: tail) = Some (head, tail).
Proof.
  intros Hdot. induction head as [|c head IH]; simpl.
  - now rewrite (rsplit_dot_None _ Hdot).
  - now rewrite IH.
Qed.

Lemma list_ascii_of_string_append (s1 s2 : string) :
  list_ascii_of_string (s1 +:+ s2)
  = list_ascii_of_string s1 ++ list_ascii_of_string s2.
Proof. induction s1 as [|c s1 IH]; simpl; [reflexivity|]. now rewrite IH. Qed.

Lemma rpartition_dot_join (head tail : string) :
  "."%char ∉ list_ascii_of_string tail ->
  rpartition_dot (head +:+ "." +:+ tail) = (head, ".", tail).
Proof.
  intros Hdot. unfold rpartition_dot.
  rewrite !list_ascii_of_string_append. simpl.
  rewrite (rsplit_dot_app _ _ Hdot), !string_of_list_ascii_of_string.
  reflexivity.
Qed.

Section YamlDocument.
Context `{PyRuntime}.
Variable import_module : string -> gmap string module_attr + exception.
Variable _get_package_version : string.

(** X15: Reading back the document that [serialize_to_yaml] dumps gives the
    model name it was given, the prepared data, and a class name that
    [resolve_config_class] resolves to the class the document was written
    for - when that class is a model class bound to its own name in its
    module, and the name has no dot (a class nested in another one is
    looked for in a module that bears the outer class's name). *)
Theorem yaml_document_names_its_class (data : list (pyobj * pyobj))
    (config_class : class_object) (model_name : string)
    (model : BaseModelClass) (namespace : gmap string module_attr)
    (Hmodel : as_model config_class = Some model)
    (Htoplevel : "."%char ∉ list_ascii_of_string (__qualname__ config_class))
    (Hmodule : import_module (__module__ config_class) = inl namespace)
    (Hbound : namespace !! __qualname__ config_class = Some (AttrClass config_class)) :
  exists document configuration,
    serialize_to_yaml _get_package_version data config_class model_name
    = Some document /\
    _prepare_dict data = Some configuration /\
    load_from_yaml document
    = inl (VStr model_name, VStr (config_fqn config_class), configuration) /\
    resolve_config_class import_module (config_fqn config_class)
    = inl config_class.
Proof.
  destruct (_prepare_value_total (VDict data)) as [configuration Hconf].
  fold (_prepare_dict data) in Hconf.
  unfold serialize_to_yaml. rewrite Hconf. cbn [mbind option_bind].
  eexists _, configuration. split; [reflexivity|]. split; [reflexivity|].
  split; [reflexivity|].
  unfold resolve_config_class, config_fqn.
  rewrite (rpartition_dot_join _ _ Htoplevel), Hmodule, Hbound, Hmodel.
  reflexivity.
Qed.

End YamlDocument.

(** ** The prompts of the handlers *)

Lemma W_bind_Done {A B} (m : Wizard.W A) (k : A -> Wizard.W B)
    (c c' : Wizard.console) (b : B) :
  (m ≫= k) c = Wizard.Done b c' <->
  exists a c1, m c = Wizard.Done a c1 /\ k a c1 = Wizard.Done b c'.
Proof.
  unfold mbind, Wizard.W_bind. split.
  - destruct (m c) as [a c1|e c1|c1]; try discriminate. eauto.
  - intros (a & c1 & -> & Hk). exact Hk.
Qed.

(** What [first_accepted] hands back was accepted by the validator, and
    nothing is handed back without an answer unless the operator
    interrupts. *)
Lemma first_accepted_Some (validate : string -> outcome Wizard.verdict)
    (default : string) (replies rest : list text_answer) (r : option string) :
  Wizard.first_accepted validate default replies = Some (Ok r, rest) ->
  match r with
  | Some s => validate s = Ok Wizard.Accepted
  | None => InterruptText ∈ replies
  end.
Proof.
  induction replies as [|reply replies IH]; simpl; [discriminate|].
  assert (Hstep : forall submitted,
            match validate submitted with
            | Ok Wizard.Accepted => Some (Ok (Some submitted), replies)
            | Ok (Wizard.Rejected _) =>
                Wizard.first_accepted validate default replies
            | Raise e => Some (Raise e, replies)
            end = Some (Ok r, rest) ->
            match r with
            | Some s => validate s = Ok Wizard.Accepted
            | None => InterruptText ∈ reply :: replies
            end).
  { intros submitted. destruct (validate submitted) as [[|message]|e] eqn:Ev.
    - intros [= <- _]. exact Ev.
    - intros Hrest. specialize (IH Hrest). destruct r; [exact IH|].
      now apply list_elem_of_further.
    - discriminate. }
  destruct reply as [s| |].
  - apply Hstep.
  - apply Hstep.
  - intros [= <- _]. apply list_elem_of_here.
Qed.

Lemma questionary_text_Done (message default : string)
    (validate : string -> outcome Wizard.verdict) (c c' : Wizard.console)
    (r : option string) :
  Wizard.questionary_text message default validate c = Wizard.Done r c' ->
  match r with
  | Some s => validate s = Ok Wizard.Accepted
  | None => InterruptText ∈ Wizard.text_replies c
  end.
Proof.
  unfold Wizard.questionary_text. simpl.
  destruct (Wizard.first_accepted validate default (Wizard.text_replies c))
    as [[[r'|e] rest]|] eqn:E; try discriminate.
  intros [= <- _]. exact (first_accepted_Some _ _ _ _ _ E).
Qed.

(** *** White space *)

Lemma lstrip_no_leading_space (l : text) : no_leading_space (lstrip l).
Proof.
  induction l as [|c l IH]; simpl; [exact I|].
  destruct (isspace c) eqn:E; [exact IH|exact E].
Qed.

Lemma lstrip_fixed (l : text) : no_leading_space l -> lstrip l = l.
Proof. destruct l as [|c l]; simpl; [reflexivity|]. now intros ->. Qed.

Lemma lstrip_suffix (l : text) :
  exists spaces, l = spaces ++ lstrip l.
Proof.
  induction l as [|c l [spaces IH]]; simpl; [now exists []|].
  destruct (isspace c); [|now exists []].
  exists (c :: spaces). simpl. now rewrite <- IH.
Qed.

Lemma strip_text_fixed (l : text) :
  no_leading_space l -> no_leading_space (rev l) -> strip_text l = l.
Proof.
  intros Hl Hr. unfold strip_text.
  now rewrite (lstrip_fixed l Hl), (lstrip_fixed _ Hr), rev_involutive.
Qed.

Lemma strip_text_idempotent (l : text) : strip_text (strip_text l) = strip_text l.
Proof.
  apply strip_text_fixed.
  - unfold strip_text.
    pose proof (lstrip_no_leading_space l) as Ha.
    destruct (lstrip_suffix (rev (lstrip l))) as [spaces Hs].
    apply (f_equal (@rev ascii)) in Hs. rewrite rev_involutive, rev_app_distr in Hs.
    destruct (rev (lstrip (rev (lstrip l)))) as [|x r]; [exact I|].
    rewrite Hs in Ha. exact Ha.
  - unfold strip_text. rewrite rev_involutive. apply lstrip_no_leading_space.
Qed.

Lemma strip_idempotent (s : string) : strip (strip s) = strip s.
Proof.
  unfold strip. rewrite list_ascii_of_string_of_list_ascii.
  now rewrite strip_text_idempotent.
Qed.

Section HandlerPrompts.
Context `{PyRuntime}.

(** X16: [StrHandler.prompt] never raises, on any descriptor, default and
    run of the operator's replies; and whenever it returns, the text it
    returns has no white space at either end, and for a required field
    it is not empty unless the operator interrupts the prompt. *)
Theorem StrHandler_prompt_stripped (spec : FieldSpec) (default : pyobj)
    (c : Wizard.console) :
  (forall e c', Wizard.StrHandler_prompt spec default c <> Wizard.Failed e c') /\
  (forall v c',
     Wizard.StrHandler_prompt spec default c = Wizard.Done v c' ->
     exists s, v = VStr s /\ strip s = s /\
       (is_required spec = true -> s = "" ->
        InterruptText ∈ Wizard.text_replies c)).
Proof.
  split; [|intros v c' Hdone].
  2: { unfold Wizard.StrHandler_prompt in Hdone.
    apply W_bind_Done in Hdone as (result & c1 & Hask & Hret).
    injection Hret as <- _.
    apply questionary_text_Done in Hask.
    destruct result as [s|].
    + destruct (String.eqb_spec s "") as [->|Hs].
      * exists "". split; [reflexivity|]. split; [reflexivity|].
        intros Hreq _. rewrite Hreq in Hask. simpl in Hask. discriminate Hask.
      * exists (strip s). split; [reflexivity|]. split; [apply strip_idempotent|].
        intros Hreq Hempty. rewrite Hreq, Hempty in Hask. discriminate Hask.
    + exists "". split; [reflexivity|]. split; [reflexivity|]. auto. }
  - intros e c''. unfold Wizard.StrHandler_prompt, mbind, Wizard.W_bind,
      Wizard.questionary_text. simpl.
    destruct (Wizard.first_accepted _ _ _) as [[[r|e'] rest]|] eqn:E;
      try discriminate.
    exfalso. clear -E.
    induction (Wizard.text_replies c) as [|reply replies IH]; simpl in E;
      [discriminate|].
    destruct reply as [s| |]; simpl in E; try discriminate;
      match type of E with
      | context [if ?b then _ else _] => destruct b
      end; try discriminate; auto.
Qed.

End HandlerPrompts.

Lemma StrHandler_prompt_stripped_witness :
  @Wizard.StrHandler_prompt plain_runtime str_spec VNone
    (Wizard.Console [] [Typed "   "; Typed "  alice "] [])
  = Wizard.Done (VStr "alice")
      (Wizard.Console [] [] [Wizard.TextPrompt "  label:" ""]) /\
  strip "alice" = "alice".
Proof.
  assert (Hrun :
    @Wizard.StrHandler_prompt plain_runtime str_spec VNone
      (Wizard.Console [] [Typed "   "; Typed "  alice "] [])
    = Wizard.Done (VStr "alice")
        (Wizard.Console [] [] [Wizard.TextPrompt "  label:" ""]))
    by (vm_compute; reflexivity).
  split; [exact Hrun|].
  destruct (@StrHandler_prompt_stripped plain_runtime str_spec VNone
              (Wizard.Console [] [Typed "   "; Typed "  alice "] []))
    as [_ Hdone].
  destruct (Hdone _ _ Hrun) as (s & Hv & Hs & _).
  injection Hv as <-. exact Hs.
Defined.

(** *** Integers as the operator types them *)

Lemma is_digit_range (c : ascii) :
  is_digit c = true -> (48 <= N_of_ascii c <= 57)%N.
Proof.
  unfold is_digit. rewrite andb_true_iff, !N.leb_le. tauto.
Qed.

Lemma is_digit_not_space (c : ascii) :
  is_digit c = true -> isspace c = false /\ int_space c = false.
Proof.
  intros Hc. apply is_digit_range in Hc. unfold isspace, int_space.
  repeat match goal with
         | |- context [(?a <=? ?b)%N] => destruct (N.leb_spec a b)
         | |- context [(?a =? ?b)%N] => destruct (N.eqb_spec a b)
         end; simpl; split; try reflexivity; lia.
Qed.

Lemma is_digit_not_underscore (c : ascii) :
  is_digit c = true -> Ascii.eqb c "_" = false.
Proof.
  intros Hc. destruct (Ascii.eqb_spec c "_") as [->|]; [|reflexivity].
  vm_compute in Hc. discriminate Hc.
Qed.

Lemma scan_digits_all (l acc : text) :
  Forall (fun c => is_digit c = true) l ->
  scan_digits l false acc = Some (rev l ++ acc, []).
Proof.
  intros Hl. revert acc. induction Hl as [|c l Hc _ IH]; intros acc; simpl.
  - reflexivity.
  - rewrite (is_digit_not_underscore c Hc), Hc, IH.
    now rewrite <- app_assoc.
Qed.

(** [int] reads an unsigned run of digits as the number it denotes. *)
Lemma int_of_str_digits (l : text) :
  l <> [] -> Forall (fun c => is_digit c = true) l ->
  (length l <= int_max_str_digits)%nat ->
  int_of_str (string_of_list_ascii l) = Ok (Z.of_N (digits_value l)).
Proof.
  intros Hne Hl Hlen. unfold int_of_str.
  rewrite list_ascii_of_string_of_list_ascii.
  assert (Hskip : skip_int_space l = l).
  { destruct l as [|c l]; [reflexivity|]. simpl.
    apply Forall_cons_1 in Hl as [Hc _].
    now rewrite (proj2 (is_digit_not_space c Hc)). }
  rewrite Hskip, (parse_sign_digit l Hne Hl).
  pose proof (scan_digits_all l [] Hl) as Hscan. rewrite app_nil_r in Hscan.
  destruct l as [|c l']; [congruence|].
  pose proof Hl as Hl'. apply Forall_cons_1 in Hl' as [Hc _].
  rewrite (is_digit_not_underscore c Hc), Hscan.
  destruct (rev (c :: l')) as [|d digits] eqn:Er.
  { apply (f_equal (@length ascii)) in Er. rewrite length_rev in Er. discriminate. }
  cbn [forallb negb]. rewrite <- Er, length_rev, rev_involutive.
  destruct (int_max_str_digits <? length (c :: l'))%nat eqn:E; [|reflexivity].
  apply Nat.ltb_lt in E. lia.
Qed.

Lemma strip_digits (l : text) :
  Forall (fun c => is_digit c = true) l -> strip_text l = l.
Proof.
  intros Hl. apply strip_text_fixed.
  - destruct l as [|c l]; [exact I|]. simpl.
    apply Forall_cons_1 in Hl as [Hc _]. apply is_digit_not_space, Hc.
  - assert (Hr : Forall (fun c => is_digit c = true) (rev l)).
    { apply Forall_forall. intros c Hc. rewrite Forall_forall in Hl.
      apply Hl. apply list_elem_of_In. apply list_elem_of_In in Hc.
      now apply in_rev. }
    destruct (rev l) as [|c r]; [exact I|]. simpl.
    apply Forall_cons_1 in Hr as [Hc _]. apply is_digit_not_space, Hc.
Qed.

Lemma isdigit_digits (l : text) :
  l <> [] -> Forall (fun c => is_digit c = true) l ->
  isdigit (string_of_list_ascii l) = true.
Proof.
  intros Hne Hl. unfold isdigit. rewrite list_ascii_of_string_of_list_ascii.
  destruct l as [|c l]; [congruence|].
  apply forallb_forall. intros x Hx. rewrite Forall_forall in Hl.
  unfold isdigit_char. rewrite (Hl x) by now apply list_elem_of_In.
  reflexivity.
Qed.

Lemma str_of_int_nonneg (n : Z) :
  (0 <= n)%Z -> str_of_int n = string_of_list_ascii (digits_of_N (Z.to_N n)).
Proof.
  intros Hn. unfold str_of_int, int_to_text.
  destruct (Z.ltb_spec n 0) as [?|_]; [lia|]. simpl.
  do 2 f_equal. lia.
Qed.

Lemma length_string_of_list_ascii (l : text) :
  String.length (string_of_list_ascii l) = length l.
Proof. induction l as [|c l IH]; simpl; [reflexivity|]. now rewrite IH. Qed.

Lemma string_of_list_ascii_nonempty (l : text) :
  l <> [] -> String.eqb (string_of_list_ascii l) "" = false.
Proof. destruct l; [congruence|reflexivity]. Qed.

(** [int(str(n))] is [n] for a natural number that [int] will convert. *)
Lemma int_of_str_of_int (n : Z) :
  (0 <= n)%Z -> (String.length (str_of_int n) <= int_max_str_digits)%nat ->
  int_of_str (str_of_int n) = Ok n.
Proof.
  intros Hn Hlen. rewrite (str_of_int_nonneg n Hn) in *.
  rewrite length_string_of_list_ascii in Hlen.
  rewrite int_of_str_digits;
    [|apply digits_of_N_nonempty|apply digits_of_N_digits|exact Hlen].
  rewrite digits_of_N_value. f_equal. lia.
Qed.

Lemma int_compare_VInt (n g : Z) :
  int_lt n (VInt g) = Ok (n <? g)%Z /\ int_gt n (VInt g) = Ok (g <? n)%Z /\
  int_le n (VInt g) = Ok (n <=? g)%Z /\ int_ge n (VInt g) = Ok (g <=? n)%Z.
Proof.
  unfold int_lt, int_gt, int_le, int_ge, compare_int. simpl.
  rewrite Z.mul_1_r. unfold Z.ltb, Z.leb.
  rewrite (Z.compare_antisym n g).
  destruct (n ?= g)%Z; simpl; repeat split; reflexivity.
Qed.

Section HandlerPromptsInt.
Context `{PyRuntime}.

Lemma check_bound_None (constraints : gmap string pyobj) (attr sign : string)
    (broken : pyobj -> outcome bool) :
  Wizard.check_bound constraints attr broken sign = Ok None ->
  forall bound, constraints !! attr = Some bound -> broken bound = Ok false.
Proof.
  unfold Wizard.check_bound. intros Hcheck bound Hbound. rewrite Hbound in Hcheck.
  destruct (broken bound) as [[|]|e]; try discriminate. reflexivity.
Qed.

Lemma validate_int_Accepted (spec : FieldSpec) (val : string) :
  Wizard.validate_int spec val = Ok Wizard.Accepted ->
  String.eqb (strip val) "" = false ->
  exists n, int_of_str val = Ok n /\
    (forall bound, constraints spec !! "ge" = Some bound -> int_lt n bound = Ok false) /\
    (forall bound, constraints spec !! "le" = Some bound -> int_gt n bound = Ok false) /\
    (forall bound, constraints spec !! "gt" = Some bound -> int_le n bound = Ok false) /\
    (forall bound, constraints spec !! "lt" = Some bound -> int_ge n bound = Ok false).
Proof.
  unfold Wizard.validate_int. intros Hv Hblank. rewrite Hblank in Hv.
  destruct (int_of_str val) as [n|e]; [|destruct e; discriminate].
  exists n. split; [reflexivity|].
  destruct (Wizard.check_bound _ "ge" _ _) as [[m|]|e] eqn:Ege;
    simpl in Hv; try discriminate.
  destruct (Wizard.check_bound _ "le" _ _) as [[m|]|e] eqn:Ele;
    simpl in Hv; try discriminate.
  destruct (Wizard.check_bound _ "gt" _ _) as [[m|]|e] eqn:Egt;
    simpl in Hv; try discriminate.
  destruct (Wizard.check_bound _ "lt" _ _) as [[m|]|e] eqn:Elt;
    simpl in Hv; try discriminate.
  repeat split; eapply check_bound_None; eassumption.
Qed.

Lemma non_blank_Some (result : option string) (s : string) :
  Wizard.non_blank result = Some s ->
  result = Some s /\ String.eqb (strip s) "" = false.
Proof.
  unfold Wizard.non_blank. destruct result as [s'|]; [|discriminate].
  destruct (String.eqb s' ""); simpl; [discriminate|].
  destruct (String.eqb (strip s') "") eqn:E; simpl; [discriminate|].
  intros [= <-]. auto.
Qed.

(** X17: What [IntHandler.prompt] returns is the default it was given, or an
    integer read from the operator's text that breaks none of the bounds
    [ge], [le], [gt], [lt] set for the field: each comparison that would
    reject it is false. *)
Theorem IntHandler_prompt_within_bounds (spec : FieldSpec) (default : pyobj)
    (c c' : Wizard.console) (v : pyobj)
    (Hdone : Wizard.IntHandler_prompt spec default c = Wizard.Done v c') :
  v = default \/
  exists n, v = VInt n /\
    (forall bound, constraints spec !! "ge" = Some bound -> int_lt n bound = Ok false) /\
    (forall bound, constraints spec !! "le" = Some bound -> int_gt n bound = Ok false) /\
    (forall bound, constraints spec !! "gt" = Some bound -> int_le n bound = Ok false) /\
    (forall bound, constraints spec !! "lt" = Some bound -> int_ge n bound = Ok false).
Proof.
  unfold Wizard.IntHandler_prompt in Hdone.
  apply W_bind_Done in Hdone as (result & c1 & Hask & Hret).
  apply questionary_text_Done in Hask.
  destruct (Wizard.non_blank result) as [s|] eqn:Enb.
  - apply non_blank_Some in Enb as [-> Hblank].
    destruct (validate_int_Accepted spec s Hask Hblank) as (n & Hn & Hbounds).
    rewrite Hn in Hret. injection Hret as <- _. right. exists n. auto.
  - injection Hret as <- _. left. reflexivity.
Qed.

(** X18: A non-negative whole number of seconds, of no more digits than
    [int] converts (4300), typed at the duration prompt is returned as
    that duration when it is within the range of [timedelta]; beyond it
    the text passes the validator all the same and the prompt raises
    [OverflowError].  This holds whatever the default of the field: a
    duration default (every [timedelta] is within the range) is offered
    as its whole seconds, any other default as the empty text. *)
Theorem TimedeltaHandler_prompt_seconds (spec : FieldSpec) (default : pyobj)
    (n : Z) (rest : list text_answer) (c : Wizard.console)
    (Hdefault : forall td, default = VTimedelta td ->
                (min_timedelta_us <= total_us td <= max_timedelta_us)%Z)
    (Hn : (0 <= n)%Z)
    (Hdigits : (String.length (str_of_int n) <= int_max_str_digits)%nat)
    (Htyped : Wizard.text_replies c = Typed (str_of_int n) :: rest) :
  exists default_seconds : string,
    match default with
    | VTimedelta td =>
        exists k, float_trunc (total_seconds td) = Ok k /\
                  default_seconds = str_of_int k
    | _ => default_seconds = ""
    end /\
    Wizard.TimedeltaHandler_prompt spec default c
    = let c' :=
        {| Wizard.confirm_replies := Wizard.confirm_replies c;
           Wizard.text_replies := rest;
           Wizard.shown :=
             Wizard.shown c
             ++ [Wizard.TextPrompt ("  " +:+ name spec +:+ " (total seconds):")
                   default_seconds] |} in
      if (n * 1000000 <=? max_timedelta_us)%Z
      then Wizard.Done (VTimedelta (Timedelta (n * 1000000))) c'
      else Wizard.Failed OverflowError c'.
Proof.
  pose proof (int_of_str_of_int n Hn Hdigits) as Hint.
  pose proof (str_of_int_nonneg n Hn) as Hstr.
  assert (Hstrip : strip (str_of_int n) = str_of_int n).
  { rewrite Hstr. unfold strip. rewrite list_ascii_of_string_of_list_ascii.
    now rewrite strip_digits by apply digits_of_N_digits. }
  assert (Hne : String.eqb (str_of_int n) "" = false).
  { rewrite Hstr. apply string_of_list_ascii_nonempty, digits_of_N_nonempty. }
  assert (Hisdigit : isdigit (str_of_int n) = true).
  { rewrite Hstr. apply isdigit_digits;
      [apply digits_of_N_nonempty|apply digits_of_N_digits]. }
  unfold Wizard.TimedeltaHandler_prompt.
  assert (Hseconds : exists default_seconds : string,
            match default with
            | VTimedelta td =>
                exists k, float_trunc (total_seconds td) = Ok k /\
                          default_seconds = str_of_int k
            | _ => default_seconds = ""
            end /\
            match default with
            | VTimedelta td =>
                n0 ← Wizard.from_outcome (float_trunc (total_seconds td));
                mret (str_of_int n0)
            | _ => mret ""
            end = (mret default_seconds : Wizard.W string)).
  { destruct default; try (exists ""; split; reflexivity).
    destruct (float_trunc_total_seconds td (Hdefault td eq_refl)) as [k Hk].
    exists (str_of_int k). split; [eauto|]. rewrite Hk. reflexivity. }
  destruct Hseconds as (default_seconds & Hshown & Hseconds).
  exists default_seconds. split; [exact Hshown|].
  rewrite Hseconds.
  unfold mbind, Wizard.W_bind, mret, Wizard.W_ret, Wizard.questionary_text.
  cbn [Wizard.show Wizard.text_replies Wizard.confirm_replies Wizard.shown].
  rewrite Htyped. cbn [Wizard.first_accepted].
  rewrite Hstrip, Hne, Hisdigit. cbn [andb].
  unfold Wizard.non_blank. rewrite Hstrip, Hne. cbn [negb andb].
  unfold Wizard.from_outcome. rewrite Hint.
  unfold timedelta_of_int_seconds.
  assert (Hmin : (min_timedelta_us <=? n * 1000000)%Z = true).
  { apply Z.leb_le. unfold min_timedelta_us. lia. }
  rewrite Hmin. cbn [andb].
  destruct (n * 1000000 <=? max_timedelta_us)%Z; reflexivity.
Qed.

End HandlerPromptsInt.

(** *** The composite handlers *)

Lemma ListHandler_inner_spec_handler (spec : FieldSpec) (i : nat) :
  get_handler TypeHandlerRegistry_new (Wizard.ListHandler_inner_spec spec i)
  = element_handler (inner_type spec).
Proof.
  unfold get_handler, Wizard.ListHandler_inner_spec, element_handler.
  destruct (inner_type spec) as [[c| | |]|]; [destruct c|..]; reflexivity.
Qed.

Section CompositePrompts.
Context `{PyRuntime}.
Variable annotation_str : type_annotation -> string.
Variable args_str : list type_annotation -> string.
Variable type_name : type_annotation -> string.
Variable class_name_of : pyobj -> string.
Variable questionary_select :
  string -> list string -> option string -> Wizard.W (option string).
Variable other_prompt : Handler -> FieldSpec -> pyobj -> Wizard.W pyobj.
Variable custom_prompt : custom_handler -> FieldSpec -> pyobj -> Wizard.W pyobj.

Lemma DictHandler_val_spec_handler (spec : FieldSpec) (key : pyobj) :
  get_handler TypeHandlerRegistry_new (Wizard.DictHandler_val_spec spec key)
  = value_handler (value_type spec).
Proof.
  unfold get_handler, Wizard.DictHandler_val_spec, value_handler.
  destruct (value_type spec) as [[c| | |]|]; [destruct c|..]; reflexivity.
Qed.

(** The loop of [ListHandler.prompt] adds nothing when there is no
    registry or the registry has no handler for the elements. *)
Lemma ListHandler_items_none
    (inner : Handler -> FieldSpec -> pyobj -> Wizard.W pyobj)
    (spec : FieldSpec) (default : pyobj) (registry : option TypeHandlerRegistry)
    (Hnone : forall r i, registry = Some r ->
               get_handler r (Wizard.ListHandler_inner_spec spec i) = None) :
  forall remaining i items c,
    Wizard.ListHandler_items inner spec default registry remaining i items c
    = Wizard.Done items c.
Proof.
  induction remaining as [|remaining IH]; intros i items c; simpl; [reflexivity|].
  unfold mbind at 1, Wizard.W_bind.
  destruct registry as [r|]; [rewrite (Hnone r i eq_refl)|]; simpl; apply IH.
Qed.

Lemma ListHandler_prompt_none
    (inner : Handler -> FieldSpec -> pyobj -> Wizard.W pyobj)
    (spec : FieldSpec) (default : pyobj) (registry : option TypeHandlerRegistry)
    (c c' : Wizard.console) (v : pyobj)
    (Hnone : forall r i, registry = Some r ->
               get_handler r (Wizard.ListHandler_inner_spec spec i) = None) :
  Wizard.ListHandler_prompt inner spec default registry c = Wizard.Done v c' ->
  v = VList [].
Proof.
  unfold Wizard.ListHandler_prompt. intros Hdone.
  apply W_bind_Done in Hdone as (count_str & c1 & _ & Hdone).
  apply W_bind_Done in Hdone as (count & c2 & _ & Hdone).
  apply W_bind_Done in Hdone as (items & c3 & Hitems & Hret).
  rewrite (ListHandler_items_none inner spec default registry Hnone) in Hitems.
  injection Hitems as <- _. now injection Hret as <- _.
Qed.

(** X19: [ListHandler.prompt] returns the empty list, whatever number of items
    the operator asks for, when it is called without a registry, and, on
    the default registry, when the element type is not a class that has a
    handler (a nested list, an optional or literal element, [bytes]). *)
Theorem ListHandler_prompt_empty
    (inner : Handler -> FieldSpec -> pyobj -> Wizard.W pyobj)
    (spec : FieldSpec) (default : pyobj) (registry : option TypeHandlerRegistry)
    (c c' : Wizard.console) (v : pyobj)
    (Hregistry : registry = None \/
                 (registry = Some TypeHandlerRegistry_new /\
                  element_handler (inner_type spec) = None))
    (Hdone : Wizard.ListHandler_prompt inner spec default registry c
             = Wizard.Done v c') :
  v = VList [].
Proof.
  apply (ListHandler_prompt_none inner spec default registry c c' v); [|exact Hdone].
  intros r i Hr. destruct Hregistry as [->|[-> Hnone]]; [discriminate|].
  injection Hr as <-. now rewrite ListHandler_inner_spec_handler.
Qed.

Lemma ListHandler_items_models (spec : FieldSpec) (default : pyobj) (m : string)
    (Hmodel : inner_type spec = Some (Plain (CModel m))) :
  forall remaining i items c,
    Wizard.ListHandler_items
      (Wizard.prompt annotation_str args_str type_name class_name_of
       questionary_select other_prompt custom_prompt)
      spec default (Some TypeHandlerRegistry_new) remaining i items c
    = Wizard.Done (items ++ replicate remaining VNone) c.
Proof.
  induction remaining as [|remaining IH]; intros i items c; simpl.
  - now rewrite app_nil_r.
  - unfold mbind at 1, Wizard.W_bind.
    rewrite ListHandler_inner_spec_handler, Hmodel. simpl.
    rewrite IH, <- app_assoc. reflexivity.
Qed.

(** X20: For a list of nested models, on the default registry, every item
    [ListHandler.prompt] returns is [None]: the model handler is called
    without the function that prompts for a model. *)
Theorem ListHandler_prompt_of_models (spec : FieldSpec) (default : pyobj)
    (m : string) (c c' : Wizard.console) (v : pyobj)
    (Hmodel : inner_type spec = Some (Plain (CModel m)))
    (Hdone : Wizard.ListHandler_prompt
               (Wizard.prompt annotation_str args_str type_name class_name_of
                  questionary_select other_prompt custom_prompt)
               spec default (Some TypeHandlerRegistry_new) c
             = Wizard.Done v c') :
  exists count, v = VList (replicate count VNone).
Proof.
  unfold Wizard.ListHandler_prompt in Hdone.
  apply W_bind_Done in Hdone as (count_str & c1 & _ & Hdone).
  apply W_bind_Done in Hdone as (count & c2 & _ & Hdone).
  apply W_bind_Done in Hdone as (items & c3 & Hitems & Hret).
  rewrite (ListHandler_items_models spec default m Hmodel) in Hitems.
  injection Hitems as <- _. injection Hret as <- _.
  exists (Z.to_nat count). reflexivity.
Qed.

Lemma UnionHandler_prompt_no_registry
    (inner : Handler -> FieldSpec -> pyobj -> Wizard.W pyobj)
    (spec : FieldSpec) (default : pyobj) (c c' : Wizard.console) (v : pyobj) :
  Wizard.UnionHandler_prompt type_name class_name_of questionary_select inner
    spec default None c = Wizard.Done v c' ->
  v = VNone.
Proof.
  unfold Wizard.UnionHandler_prompt. intros Hdone.
  apply W_bind_Done in Hdone as (chosen_name & c1 & _ & Hdone).
  destruct (chosen_name ≫= _) as [chosen_type|]; [|discriminate].
  now injection Hdone as <- _.
Qed.

Lemma OptionalHandler_prompt_no_registry
    (inner : Handler -> FieldSpec -> pyobj -> Wizard.W pyobj)
    (spec : FieldSpec) (default : pyobj) (c c' : Wizard.console) (v : pyobj) :
  Wizard.OptionalHandler_prompt annotation_str args_str inner spec default None c
  = Wizard.Done v c' ->
  v = VNone.
Proof.
  unfold Wizard.OptionalHandler_prompt. intros Hdone.
  apply W_bind_Done in Hdone as (should_configure & c1 & _ & Hdone).
  destruct should_configure as [[|]|]; now injection Hdone as <- _.
Qed.

Lemma SetHandler_prompt_no_registry
    (inner : Handler -> FieldSpec -> pyobj -> Wizard.W pyobj)
    (spec : FieldSpec) (default : pyobj) (c c' : Wizard.console) (v : pyobj) :
  Wizard.is_subclass_of (inner_type spec) Enum = false ->
  Wizard.SetHandler_prompt other_prompt inner spec default None c
  = Wizard.Done v c' ->
  v = VSet [].
Proof.
  unfold Wizard.SetHandler_prompt. intros -> Hdone.
  apply W_bind_Done in Hdone as (list_default & c1 & _ & Hdone).
  apply W_bind_Done in Hdone as (result & c2 & Hlist & Hret).
  apply ListHandler_prompt_none in Hlist; [|discriminate].
  subst result. simpl in Hret. now injection Hret as <- _.
Qed.

(** X21: The optional handler hands the inner handler no registry.  So for an
    optional field whose inner shape is a list, a set (not of enum
    members), a union, a nested model or again an optional, the optional
    handler returns [None], the empty list or the empty set, whatever the
    operator answers. *)
Theorem OptionalHandler_prompt_nested_shapes (spec : FieldSpec) (default : pyobj)
    (registry : TypeHandlerRegistry) (handler : Handler)
    (c c' : Wizard.console) (v : pyobj)
    (Hhandler : get_handler registry (OptionalHandler_inner_spec spec)
                = Some handler)
    (Hshape : handler = ListHandler \/ handler = PydanticModelHandler \/
              handler = UnionHandler \/ handler = OptionalHandler \/
              (handler = SetHandler /\
               Wizard.is_subclass_of (inner_type spec) Enum = false))
    (Hdone : Wizard.OptionalHandler_prompt annotation_str args_str
               (Wizard.prompt annotation_str args_str type_name class_name_of
                  questionary_select other_prompt custom_prompt)
               spec default (Some registry) c
             = Wizard.Done v c') :
  v = VNone \/ v = VList [] \/ v = VSet [].
Proof.
  unfold Wizard.OptionalHandler_prompt in Hdone.
  apply W_bind_Done in Hdone as (should_configure & c1 & _ & Hdone).
  destruct should_configure as [[|]|];
    try (injection Hdone as <- _; left; reflexivity).
  rewrite Hhandler in Hdone.
  destruct Hshape as [->|[->|[->|[->|[-> Henum]]]]]; simpl in Hdone.
  - right. left.
    apply (ListHandler_prompt_none _ _ _ None _ _ _) in Hdone;
      [exact Hdone|discriminate].
  - left. now injection Hdone as <- _.
  - left. exact (UnionHandler_prompt_no_registry _ _ _ _ _ _ Hdone).
  - left. exact (OptionalHandler_prompt_no_registry _ _ _ _ _ _ Hdone).
  - right. right.
    exact (SetHandler_prompt_no_registry _ (OptionalHandler_inner_spec spec)
             _ _ _ _ Henum Hdone).
Qed.

Lemma DictHandler_entries_none
    (inner : Handler -> FieldSpec -> pyobj -> Wizard.W pyobj)
    (spec : FieldSpec) (default_items : list (pyobj * pyobj))
    (Hnone : value_handler (value_type spec) = None) :
  forall remaining i result c c' result',
    Wizard.DictHandler_entries inner spec default_items
      (Some TypeHandlerRegistry_new) remaining i result c
    = Wizard.Done result' c' ->
    result' = result.
Proof.
  induction remaining as [|remaining IH]; intros i result c c' result'; simpl.
  - now intros [= <- _].
  - intros Hdone.
    apply W_bind_Done in Hdone as (key & c1 & _ & Hdone).
    apply W_bind_Done in Hdone as (result1 & c2 & Hstep & Hdone).
    rewrite DictHandler_val_spec_handler, Hnone in Hstep.
    injection Hstep as <- _. exact (IH _ _ _ _ _ Hdone).
Qed.

(** X22: On the default registry [DictHandler.prompt] returns the empty dict,
    whatever number of entries the operator asks for and whatever keys
    are typed, unless the value type is one of [bool], [str], [int],
    [float], [Decimal], [datetime], [time], [timedelta]: for the values
    of any other type - an enum, a nested model, a container - no handler
    is found and the entry is dropped. *)
Theorem DictHandler_prompt_empty
    (inner : Handler -> FieldSpec -> pyobj -> Wizard.W pyobj)
    (spec : FieldSpec) (default : pyobj) (c c' : Wizard.console) (v : pyobj)
    (Hvalue : value_handler (value_type spec) = None)
    (Hdone : Wizard.DictHandler_prompt inner spec default
               (Some TypeHandlerRegistry_new) c = Wizard.Done v c') :
  v = VDict [].
Proof.
  unfold Wizard.DictHandler_prompt in Hdone.
  apply W_bind_Done in Hdone as (count_str & c1 & _ & Hdone).
  apply W_bind_Done in Hdone as (count & c2 & _ & Hdone).
  apply W_bind_Done in Hdone as (result & c3 & Hentries & Hret).
  apply (DictHandler_entries_none inner spec _ Hvalue) in Hentries.
  subst result. now injection Hret as <- _.
Qed.

End CompositePrompts.

Lemma count_prompt_typed (message default : string) (n : Z)
    (rest : list text_answer) (c : Wizard.console) :
  (0 <= n)%Z ->
  Wizard.text_replies c = Typed (str_of_int n) :: rest ->
  Wizard.questionary_text message default Wizard.validate_count c
  = Wizard.Done (Some (str_of_int n))
      {| Wizard.confirm_replies := Wizard.confirm_replies c;
         Wizard.text_replies := rest;
         Wizard.shown := Wizard.shown c ++ [Wizard.TextPrompt message default] |}.
Proof.
  intros Hn Htyped. unfold Wizard.questionary_text.
  cbn [Wizard.show Wizard.text_replies Wizard.confirm_replies Wizard.shown].
  rewrite Htyped. cbn [Wizard.first_accepted]. unfold Wizard.validate_count.
  rewrite (str_of_int_nonneg n Hn). unfold strip.
  rewrite list_ascii_of_string_of_list_ascii.
  rewrite strip_digits by apply digits_of_N_digits.
  rewrite isdigit_digits by
    first [apply digits_of_N_nonempty | apply digits_of_N_digits].
  reflexivity.
Qed.

Lemma count_of_typed (n : Z) :
  (0 <= n)%Z -> (String.length (str_of_int n) <= int_max_str_digits)%nat ->
  Wizard.count_of (Some (str_of_int n)) = Ok n.
Proof.
  intros Hn Hlen. unfold Wizard.count_of.
  assert (Hne : String.eqb (str_of_int n) "" = false).
  { rewrite (str_of_int_nonneg n Hn).
    apply string_of_list_ascii_nonempty, digits_of_N_nonempty. }
  rewrite Hne. now apply int_of_str_of_int.
Qed.

Lemma ListHandler_items_length
    (inner : Handler -> FieldSpec -> pyobj -> Wizard.W pyobj)
    (spec : FieldSpec) (default : pyobj) (handler : Handler)
    (Hhandler : element_handler (inner_type spec) = Some handler) :
  forall remaining i items c items' c',
    Wizard.ListHandler_items inner spec default (Some TypeHandlerRegistry_new)
      remaining i items c = Wizard.Done items' c' ->
    length items' = (length items + remaining)%nat.
Proof.
  induction remaining as [|remaining IH]; intros i items c items' c'; simpl.
  - intros [= <- _]. lia.
  - intros Hdone.
    apply W_bind_Done in Hdone as (items1 & c1 & Hstep & Hdone).
    rewrite ListHandler_inner_spec_handler, Hhandler in Hstep.
    apply W_bind_Done in Hstep as (item & c2 & _ & Hret).
    injection Hret as <- _.
    rewrite (IH _ _ _ _ _ Hdone), length_app. simpl. lia.
Qed.

(** X23: On the default registry, when the element type is a class that has a
    handler and the operator asks for [n] items, the list that
    [ListHandler.prompt] returns has [n] items. *)
Theorem ListHandler_prompt_length
    (inner : Handler -> FieldSpec -> pyobj -> Wizard.W pyobj)
    (spec : FieldSpec) (default : pyobj) (handler : Handler) (n : Z)
    (rest : list text_answer) (c c' : Wizard.console) (v : pyobj)
    (Hhandler : element_handler (inner_type spec) = Some handler)
    (Hn : (0 <= n)%Z)
    (Hdigits : (String.length (str_of_int n) <= int_max_str_digits)%nat)
    (Htyped : Wizard.text_replies c = Typed (str_of_int n) :: rest)
    (Hdone : Wizard.ListHandler_prompt inner spec default
               (Some TypeHandlerRegistry_new) c = Wizard.Done v c') :
  exists items, v = VList items /\ length items = Z.to_nat n.
Proof.
  unfold Wizard.ListHandler_prompt in Hdone.
  apply W_bind_Done in Hdone as (count_str & c1 & Hask & Hdone).
  rewrite (count_prompt_typed _ _ n rest c Hn Htyped) in Hask.
  injection Hask as <- <-.
  apply W_bind_Done in Hdone as (count & c2 & Hcount & Hdone).
  unfold Wizard.from_outcome in Hcount.
  rewrite (count_of_typed n Hn Hdigits) in Hcount. injection Hcount as <- <-.
  apply W_bind_Done in Hdone as (items & c3 & Hitems & Hret).
  injection Hret as <- _. exists items. split; [reflexivity|].
  now rewrite (ListHandler_items_length inner spec default handler Hhandler
                 _ _ _ _ _ _ Hitems).
Qed.

(** X24: Every duration the duration prompt makes out of the operator's text
    is a whole number of seconds within the range of [timedelta], and
    such a duration comes back unchanged from the float that
    [TimedeltaHandler.serialize] turns it into. *)
Theorem TimedeltaHandler_prompt_transport (spec : FieldSpec)
    (default : pyobj) (c c' : Wizard.console) (v : pyobj)
    (Hdone : Wizard.TimedeltaHandler_prompt spec default c = Wizard.Done v c') :
  v = default \/
  exists seconds,
    v = VTimedelta (Timedelta (seconds * 1000000)) /\
    (min_timedelta_us <= seconds * 1000000 <= max_timedelta_us)%Z /\
    (raw ← TimedeltaHandler_serialize v; TimedeltaHandler_deserialize raw spec)
    = Ok v.
Proof.
  unfold Wizard.TimedeltaHandler_prompt in Hdone.
  apply W_bind_Done in Hdone as (default_seconds & c1 & _ & Hdone).
  apply W_bind_Done in Hdone as (result & c2 & _ & Hret).
  destruct (Wizard.non_blank result) as [s|]; [|injection Hret as <- _; auto].
  right.
  apply W_bind_Done in Hret as (n & c3 & _ & Hret).
  apply W_bind_Done in Hret as (td & c4 & Htd & Hret).
  injection Hret as <- _.
  unfold Wizard.from_outcome, timedelta_of_int_seconds in Htd.
  destruct (_ && _) eqn:Erange; [|discriminate].
  injection Htd as <- _.
  apply andb_true_iff in Erange as [Hmin Hmax].
  apply Z.leb_le in Hmin, Hmax.
  exists n. split; [reflexivity|]. split; [lia|].
  cbn. unfold TimedeltaHandler_deserialize. cbn.
  rewrite timedelta_whole_seconds by lia. reflexivity.
Qed.

Lemma TimedeltaHandler_prompt_transport_witness :
  Wizard.TimedeltaHandler_prompt ttl_spec VNone (Wizard.Console [] [Typed "90"] [])
  = Wizard.Done (VTimedelta (Timedelta 90000000))
      (Wizard.Console [] [] [Wizard.TextPrompt "  ttl (total seconds):" ""]) /\
  (raw ← TimedeltaHandler_serialize (VTimedelta (Timedelta 90000000));
   TimedeltaHandler_deserialize raw ttl_spec)
  = Ok (VTimedelta (Timedelta 90000000)).
Proof.
  assert (Hrun :
    Wizard.TimedeltaHandler_prompt ttl_spec VNone
      (Wizard.Console [] [Typed "90"] [])
    = Wizard.Done (VTimedelta (Timedelta 90000000))
        (Wizard.Console [] [] [Wizard.TextPrompt "  ttl (total seconds):" ""]))
    by (vm_compute; reflexivity).
  split; [exact Hrun|].
  destruct (TimedeltaHandler_prompt_transport _ _ _ _ _ Hrun)
    as [Hdefault|(seconds & _ & _ & Hback)]; [discriminate Hdefault|exact Hback].
Defined.

(** ** The repaired entries are text *)

Section RepairedEntries.
Context `{PyRuntime}.
Variable model_validate : gmap string pyobj -> pyobj + list error_details.

(** An entry is as it was, or it is a string. *)
Lemma fix_error_text (error : error_details) (data data' : gmap string pyobj)
    (t t' : terminal) :
  fix_error error data t = Returned data' t' ->
  forall k, data' !! k = data !! k \/ exists s, data' !! k = Some (VStr s).
Proof.
  unfold fix_error. destruct (loc error) as [[|first others]|]; simpl.
  1, 3: intros [= <- _]; auto.
  rewrite M_bind_unfold.
  destruct (questionary_text _ _ t) as [new_value t1|e t1|t1]; try discriminate.
  destruct new_value as [s|]; intros [= <- _] k; [|auto].
  destruct (decide (loc_item_str first = k)) as [<-|Hne].
  - right. exists s. apply lookup_insert_eq.
  - left. now apply lookup_insert_ne.
Qed.

Lemma fix_errors_text (errors : list error_details) :
  forall (data data' : gmap string pyobj) (t t' : terminal),
    fix_errors errors data t = Returned data' t' ->
    forall k, data' !! k = data !! k \/ exists s, data' !! k = Some (VStr s).
Proof.
  induction errors as [|error errors IH]; intros data data' t t'; simpl.
  - intros [= <- _]. auto.
  - rewrite M_bind_unfold.
    destruct (fix_error error data t) as [data1 t1|e t1|t1] eqn:E; try discriminate.
    intros Hrest k.
    destruct (IH _ _ _ _ Hrest k) as [Hsame|Htext]; [|auto].
    rewrite Hsame. exact (fix_error_text _ _ _ _ _ E k).
Qed.

Lemma validate_and_fix_loop_text (rounds : nat) :
  forall (data data' : gmap string pyobj) (t t' : terminal) (r : option pyobj),
    validate_and_fix_loop model_validate rounds data t = Returned (r, data') t' ->
    forall k, data' !! k = data !! k \/ exists s, data' !! k = Some (VStr s).
Proof.
  induction rounds as [|rounds IH]; intros data data' t t' r; simpl;
    destruct (model_validate data) as [instance|errors];
    try (intros [= _ <- _]; auto; fail);
    rewrite M_bind_unfold;
    destruct (questionary_confirm QFixErrors true t) as [should_fix t1|e t1|t1];
    try discriminate;
    destruct should_fix as [[|]|]; try (intros [= _ <- _]; auto; fail).
  rewrite M_bind_unfold.
  destruct (fix_errors errors data t1) as [data1 t2|e t2|t2] eqn:E;
    try discriminate.
  intros Hrest k.
  destruct (IH _ _ _ _ _ Hrest k) as [Hsame|Htext]; [|auto].
  rewrite Hsame. exact (fix_errors_text _ _ _ _ _ E k).
Qed.

(** X25: Whatever [validate_and_fix] returns, each entry of the map is then
    either as it was before the call or a string: the repair stores the
    operator's text as it is, and leaves its conversion to the next
    validation. *)
Theorem validate_and_fix_writes_text (data data' : gmap string pyobj)
    (t t' : terminal) (r : option pyobj)
    (Hreturned : validate_and_fix model_validate data t = Returned (r, data') t') :
  forall k, data' !! k = data !! k \/ exists s, data' !! k = Some (VStr s).
Proof.
  unfold validate_and_fix in Hreturned.
  exact (validate_and_fix_loop_text _ _ _ _ _ _ Hreturned).
Qed.

End RepairedEntries.

Lemma validate_and_fix_writes_text_witness :
  @validate_and_fix plain_runtime Counter_validate {["count" := VStr "abc"]}
    (Terminal [SayYes] [Typed "7"] [])
  = Returned (Some (VModel "Counter" [("count", VInt 7)]),
              {["count" := VStr "7"]})
      (Terminal [] []
         [AskedConfirm QFixErrors true;
          AskedText (QNewValue "count" "Input should be a valid integer") "abc"]) /\
  exists s, ({["count" := VStr "7"]} : gmap string pyobj) !! "count"
            = Some (VStr s).
Proof.
  assert (Hrun :
    @validate_and_fix plain_runtime Counter_validate {["count" := VStr "abc"]}
      (Terminal [SayYes] [Typed "7"] [])
    = Returned (Some (VModel "Counter" [("count", VInt 7)]),
                {["count" := VStr "7"]})
        (Terminal [] []
           [AskedConfirm QFixErrors true;
            AskedText (QNewValue "count" "Input should be a valid integer") "abc"]))
    by (vm_compute; reflexivity).
  split; [exact Hrun|].
  destruct (@validate_and_fix_writes_text plain_runtime Counter_validate
              _ _ _ _ _ Hrun "count") as [Hsame|Htext]; [|exact Htext].
  exists "7". reflexivity.
Defined.

(** ** What the class flags stand for *)

Lemma resolve_union_class_flags (spec : FieldSpec) (args : list type_annotation)
    (resolved : outcome FieldSpec) (out : FieldSpec) :
  is_enum spec = false -> is_pydantic_model spec = false ->
  (forall inner, resolved = Ok inner -> class_flags_sound inner) ->
  resolve_union spec args resolved = Ok out -> class_flags_sound out.
Proof.
  intros Henum Hmodel Hinner. unfold resolve_union.
  destruct (_ =? 1)%nat.
  - destruct resolved as [inner|e]; simpl; [|discriminate].
    destruct (Hinner inner eq_refl) as [He Hm].
    destruct (index _ 0) as [first|e]; simpl; [|discriminate].
    intros [= <-]. unfold class_flags_sound.
    destruct (inner_type inner) as [t|] eqn:Et; simpl.
    + split; [exact He|exact Hm].
    + split; intros Hflag.
      * destruct (He Hflag) as [e He']. discriminate He'.
      * destruct (Hm Hflag) as [m Hm']. discriminate Hm'.
  - destruct (1 <? _)%nat; intros [= <-]; unfold class_flags_sound;
      destruct spec; simpl in *; subst; split; discriminate.
Qed.

Lemma resolve_with_class_flags (resolved : outcome FieldSpec)
    (a : type_annotation) (out : FieldSpec) :
  (forall inner, resolved = Ok inner -> class_flags_sound inner) ->
  resolve_with resolved a = Ok out -> class_flags_sound out.
Proof.
  intros Hinner. unfold resolve_with.
  destruct (is_union_type _);
    [apply resolve_union_class_flags; [reflexivity|reflexivity|exact Hinner]|].
  destruct (is_typing_union _);
    [apply resolve_union_class_flags; [reflexivity|reflexivity|exact Hinner]|].
  destruct (origin_is OList _).
  { destruct (if bool_decide _ then _ else _); simpl; intros [= <-].
    split; discriminate. }
  destruct (origin_is OSet _).
  { destruct (if bool_decide _ then _ else _); simpl; intros [= <-].
    split; discriminate. }
  destruct (origin_is ODict _).
  { destruct (if bool_decide _ then _ else _); simpl; [|discriminate].
    destruct (if (1 <? _)%nat then _ else _); simpl; intros [= <-].
    split; discriminate. }
  destruct (origin_is OLiteral _).
  { intros [= <-]. split; discriminate. }
  intros [= <-].
  destruct a as [[| | | | | | | | |e|m|n]|n|v|o args]; cbn;
    split; intros Hflag; try discriminate Hflag; eauto.
Qed.

Lemma _resolve_type_class_flags (a : type_annotation) :
  forall spec, _resolve_type a = Ok spec -> class_flags_sound spec.
Proof.
  induction a as [c|n|v|o args IH] using type_annotation_nested_ind;
    intros spec; simpl; apply resolve_with_class_flags;
    try discriminate.
  apply (on_first_non_none_prop _resolve_type class_flags_sound args IH).
Qed.

(** Introspection changes neither the class flags nor the inner type of
    the resolved descriptor. *)
Lemma introspect_field_class_flags (field_name : string)
    (field_info : FieldInfo.t) (spec : FieldSpec) :
  introspect_field field_name field_info = Ok (Some spec) ->
  class_flags_sound spec.
Proof.
  unfold introspect_field.
  destruct (FieldInfo.annotation field_info) as [a|]; [|discriminate].
  destruct (_resolve_type a) as [resolved|e] eqn:Hresolved; simpl; [|discriminate].
  apply _resolve_type_class_flags in Hresolved.
  intros [= <-].
  destruct (FieldInfo.default field_info), (FieldInfo.default_factory field_info),
    (FieldInfo.init field_info) as [[|]|], (FieldInfo.frozen field_info) as [[|]|];
    cbn; destruct (is_optional resolved), (is_required resolved);
    exact Hresolved.
Qed.

Lemma introspect_fields_class_flags (fields : list (string * FieldInfo.t)) :
  forall specs, introspect_fields fields = Ok specs ->
  Forall class_flags_sound specs.
Proof.
  induction fields as [|[n fi] rest IH]; simpl; intros specs.
  - intros [= <-]. constructor.
  - destruct (introspect_field n fi) as [r|e] eqn:Hr; simpl; [|discriminate].
    destruct (introspect_fields rest) as [specs'|e]; simpl; [|discriminate].
    intros [= <-]. specialize (IH specs' eq_refl).
    destruct r as [spec|]; [|exact IH].
    constructor; [|exact IH]. exact (introspect_field_class_flags n fi spec Hr).
Qed.

Section EnumPrompt.
Context `{PyRuntime}.
Variable other_prompt : Handler -> FieldSpec -> pyobj -> Wizard.W pyobj.

(** X26: For every descriptor [introspect_model] returns, the class flags are
    sound: a descriptor flagged as an enum has a subclass of [Enum] as its
    inner type and one flagged as a nested model a subclass of
    [BaseModel].  So [EnumHandler.prompt] never falls back to the string
    prompt for a field of a model, be it called on the field's descriptor
    or, for an optional field, on the one the optional handler builds. *)
Theorem EnumHandler_prompt_never_falls_back (model_class : BaseModelClass)
    (specs : list FieldSpec) (spec : FieldSpec)
    (Hspecs : introspect_model model_class = Ok specs)
    (Hspec : spec ∈ specs) :
  (is_enum spec = true ->
   (exists e, inner_type spec = Some (Plain (CEnum e))) /\
   forall default,
     Wizard.EnumHandler_prompt other_prompt spec default
     = other_prompt EnumHandler spec default /\
     Wizard.EnumHandler_prompt other_prompt (OptionalHandler_inner_spec spec) default
     = other_prompt EnumHandler (OptionalHandler_inner_spec spec) default) /\
  (is_pydantic_model spec = true ->
   exists m, inner_type spec = Some (Plain (CModel m))).
Proof.
  apply introspect_fields_class_flags in Hspecs.
  rewrite Forall_forall in Hspecs.
  destruct (Hspecs spec Hspec) as [He Hm].
  split; [|exact Hm].
  intros Henum. destruct (He Henum) as [e Hinner].
  split; [eauto|].
  intros default. unfold Wizard.EnumHandler_prompt.
  cbn [OptionalHandler_inner_spec inner_type]. rewrite Hinner.
  split; reflexivity.
Qed.

End EnumPrompt.

(** ** Composite handlers called without a registry, and the union prompt *)

Lemma dict_set_texts (k v : pyobj) (kv : list (pyobj * pyobj)) :
  text_or_None k = true -> text_or_None v = true ->
  texts kv = true -> texts (dict_set k v kv) = true.
Proof.
  intros Hk Hv. unfold texts.
  induction kv as [|[k' v'] rest IH]; simpl.
  - intros _. now rewrite Hk, Hv.
  - intros Hkv. apply andb_prop in Hkv as [Hhead Hrest].
    apply andb_prop in Hhead as [Hk' Hv'].
    destruct (value_eqb k k'); simpl.
    + now rewrite Hk', Hv, Hrest.
    + now rewrite Hk', Hv', (IH Hrest).
Qed.

Lemma str_or_None_text (r : option string) :
  text_or_None (Wizard.str_or_None r) = true.
Proof. now destruct r. Qed.

(** The last member of a union that bears a name is the one the name
    stands for in [type_map]. *)
Lemma type_map_last_wins (type_name : type_annotation -> string)
    (tp : type_annotation) (after : list type_annotation) :
  Forall (fun t => type_name t <> type_name tp) after ->
  forall type_map : gmap string type_annotation,
    type_map !! type_name tp = Some tp ->
    foldl (fun type_map t => <[type_name t := t]> type_map) type_map after
    !! type_name tp = Some tp.
Proof.
  induction 1 as [|t after Ht _ IH]; intros type_map Hm; cbn [foldl]; [exact Hm|].
  apply IH. rewrite lookup_insert_ne; [exact Hm|exact Ht].
Qed.

Section WithoutRegistry.
Context `{PyRuntime}.
Variable annotation_str : type_annotation -> string.
Variable args_str : list type_annotation -> string.
Variable type_name : type_annotation -> string.
Variable class_name_of : pyobj -> string.
Variable questionary_select :
  string -> list string -> option string -> Wizard.W (option string).
Variable other_prompt : Handler -> FieldSpec -> pyobj -> Wizard.W pyobj.
Variable custom_prompt : custom_handler -> FieldSpec -> pyobj -> Wizard.W pyobj.

Lemma DictHandler_entries_texts
    (inner : Handler -> FieldSpec -> pyobj -> Wizard.W pyobj)
    (spec : FieldSpec) (default_items : list (pyobj * pyobj)) :
  forall remaining i result c c' result',
    Wizard.DictHandler_entries inner spec default_items None remaining i result c
    = Wizard.Done result' c' ->
    texts result = true -> texts result' = true.
Proof.
  induction remaining as [|remaining IH]; intros i result c c' result'; simpl.
  - now intros [= <- _].
  - intros Hdone Hresult.
    apply W_bind_Done in Hdone as (key & c1 & _ & Hdone).
    apply W_bind_Done in Hdone as (result1 & c2 & Hstep & Hdone).
    apply W_bind_Done in Hstep as (value & c3 & _ & Hstep).
    injection Hstep as <- _.
    apply (IH _ _ _ _ _ Hdone).
    apply dict_set_texts; [apply str_or_None_text..|exact Hresult].
Qed.

Lemma DictHandler_prompt_no_registry
    (inner : Handler -> FieldSpec -> pyobj -> Wizard.W pyobj)
    (spec : FieldSpec) (default : pyobj) (c c' : Wizard.console) (v : pyobj) :
  Wizard.DictHandler_prompt inner spec default None c = Wizard.Done v c' ->
  exists kv, v = VDict kv /\ texts kv = true.
Proof.
  unfold Wizard.DictHandler_prompt. intros Hdone.
  apply W_bind_Done in Hdone as (count_str & c1 & _ & Hdone).
  apply W_bind_Done in Hdone as (count & c2 & _ & Hdone).
  apply W_bind_Done in Hdone as (result & c3 & Hentries & Hret).
  apply DictHandler_entries_texts in Hentries; [|reflexivity].
  injection Hret as <- _. eauto.
Qed.

(** X27: For an optional field whose inner shape is a dict, the optional
    handler calls the dict handler without a registry, and the dict
    handler then reads every value with a plain text prompt: whatever the
    value type, each key and each value of the dict returned is the
    operator's text, a string, or [None] where a prompt was interrupted. *)
Theorem OptionalHandler_prompt_dict_texts (spec : FieldSpec) (default : pyobj)
    (registry : TypeHandlerRegistry) (c c' : Wizard.console) (v : pyobj)
    (Hhandler : get_handler registry (OptionalHandler_inner_spec spec)
                = Some DictHandler)
    (Hdone : Wizard.OptionalHandler_prompt annotation_str args_str
               (Wizard.prompt annotation_str args_str type_name class_name_of
                  questionary_select other_prompt custom_prompt)
               spec default (Some registry) c
             = Wizard.Done v c') :
  v = VNone \/
  exists kv, v = VDict kv /\
    Forall (fun entry => text_or_None (fst entry) = true /\
                         text_or_None (snd entry) = true) kv.
Proof.
  unfold Wizard.OptionalHandler_prompt in Hdone.
  apply W_bind_Done in Hdone as (should_configure & c1 & _ & Hdone).
  destruct should_configure as [[|]|];
    try (injection Hdone as <- _; left; reflexivity).
  rewrite Hhandler in Hdone. simpl in Hdone.
  apply DictHandler_prompt_no_registry in Hdone as (kv & -> & Hkv).
  right. exists kv. split; [reflexivity|].
  unfold texts in Hkv.
  induction kv as [|entry kv IH]; constructor; simpl in Hkv;
    apply andb_prop in Hkv as [Hentry Hkv];
    [apply andb_prop in Hentry; exact Hentry|exact (IH Hkv)].
Qed.

(** X28: At the union prompt a class name stands for the last member of the
    union that bears it: when the operator picks the name of [tp] and no
    later member has the same name, the prompt goes to the handler the
    registry has for [tp] (and returns [None] when it has none); a member
    that shares its name with a later one cannot be chosen.  When the
    selection is interrupted, the look-up of [None] raises [KeyError]. *)
Theorem UnionHandler_prompt_last_name_wins
    (inner : Handler -> FieldSpec -> pyobj -> Wizard.W pyobj)
    (spec : FieldSpec) (default : pyobj) (registry : TypeHandlerRegistry)
    (before after : list type_annotation) (tp : type_annotation)
    (c c1 : Wizard.console) (chosen_name : option string)
    (Htypes : union_types spec = before ++ tp :: after)
    (Hlast : Forall (fun t => type_name t <> type_name tp) after)
    (Hselect : questionary_select ("  " +:+ name spec +:+ " - which type?")
                 (map type_name (union_types spec))
                 (if is_None default then None else Some (class_name_of default)) c
               = Wizard.Done chosen_name c1) :
  (chosen_name = Some (type_name tp) ->
   Wizard.UnionHandler_prompt type_name class_name_of questionary_select inner
     spec default (Some registry) c
   = match get_handler registry (Wizard.UnionHandler_inner_spec spec tp) with
     | Some handler => inner handler (Wizard.UnionHandler_inner_spec spec tp) default c1
     | None => Wizard.Done VNone c1
     end) /\
  (chosen_name = None ->
   Wizard.UnionHandler_prompt type_name class_name_of questionary_select inner
     spec default (Some registry) c
   = Wizard.Failed KeyError c1).
Proof.
  unfold Wizard.UnionHandler_prompt.
  unfold mbind at 1 3, Wizard.W_bind. rewrite Hselect.
  split; intros ->; [|reflexivity].
  cbn [mbind option_bind].
  rewrite Htypes, foldl_app. cbn [foldl].
  rewrite (type_map_last_wins type_name tp after Hlast);
    [|apply lookup_insert_eq].
  destruct (get_handler registry _); reflexivity.
Qed.

End WithoutRegistry.

(** ** The integer prompt accepts what is within the bounds *)

Section IntPromptAccepts.
Context `{PyRuntime}.

Lemma check_bound_kept (constraints : gmap string pyobj) (attr sign : string)
    (broken : pyobj -> outcome bool) :
  (forall bound, constraints !! attr = Some bound -> broken bound = Ok false) ->
  Wizard.check_bound constraints attr broken sign = Ok None.
Proof.
  unfold Wizard.check_bound. intros Hkept.
  destruct (constraints !! attr) as [bound|]; [|reflexivity].
  now rewrite (Hkept bound eq_refl).
Qed.

(** X29: A non-negative integer typed in decimal that breaks none of the
    bounds [ge], [le], [gt], [lt] of the field passes the validator at
    once and is what [IntHandler.prompt] returns, whether the field is
    required or not and whatever the default. *)
Theorem IntHandler_prompt_accepts (spec : FieldSpec) (default : pyobj)
    (n : Z) (rest : list text_answer) (c : Wizard.console)
    (Hn : (0 <= n)%Z)
    (Hdigits : (String.length (str_of_int n) <= int_max_str_digits)%nat)
    (Htyped : Wizard.text_replies c = Typed (str_of_int n) :: rest)
    (Hge : forall bound, constraints spec !! "ge" = Some bound ->
                         int_lt n bound = Ok false)
    (Hle : forall bound, constraints spec !! "le" = Some bound ->
                         int_gt n bound = Ok false)
    (Hgt : forall bound, constraints spec !! "gt" = Some bound ->
                         int_le n bound = Ok false)
    (Hlt : forall bound, constraints spec !! "lt" = Some bound ->
                         int_ge n bound = Ok false) :
  Wizard.IntHandler_prompt spec default c
  = Wizard.Done (VInt n)
      {| Wizard.confirm_replies := Wizard.confirm_replies c;
         Wizard.text_replies := rest;
         Wizard.shown :=
           Wizard.shown c
           ++ [Wizard.TextPrompt ("  " +:+ name spec +:+ " (int):")
                 (if is_None default then "" else py_str default)] |}.
Proof.
  pose proof (int_of_str_of_int n Hn Hdigits) as Hint.
  pose proof (str_of_int_nonneg n Hn) as Hstr.
  assert (Hstrip : strip (str_of_int n) = str_of_int n).
  { rewrite Hstr. unfold strip. rewrite list_ascii_of_string_of_list_ascii.
    now rewrite strip_digits by apply digits_of_N_digits. }
  assert (Hne : String.eqb (str_of_int n) "" = false).
  { rewrite Hstr. apply string_of_list_ascii_nonempty, digits_of_N_nonempty. }
  assert (Hvalid : Wizard.validate_int spec (str_of_int n) = Ok Wizard.Accepted).
  { unfold Wizard.validate_int. rewrite Hstrip, Hne, Hint.
    rewrite (check_bound_kept _ "ge" ">=" _ Hge). cbn [mbind outcome_bind].
    rewrite (check_bound_kept _ "le" "<=" _ Hle). cbn [mbind outcome_bind].
    rewrite (check_bound_kept _ "gt" ">" _ Hgt). cbn [mbind outcome_bind].
    rewrite (check_bound_kept _ "lt" "<" _ Hlt). reflexivity. }
  unfold Wizard.IntHandler_prompt.
  unfold mbind at 1, Wizard.W_bind, Wizard.questionary_text.
  cbn [Wizard.show Wizard.text_replies Wizard.confirm_replies Wizard.shown].
  rewrite Htyped. cbn [Wizard.first_accepted]. rewrite Hvalid.
  unfold Wizard.non_blank. rewrite Hstrip, Hne. cbn [negb andb].
  unfold mbind, Wizard.W_bind, Wizard.from_outcome. rewrite Hint. reflexivity.
Qed.

End IntPromptAccepts.

Lemma IntHandler_prompt_accepts_witness :
  @Wizard.IntHandler_prompt plain_runtime retries_spec (VInt 2)
    (Wizard.Console [] [Typed "4"] [])
  = Wizard.Done (VInt 4)
      (Wizard.Console [] [] [Wizard.TextPrompt "  retries (int):" "2"]).
Proof.
  rewrite (@IntHandler_prompt_accepts plain_runtime retries_spec (VInt 2) 4 []
             (Wizard.Console [] [Typed "4"] []));
    [reflexivity|lia|vm_compute; lia|reflexivity|..];
    intros bound Hbound; vm_compute in Hbound;
    try discriminate Hbound; injection Hbound as <-; reflexivity.
Defined.

(** ** Examples *)

Lemma prepare_value_prepared_witness :
  exists r, @_prepare_value plain_runtime job_instance = Some r /\
            prepared r = true.
Proof.
  apply (@prepare_value_prepared plain_runtime job_instance). reflexivity.
Defined.

Lemma prepare_value_idempotent_witness :
  exists r, @_prepare_value plain_runtime job_instance = Some r /\
            @_prepare_value plain_runtime r = Some r.
Proof.
  apply (@prepare_value_idempotent plain_runtime job_instance). reflexivity.
Defined.

Lemma prepare_value_set_order_independent_witness :
  @_prepare_value plain_runtime (VSet [VStr "b"; VStr "a"])
  = @_prepare_value plain_runtime (VSet [VStr "a"; VStr "b"]).
Proof.
  apply (@prepare_value_set_order_independent plain_runtime
           [VStr "b"; VStr "a"] [VStr "a"; VStr "b"]).
  - apply perm_swap.
  - intros x y Hx Hy.
    apply elem_of_cons in Hx as [->|Hx]; [|apply list_elem_of_singleton in Hx as ->];
      (apply elem_of_cons in Hy as [->|Hy];
       [|apply list_elem_of_singleton in Hy as ->]);
      simpl; intros Heq; first [reflexivity | discriminate Heq].
Defined.

Lemma serialize_agrees_with_prepare_value_witness :
  exists raw,
    @serialize plain_runtime DecimalHandler (VDecimal (Decimal false 1999 (-2)))
    = Ok raw /\
    @_prepare_value plain_runtime (VDecimal (Decimal false 1999 (-2))) = Some raw.
Proof.
  apply (@serialize_agrees_with_prepare_value plain_runtime DecimalHandler).
  reflexivity.
Defined.

Lemma format_default_shows_effective_default_witness :
  @effective_default_of plain_runtime ∅
    (set_default (VInt 5) (FieldSpec_new "retries")) = Ok (VInt 5) /\
  @_format_default plain_runtime sample_repr
    (set_default (VInt 5) (FieldSpec_new "retries"))
  = sample_repr (VInt 5).
Proof.
  destruct (@format_default_shows_effective_default plain_runtime sample_repr
              (set_default (VInt 5) (FieldSpec_new "retries")) eq_refl eq_refl)
    as (v & Heffective & Hshown & _).
  assert (Hv : v = VInt 5).
  { assert (Hrun : @effective_default_of plain_runtime ∅
                     (set_default (VInt 5) (FieldSpec_new "retries"))
                   = Ok (VInt 5)) by reflexivity.
    rewrite Hrun in Heffective. now injection Heffective as <-. }
  subst v. split; [exact Heffective|exact Hshown].
Defined.

Lemma yaml_document_names_its_class_witness :
  exists document configuration,
    @serialize_to_yaml plain_runtime "1.0" [(VStr "nickname", VNone)]
      Profile_class "Profile" = Some document /\
    @_prepare_dict plain_runtime [(VStr "nickname", VNone)] = Some configuration /\
    load_from_yaml document
    = inl (VStr "Profile", VStr "myapp.config.Profile", configuration) /\
    resolve_config_class sample_import_module "myapp.config.Profile"
    = inl Profile_class.
Proof.
  apply (@yaml_document_names_its_class plain_runtime sample_import_module "1.0"
           [(VStr "nickname", VNone)] Profile_class "Profile" Profile
           {["Profile" := AttrClass Profile_class]}).
  - reflexivity.
  - simpl. intros Hin.
    repeat (apply elem_of_cons in Hin as [Hin|Hin]; [discriminate Hin|]).
    inversion Hin.
  - reflexivity.
  - reflexivity.
Defined.

Lemma IntHandler_prompt_within_bounds_witness :
  @Wizard.IntHandler_prompt plain_runtime retries_spec VNone
    (Wizard.Console [] [Typed "9"; Typed " 3 "] [])
  = Wizard.Done (VInt 3)
      (Wizard.Console [] [] [Wizard.TextPrompt "  retries (int):" ""]) /\
  int_lt 3 (VInt 1) = Ok false /\ int_gt 3 (VInt 5) = Ok false.
Proof.
  assert (Hrun :
    @Wizard.IntHandler_prompt plain_runtime retries_spec VNone
      (Wizard.Console [] [Typed "9"; Typed " 3 "] [])
    = Wizard.Done (VInt 3)
        (Wizard.Console [] [] [Wizard.TextPrompt "  retries (int):" ""]))
    by (vm_compute; reflexivity).
  split; [exact Hrun|].
  destruct (@IntHandler_prompt_within_bounds plain_runtime _ _ _ _ _ Hrun)
    as [Hdefault|(n & Hn & Hge & Hle & _)]; [discriminate Hdefault|].
  injection Hn as <-. split; [apply Hge|apply Hle]; reflexivity.
Defined.

Lemma TimedeltaHandler_prompt_seconds_witness :
  Wizard.TimedeltaHandler_prompt ttl_spec (VTimedelta (Timedelta 30000000))
    (Wizard.Console [] [Typed "90"] [])
  = Wizard.Done (VTimedelta (Timedelta 90000000))
      (Wizard.Console [] [] [Wizard.TextPrompt "  ttl (total seconds):" "30"]) /\
  Wizard.TimedeltaHandler_prompt ttl_spec VNone
    (Wizard.Console [] [Typed "86400000000000"] [])
  = Wizard.Failed OverflowError
      (Wizard.Console [] [] [Wizard.TextPrompt "  ttl (total seconds):" ""]).
Proof.
  split.
  - destruct (TimedeltaHandler_prompt_seconds ttl_spec
                (VTimedelta (Timedelta 30000000)) 90 []
                (Wizard.Console [] [Typed "90"] []))
      as (default_seconds & (k & Hk & ->) & ->);
      [intros td [= <-]; vm_compute; split; discriminate
      |lia|vm_compute; lia|reflexivity|].
    assert (Hrun : float_trunc (total_seconds (Timedelta 30000000)) = Ok 30%Z)
      by reflexivity.
    rewrite Hrun in Hk. injection Hk as <-. reflexivity.
  - destruct (TimedeltaHandler_prompt_seconds ttl_spec VNone
                86400000000000 []
                (Wizard.Console [] [Typed "86400000000000"] []))
      as (default_seconds & -> & ->);
      [discriminate|lia|vm_compute; lia|reflexivity|].
    reflexivity.
Defined.

Lemma ListHandler_prompt_empty_witness :
  element_handler (inner_type nested_list_spec) = None /\
  exists v c',
    Wizard.ListHandler_prompt sample_prompt nested_list_spec VNone
      (Some TypeHandlerRegistry_new) (Wizard.Console [] [Typed "2"] [])
    = Wizard.Done v c' /\ v = VList [].
Proof.
  split; [reflexivity|].
  assert (Hrun :
    Wizard.ListHandler_prompt sample_prompt nested_list_spec VNone
      (Some TypeHandlerRegistry_new) (Wizard.Console [] [Typed "2"] [])
    = Wizard.Done (VList [])
        (Wizard.Console [] []
           [Wizard.TextPrompt "  How many items for tags?" "1"]))
    by (vm_compute; reflexivity).
  eexists _, _. split; [exact Hrun|].
  eapply (ListHandler_prompt_empty sample_prompt nested_list_spec VNone
            (Some TypeHandlerRegistry_new)); [|exact Hrun].
  right. split; reflexivity.
Defined.

Lemma ListHandler_prompt_of_models_witness :
  Wizard.ListHandler_prompt sample_prompt model_list_spec VNone
    (Some TypeHandlerRegistry_new) (Wizard.Console [] [Typed "2"] [])
  = Wizard.Done (VList [VNone; VNone])
      (Wizard.Console [] [] [Wizard.TextPrompt "  How many items for jobs?" "1"]) /\
  exists count, VList [VNone; VNone] = VList (replicate count VNone).
Proof.
  assert (Hrun :
    Wizard.ListHandler_prompt sample_prompt model_list_spec VNone
      (Some TypeHandlerRegistry_new) (Wizard.Console [] [Typed "2"] [])
    = Wizard.Done (VList [VNone; VNone])
        (Wizard.Console [] []
           [Wizard.TextPrompt "  How many items for jobs?" "1"]))
    by (vm_compute; reflexivity).
  split; [exact Hrun|].
  exact (@ListHandler_prompt_of_models plain_runtime sample_annotation_str
           sample_args_str sample_annotation_str sample_class_name_of
           sample_select Wizard.no_handler sample_custom_prompt
           model_list_spec VNone "Job" _ _ _ eq_refl Hrun).
Defined.

Lemma ListHandler_prompt_length_witness :
  Wizard.ListHandler_prompt sample_prompt int_list_spec VNone
    (Some TypeHandlerRegistry_new)
    (Wizard.Console [] [Typed "2"; Typed "80"; Typed "443"] [])
  = Wizard.Done (VList [VInt 80; VInt 443])
      (Wizard.Console [] []
         [Wizard.TextPrompt "  How many items for ports?" "1";
          Wizard.TextPrompt "  ports[0] (int):" "";
          Wizard.TextPrompt "  ports[1] (int):" ""]) /\
  exists items, VList [VInt 80; VInt 443] = VList items /\
                length items = Z.to_nat 2.
Proof.
  assert (Hrun :
    Wizard.ListHandler_prompt sample_prompt int_list_spec VNone
      (Some TypeHandlerRegistry_new)
      (Wizard.Console [] [Typed "2"; Typed "80"; Typed "443"] [])
    = Wizard.Done (VList [VInt 80; VInt 443])
        (Wizard.Console [] []
           [Wizard.TextPrompt "  How many items for ports?" "1";
            Wizard.TextPrompt "  ports[0] (int):" "";
            Wizard.TextPrompt "  ports[1] (int):" ""]))
    by (vm_compute; reflexivity).
  split; [exact Hrun|].
  eapply (ListHandler_prompt_length sample_prompt int_list_spec VNone IntHandler 2
            [Typed "80"; Typed "443"]);
    [reflexivity|lia|vm_compute; lia| |exact Hrun].
  reflexivity.
Defined.

Lemma OptionalHandler_prompt_nested_shapes_witness :
  _resolve_type (Generic OUnionType [Generic OList [Plain CInt]; Plain CNoneType])
  = Ok (set_name "" optional_list_spec) /\
  get_handler TypeHandlerRegistry_new (OptionalHandler_inner_spec optional_list_spec)
  = Some ListHandler /\
  exists v c',
    Wizard.OptionalHandler_prompt sample_annotation_str sample_args_str
      sample_prompt optional_list_spec VNone (Some TypeHandlerRegistry_new)
      (Wizard.Console [SayYes] [Typed "3"] [])
    = Wizard.Done v c' /\ v = VList [].
Proof.
  split; [reflexivity|]. split; [reflexivity|].
  assert (Hrun :
    Wizard.OptionalHandler_prompt sample_annotation_str sample_args_str
      sample_prompt optional_list_spec VNone (Some TypeHandlerRegistry_new)
      (Wizard.Console [SayYes] [Typed "3"] [])
    = Wizard.Done (VList [])
        (Wizard.Console [] []
           [Wizard.ConfirmPrompt "  Configure ports? (None)" false;
            Wizard.TextPrompt "  How many items for ports?" "1"]))
    by (vm_compute; reflexivity).
  eexists _, _. split; [exact Hrun|].
  destruct (@OptionalHandler_prompt_nested_shapes plain_runtime
              sample_annotation_str sample_args_str sample_annotation_str
              sample_class_name_of sample_select Wizard.no_handler
              sample_custom_prompt optional_list_spec VNone
              TypeHandlerRegistry_new ListHandler _ _ _ eq_refl
              (or_introl eq_refl) Hrun) as [Hv|[Hv|Hv]];
    [discriminate Hv|exact Hv|discriminate Hv].
Defined.

Lemma DictHandler_prompt_empty_witness :
  value_handler (value_type model_dict_spec) = None /\
  exists v c',
    @Wizard.DictHandler_prompt plain_runtime sample_prompt model_dict_spec VNone
      (Some TypeHandlerRegistry_new)
      (Wizard.Console [] [Typed "1"; Typed "default"] [])
    = Wizard.Done v c' /\ v = VDict [].
Proof.
  split; [reflexivity|].
  assert (Hrun :
    @Wizard.DictHandler_prompt plain_runtime sample_prompt model_dict_spec VNone
      (Some TypeHandlerRegistry_new)
      (Wizard.Console [] [Typed "1"; Typed "default"] [])
    = Wizard.Done (VDict [])
        (Wizard.Console [] []
           [Wizard.TextPrompt "  How many entries for limits?" "0";
            Wizard.TextPrompt "  Key [0]:" ""]))
    by (vm_compute; reflexivity).
  eexists _, _. split; [exact Hrun|].
  exact (@DictHandler_prompt_empty plain_runtime sample_prompt model_dict_spec
           VNone _ _ _ eq_refl Hrun).
Defined.

Lemma EnumHandler_prompt_never_falls_back_witness :
  introspect_model Ticket = Ok [status_spec] /\
  is_enum status_spec = true /\
  inner_type status_spec = Some (Plain (CEnum Status)) /\
  @Wizard.EnumHandler_prompt plain_runtime Wizard.no_handler
    (OptionalHandler_inner_spec status_spec) VNone
  = Wizard.no_handler EnumHandler (OptionalHandler_inner_spec status_spec) VNone.
Proof.
  split; [reflexivity|]. split; [reflexivity|]. split; [reflexivity|].
  destruct (@EnumHandler_prompt_never_falls_back plain_runtime Wizard.no_handler
              Ticket [status_spec] status_spec eq_refl
              (list_elem_of_here _ _)) as [Henum _].
  destruct (Henum eq_refl) as [_ Hprompt].
  exact (proj2 (Hprompt VNone)).
Defined.

Lemma OptionalHandler_prompt_dict_texts_witness :
  _resolve_type (Generic OUnionType [Generic ODict [Plain CStr; Plain CInt];
                                     Plain CNoneType])
  = Ok (set_name "" optional_dict_spec) /\
  get_handler TypeHandlerRegistry_new (OptionalHandler_inner_spec optional_dict_spec)
  = Some DictHandler /\
  exists c',
    Wizard.OptionalHandler_prompt sample_annotation_str sample_args_str
      sample_prompt optional_dict_spec VNone (Some TypeHandlerRegistry_new)
      (Wizard.Console [SayYes] [Typed "1"; Typed "a"; Typed "5"] [])
    = Wizard.Done (VDict [(VStr "a", VStr "5")]) c' /\
    Forall (fun entry => text_or_None (fst entry) = true /\
                         text_or_None (snd entry) = true)
           [(VStr "a", VStr "5")].
Proof.
  split; [reflexivity|]. split; [reflexivity|].
  assert (Hrun :
    Wizard.OptionalHandler_prompt sample_annotation_str sample_args_str
      sample_prompt optional_dict_spec VNone (Some TypeHandlerRegistry_new)
      (Wizard.Console [SayYes] [Typed "1"; Typed "a"; Typed "5"] [])
    = Wizard.Done (VDict [(VStr "a", VStr "5")])
        (Wizard.Console [] []
           [Wizard.ConfirmPrompt "  Configure limits? (None)" false;
            Wizard.TextPrompt "  How many entries for limits?" "0";
            Wizard.TextPrompt "  Key [0]:" "";
            Wizard.TextPrompt "  Value for 'a':" ""]))
    by (vm_compute; reflexivity).
  eexists. split; [exact Hrun|].
  destruct (@OptionalHandler_prompt_dict_texts plain_runtime
              sample_annotation_str sample_args_str sample_annotation_str
              sample_class_name_of sample_select Wizard.no_handler
              sample_custom_prompt optional_dict_spec VNone
              TypeHandlerRegistry_new _ _ _ eq_refl Hrun)
    as [Hv|(kv & Hv & Hkv)]; [discriminate Hv|].
  injection Hv as <-. exact Hkv.
Defined.

Lemma UnionHandler_prompt_last_name_wins_witness :
  Wizard.UnionHandler_prompt sample_type_name sample_class_name_of select_first
    sample_prompt same_name_union_spec VNone (Some TypeHandlerRegistry_new)
    (Wizard.Console [] [] [])
  = Wizard.Done VNone (Wizard.Console [] [] []).
Proof.
  assert (Hlast :
    Forall (fun t => sample_type_name t
                     <> sample_type_name (Plain (CClass "Config")))
           [Plain CInt]).
  { constructor; [discriminate|constructor]. }
  exact (proj1
           (UnionHandler_prompt_last_name_wins sample_type_name
              sample_class_name_of select_first sample_prompt
              same_name_union_spec VNone TypeHandlerRegistry_new
              [Plain (CModel "Config")] [Plain CInt] (Plain (CClass "Config"))
              (Wizard.Console [] [] []) (Wizard.Console [] [] [])
              (Some "Config") eq_refl Hlast eq_refl)
           eq_refl).
Defined.

